(** * Moderation engine of the chat bot: a shallow embedding and its properties

    The development follows the Python sources:
    - [utils/text_utils.py]            text normalisation, Zalgo classifier
    - [handlers/helpers.py]            per-user cache of message ids, purge
    - [utils/helpers.py]               cache of the bot's own messages
    - [utils/database.py]              global-ban registry, profile checks
    - [handlers/message_handlers.py]   content moderation pipeline
    - [handlers/member_handlers.py]    profile screening, captcha timeout
    - [handlers/admin_handlers.py]     periodic rescan

    Python [str] values are lists of code points, [int] is [Z], wall-clock
    readings are rationals.  Module-level dictionaries are association
    lists in insertion order (the order Python dictionaries iterate in).
    Handlers are computations in a state-and-exception monad over a
    [world]; a raised exception keeps the mutations made before it. *)

From Stdlib Require Import ZArith QArith Qminmax List Bool Lia Lqa.
Import ListNotations.
Local Open Scope Z_scope.

Set Implicit Arguments.

(** ** Text *)

Definition text := list Z.

Definition text_eqb (a b : text) : bool :=
  if list_eq_dec Z.eq_dec a b then true else false.

(** Python truthiness of a string: [if not s] holds for the empty one. *)
Definition nonempty (s : text) : bool :=
  match s with [] => false | _ :: _ => true end.

(** [needle in haystack] on strings. *)
Fixpoint is_prefix (p s : text) : bool :=
  match p, s with
  | [], _ => true
  | _ :: _, [] => false
  | a :: p', b :: s' => (a =? b) && is_prefix p' s'
  end.

Fixpoint str_in (needle haystack : text) : bool :=
  is_prefix needle haystack ||
  match haystack with
  | [] => false
  | _ :: rest => str_in needle rest
  end.

(** The tables of the Python runtime that the code consults.  They are
    data of the interpreter, not of the repository, and are taken as
    parameters. *)
Record Runtime := {
  (* unicodedata.normalize('NFD', s) *)
  nfd : text -> text;
  (* unicodedata.category(c) in ('Mn', 'Mc', 'Me') *)
  category_is_mark : Z -> bool;
  (* str.lower *)
  str_lower : text -> text;
  (* str.isspace on one character: the separators of str.split() *)
  str_isspace : Z -> bool;
  (* any(re.search(p, s) for p in link_patterns), check_user_message *)
  link_patterns_search : text -> bool;
  (* LINK_IN_BIO_PATTERN.search(s) is not None, member_handlers *)
  link_in_bio_search : text -> bool
}.

Section TextUtils.
Variable R : Runtime.

(** [s.split()]: maximal runs of non-space characters. *)
Fixpoint split_ws (acc : text) (s : text) : list text :=
  match s with
  | [] => match acc with [] => [] | _ => [rev acc] end
  | c :: rest =>
      if str_isspace R c
      then match acc with
           | [] => split_ws [] rest
           | _ => rev acc :: split_ws [] rest
           end
      else split_ws (c :: acc) rest
  end.

(** [" ".join(parts)] *)
Fixpoint join_space (parts : list text) : text :=
  match parts with
  | [] => []
  | [p] => p
  | p :: ps => p ++ 32 :: join_space ps
  end.

Definition normalize_text (s : text) : text :=
  if nonempty s then join_space (split_ws [] (str_lower R s)) else [].

(** The counting loop of [is_zalgo_text] over the decomposed text:
    the pair is (diacritics_count, base_chars_count). *)
Definition zalgo_step (acc : Z * Z) (char : Z) : Z * Z :=
  if category_is_mark R char then (fst acc + 1, snd acc) else (fst acc, snd acc + 1).

Definition zalgo_counts (s : text) : Z * Z :=
  fold_left zalgo_step (nfd R s) (0, 0).


(** [ratio_threshold] is a Python float; the quotient and the comparison
    are taken over the rationals. *)
Definition is_zalgo_text (s : text) (min_diacritics : Z) (ratio_threshold : Q) : bool :=
  if negb (nonempty s) then false
  else
    let '(d, b) := zalgo_counts s in
    if d <? min_diacritics then false
    else if b =? 0 then 0 <? d
    else Qle_bool ratio_threshold (inject_Z d / inject_Z b).
End TextUtils.

(** ** Configuration ([config.py] and the module-level constants) *)

Record Config := {
  MAX_WARNINGS : Z;
  MUTE_DURATION_MINUTES : Z;
  CAPS_THRESHOLD : Z;
  MAX_IDENTICAL_MESSAGES_BEFORE_WARN : Z;
  AVATAR_HASH_THRESHOLD : Z;
  MODERATE_ADMINS : bool;
  MODERATE_BOTS : bool;
  ZALGO_MIN_DIACRITICS : Z;
  ZALGO_RATIO_THRESHOLD : Q;
  (* read from the environment variable of the same name *)
  ADMIN_IDS : list Z
}.

(** The values written in [config.py]. *)
Definition config_py (admin_ids : list Z) : Config := {|
  MAX_WARNINGS := 2;
  MUTE_DURATION_MINUTES := 30;
  CAPS_THRESHOLD := 8;
  MAX_IDENTICAL_MESSAGES_BEFORE_WARN := 3;
  AVATAR_HASH_THRESHOLD := 5;
  MODERATE_ADMINS := false;
  MODERATE_BOTS := false;
  ZALGO_MIN_DIACRITICS := 4;
  ZALGO_RATIO_THRESHOLD := 1 # 2;
  ADMIN_IDS := admin_ids
|}.

Definition MAX_HISTORY_USERS : Z := 1000.
Definition SPAM_WINDOW_SECONDS : Q := 60.
Definition USER_MESSAGE_CACHE_SIZE : nat := 200.
Definition BOT_MESSAGE_CACHE_SIZE : nat := 20.
Definition AVATAR_CHECK_COOLDOWN : Q := 300.
Definition BIO_CHECK_COOLDOWN : Q := 300.

(** ** Python dictionaries, in insertion order *)

Section Dict.
Variables K V : Type.
Variable eqb : K -> K -> bool.

Definition dict := list (K * V).

Fixpoint dict_get (k : K) (d : dict) : option V :=
  match d with
  | [] => None
  | (k', v) :: rest => if eqb k k' then Some v else dict_get k rest
  end.

(** [d[k] = v]: an existing key keeps its place, a new one goes last. *)
Fixpoint dict_set (k : K) (v : V) (d : dict) : dict :=
  match d with
  | [] => [(k, v)]
  | (k', v') :: rest =>
      if eqb k k' then (k', v) :: rest else (k', v') :: dict_set k v rest
  end.

(** [del d[k]] / [d.pop(k, default)] as far as the dictionary goes. *)
Fixpoint dict_del (k : K) (d : dict) : dict :=
  match d with
  | [] => []
  | (k', v') :: rest =>
      if eqb k k' then rest else (k', v') :: dict_del k rest
  end.

Definition dict_mem (k : K) (d : dict) : bool :=
  match dict_get k d with Some _ => true | None => false end.
End Dict.

Definition key_eqb (a b : Z * Z) : bool :=
  (fst a =? fst b) && (snd a =? snd b).

(** ** Telegram objects *)

Record User := {
  user_id : Z;
  username : option text;
  first_name : text;
  last_name : option text;
  is_bot : bool
}.

Inductive ChatType := PRIVATE | GROUP | SUPERGROUP | CHANNEL.

Inductive EntityType := URL | TEXT_LINK | OTHER_ENTITY.

Record Message := {
  message_id : Z;
  chat_id : Z;
  chat_type : ChatType;
  from_user : option User;
  msg_text : option text;
  caption : option text;
  entities : list EntityType;
  caption_entities : list EntityType;
  forward_from_chat : option ChatType
}.

Record Update := {
  message : option Message;
  edited_message : option Message
}.

(** [update.effective_message], and the chat and user derived from it. *)
Definition effective_message (u : Update) : option Message :=
  match message u with
  | Some m => Some m
  | None => edited_message u
  end.

Definition effective_chat (u : Update) : option Z :=
  option_map chat_id (effective_message u).

Definition effective_user (u : Update) : option User :=
  match effective_message u with
  | Some m => from_user m
  | None => None
  end.

(** The member objects returned by [get_chat_member].  Only a restricted
    member carries [can_send_messages], only an administrator carries
    [can_restrict_members]. *)
Inductive ChatMember :=
| OWNER
| ADMINISTRATOR (can_restrict_members : bool)
| MEMBER
| RESTRICTED (can_send_messages can_send_photos : bool)
| LEFT
| KICKED.

Definition is_chat_admin (m : ChatMember) : bool :=
  match m with OWNER | ADMINISTRATOR _ => true | _ => false end.

(** [getattr(bot_member, 'can_restrict_members', False)] *)
Definition getattr_can_restrict_members (m : ChatMember) : bool :=
  match m with ADMINISTRATOR b => b | _ => false end.

Inductive Permissions :=
| PERMS_UNRESTRICTED
| PERMS_MEDIA_RESTRICT
| PERMS_FULL_RESTRICT
(* ChatPermissions(can_send_messages=False) *)
| PERMS_NO_MESSAGES.

(** What a profile violation is reported as. *)
Inductive ProfileReason :=
| AvatarExact
| AvatarSimilar
| NicknameWord (word : text)
| BioWord (word : text).

(** The reason strings of the handlers, as data. *)
Inductive Reason :=
| ReasonSpam
| ReasonCaps
| ReasonExceededWarnings (limit : Z)
| ReasonBannedWord (word : text) (is_edited : bool)
| ReasonForward
| ReasonLink
| ReasonZalgo (is_edited : bool)
| ReasonProfile (r : ProfileReason)
| ReasonUnbanned.

(** The texts the bot posts, as data. *)
Inductive Notice :=
| WarnNotice (user : Z) (reason : Reason) (count limit : Z)
| MuteNotice (user : Z) (minutes : Z)
| ZalgoWarnNotice (user : Z)
| MimicWarnNotice (user : Z)
| MimicMuteNotice (user : Z) (minutes : Z)
| BanNotice (user : Z) (reason : Reason)
| GlobalBanProposal (user : Z) (chat : Z) (reason : Reason)
| BioLinkModeration (user : Z) (chat : Z) (bio : text).

(** What the handlers do to the outside, in the order they do it: the
    calls on the platform client, the one-shot deletion jobs put on the job
    queue, and the removal of a user's list from the message-id cache. *)
Inductive Event :=
| DeleteMessage (chat msg : Z)
| DeleteMessages (chat : Z) (ids : list Z)
| BanChatMember (chat user : Z) (revoke_messages : bool)
| UnbanChatMember (chat user : Z)
| RestrictChatMember (chat user : Z) (p : Permissions) (until_date : option Q)
| SendMessage (chat : Z) (n : Notice)
| ScheduleMessageDeletion (chat msg : Z) (delay : Z)
| CachePop (chat user : Z) (ids : list Z).

(** The platform as one handler run sees it.  A call may raise; whether it
    does, and what a query answers, may depend on what was done so far. *)
Record Platform := {
  (* time.time() / datetime.now() of this run, in seconds *)
  now : Q;
  (* context.bot.id *)
  bot_id : Z;
  call_fails : list Event -> Event -> bool;
  (* get_me().id; None when the call raises *)
  get_me : list Event -> option Z;
  get_chat_member : list Event -> Z -> Z -> option ChatMember;
  (* get_chat(id), of which the code reads the bio; None: the call raises *)
  get_chat : list Event -> Z -> option (option text);
  (* "not found" in str(e).lower(), for the error of the bot's own
     membership lookup in a chat *)
  error_is_not_found : list Event -> Z -> bool;
  (* file_unique_id of the newest profile photo, if there is one *)
  get_user_profile_photos : list Event -> Z -> option (option text);
  (* download and calculate_phash of that photo; outer None: raises *)
  fetch_phash : text -> option (option text);
  (* compare_phashes, through the imagehash library *)
  compare_phashes : text -> text -> Z -> bool;
  (* message_id and text of the message a send_message call returns *)
  sent_message_id : list Event -> Z;
  sent_text : Notice -> text
}.

(** ** Persistent store ([utils/database.py]) *)

Record BannedUserRow := {
  bu_user_id : Z;
  bu_username : option text;
  bu_first_name : option text;
  bu_last_name : option text;
  bu_reason : Reason;
  bu_admin_id : Z;
  bu_unbanned_at : option Q;
  bu_is_active : bool
}.

Inductive LogAction := LogBan | LogUnban | LogMute | LogWarn.

Record ModerationLogRow := {
  ml_chat_id : option Z;
  ml_user_id : Z;
  ml_action : LogAction;
  ml_admin_id : option Z;
  ml_reason : Reason;
  ml_duration_seconds : option Z
}.

Record KnownMemberRow := {
  km_chat_id : Z;
  km_user_id : Z;
  km_username : option text;
  km_first_name : option text;
  km_last_name : option text;
  km_is_member : bool
}.

Record ChatSettingsRow := {
  cs_chat_id : Z;
  cs_delete_links_enabled : bool;
  cs_welcome_captcha_enabled : bool;
  cs_is_active : bool
}.

Record Database := {
  (* user_id is the primary key *)
  banned_users : list BannedUserRow;
  moderation_logs : list ModerationLogRow;
  whitelisted_users : list (Z * Z);
  chat_settings : list ChatSettingsRow;
  (* SELECT word FROM ban_words WHERE chat_id = ? ORDER BY word *)
  ban_words : Z -> list text;
  ban_nickname_words : Z -> list text;
  ban_bio_words : Z -> list text;
  (* file_unique_id, phash *)
  banned_avatars : list (text * option text);
  known_members : list KnownMemberRow;
  (* chat_id, user_id; the pair is unique *)
  profile_checks : list (Z * Z)
}.

(** Every statement is taken to execute; the only [sqlite3.Error] is the
    [IntegrityError] of an INSERT that repeats a primary key.  The methods
    catch it themselves, so they are total functions of the store. *)

Definition with_banned_users (d : Database) (rows : list BannedUserRow) : Database :=
  {| banned_users := rows;
     moderation_logs := moderation_logs d;
     whitelisted_users := whitelisted_users d;
     chat_settings := chat_settings d;
     ban_words := ban_words d;
     ban_nickname_words := ban_nickname_words d;
     ban_bio_words := ban_bio_words d;
     banned_avatars := banned_avatars d;
     known_members := known_members d;
     profile_checks := profile_checks d |}.

Definition with_moderation_logs (d : Database) (rows : list ModerationLogRow) : Database :=
  {| banned_users := banned_users d;
     moderation_logs := rows;
     whitelisted_users := whitelisted_users d;
     chat_settings := chat_settings d;
     ban_words := ban_words d;
     ban_nickname_words := ban_nickname_words d;
     ban_bio_words := ban_bio_words d;
     banned_avatars := banned_avatars d;
     known_members := known_members d;
     profile_checks := profile_checks d |}.

Definition with_chat_settings (d : Database) (rows : list ChatSettingsRow) : Database :=
  {| banned_users := banned_users d;
     moderation_logs := moderation_logs d;
     whitelisted_users := whitelisted_users d;
     chat_settings := rows;
     ban_words := ban_words d;
     ban_nickname_words := ban_nickname_words d;
     ban_bio_words := ban_bio_words d;
     banned_avatars := banned_avatars d;
     known_members := known_members d;
     profile_checks := profile_checks d |}.

Definition with_profile_checks (d : Database) (rows : list (Z * Z)) : Database :=
  {| banned_users := banned_users d;
     moderation_logs := moderation_logs d;
     whitelisted_users := whitelisted_users d;
     chat_settings := chat_settings d;
     ban_words := ban_words d;
     ban_nickname_words := ban_nickname_words d;
     ban_bio_words := ban_bio_words d;
     banned_avatars := banned_avatars d;
     known_members := known_members d;
     profile_checks := rows |}.

Definition log_moderation_action (d : Database) (chat : option Z) (user : Z)
    (action : LogAction) (admin : option Z) (reason : Reason)
    (duration : option Z) : Database :=
  with_moderation_logs d
    (moderation_logs d ++
     [{| ml_chat_id := chat; ml_user_id := user; ml_action := action;
         ml_admin_id := admin; ml_reason := reason;
         ml_duration_seconds := duration |}]).

(** SELECT 1 FROM banned_users WHERE user_id = ? AND is_active = 1 *)
Definition active_ban_of (user : Z) (r : BannedUserRow) : bool :=
  (bu_user_id r =? user) && bu_is_active r.

Definition is_banned (d : Database) (user : Z) : bool :=
  existsb (active_ban_of user) (banned_users d).

(** [ban_user].  The INSERT names a primary key: when a row of this user
    is already there (an inactive one, the active case having returned),
    it raises [IntegrityError], which the method catches. *)
Definition ban_user (d : Database) (user : Z) (reason : Reason) (admin : Z)
    (uname fname lname : option text) : bool * Database :=
  if existsb (active_ban_of user) (banned_users d) then (false, d)
  else if existsb (fun r => bu_user_id r =? user) (banned_users d) then (false, d)
  else
    let row := {| bu_user_id := user; bu_username := uname;
                  bu_first_name := fname; bu_last_name := lname;
                  bu_reason := reason; bu_admin_id := admin;
                  bu_unbanned_at := None; bu_is_active := true |} in
    let d1 := with_banned_users d (banned_users d ++ [row]) in
    (true, log_moderation_action d1 None user LogBan (Some admin) reason None).

(** UPDATE banned_users SET is_active = 0, unbanned_at = CURRENT_TIMESTAMP
    WHERE user_id = ? AND is_active = 1 *)
Definition deactivate (timestamp : Q) (user : Z) (r : BannedUserRow) : BannedUserRow :=
  if active_ban_of user r
  then {| bu_user_id := bu_user_id r; bu_username := bu_username r;
          bu_first_name := bu_first_name r; bu_last_name := bu_last_name r;
          bu_reason := bu_reason r; bu_admin_id := bu_admin_id r;
          bu_unbanned_at := Some timestamp; bu_is_active := false |}
  else r.

(** [unban_user]; [changes] is what SELECT changes() reports. *)
Definition unban_user (d : Database) (timestamp : Q) (user : Z)
    (admin : option Z) : bool * Database :=
  let changes := Z.of_nat (length (filter (active_ban_of user) (banned_users d))) in
  let d1 := with_banned_users d (map (deactivate timestamp user) (banned_users d)) in
  if 0 <? changes
  then (true, log_moderation_action d1 None user LogUnban admin ReasonUnbanned None)
  else (false, d1).

Definition is_whitelisted (d : Database) (chat user : Z) : bool :=
  existsb (key_eqb (chat, user)) (whitelisted_users d).

Definition find_chat_settings (d : Database) (chat : Z) : option ChatSettingsRow :=
  find (fun r => cs_chat_id r =? chat) (chat_settings d).

Definition is_link_deletion_enabled (d : Database) (chat : Z) : bool :=
  match find_chat_settings d chat with
  | Some r => cs_delete_links_enabled r
  | None => false
  end.

Definition get_chat_ban_words (d : Database) (chat : Z) : list text := ban_words d chat.
Definition get_ban_nickname_words (d : Database) (chat : Z) : list text := ban_nickname_words d chat.
Definition get_ban_bio_words (d : Database) (chat : Z) : list text := ban_bio_words d chat.

Definition is_avatar_banned (d : Database) (file_unique_id : text) : bool :=
  existsb (fun r => text_eqb (fst r) file_unique_id) (banned_avatars d).

(** SELECT phash FROM banned_avatars WHERE phash IS NOT NULL *)
Definition get_all_banned_avatar_hashes (d : Database) : list text :=
  flat_map (fun r => match snd r with Some h => [h] | None => [] end) (banned_avatars d).


Definition is_active_chat (d : Database) (chat : Z) : bool :=
  existsb (fun r => (cs_chat_id r =? chat) && cs_is_active r) (chat_settings d).

Definition profile_checked (d : Database) (chat user : Z) : bool :=
  existsb (key_eqb (chat, user)) (profile_checks d).

(** [get_unchecked_known_members]: the members of the chat that are still
    in it and have no row in profile_checks; with [only_active_chat] the
    chat must also be active in chat_settings. *)
Definition get_unchecked_known_members (d : Database) (chat : Z)
    (only_active_chat : bool) : list KnownMemberRow :=
  filter (fun km =>
            (km_chat_id km =? chat) && km_is_member km &&
            negb (profile_checked d chat (km_user_id km)) &&
            (negb only_active_chat || is_active_chat d chat))
         (known_members d).

(** INSERT ... ON CONFLICT(chat_id, user_id) DO UPDATE SET last_check_at *)
Definition mark_user_profile_checked (d : Database) (chat user : Z) : Database :=
  if profile_checked d chat user then d
  else with_profile_checks d (profile_checks d ++ [(chat, user)]).

(** [set_chat_active_status(chat_id, is_active=False)], after
    [get_or_create_chat] has made sure the row exists. *)
Definition set_chat_inactive (d : Database) (chat : Z) : Database :=
  let rows :=
    match find_chat_settings d chat with
    | Some _ => chat_settings d
    | None => chat_settings d ++
              [{| cs_chat_id := chat; cs_delete_links_enabled := false;
                  cs_welcome_captcha_enabled := false; cs_is_active := true |}]
    end in
  with_chat_settings d
    (map (fun r => if cs_chat_id r =? chat
                   then {| cs_chat_id := cs_chat_id r;
                           cs_delete_links_enabled := cs_delete_links_enabled r;
                           cs_welcome_captcha_enabled := cs_welcome_captcha_enabled r;
                           cs_is_active := false |}
                   else r) rows).

(** ** Process state *)

(** One value of [user_moderation_tracker].  Every place that creates an
    entry writes all four keys. *)
Record TrackerEntry := {
  warnings : Z;
  last_messages : list (text * Q);
  zalgo_warnings : Z;
  mimic_warnings : Z
}.

Definition new_entry : TrackerEntry :=
  {| warnings := 0; last_messages := []; zalgo_warnings := 0; mimic_warnings := 0 |}.

Definition set_warnings (e : TrackerEntry) (n : Z) : TrackerEntry :=
  {| warnings := n; last_messages := last_messages e;
     zalgo_warnings := zalgo_warnings e; mimic_warnings := mimic_warnings e |}.

Definition set_last_messages (e : TrackerEntry) (l : list (text * Q)) : TrackerEntry :=
  {| warnings := warnings e; last_messages := l;
     zalgo_warnings := zalgo_warnings e; mimic_warnings := mimic_warnings e |}.

Definition set_zalgo_warnings (e : TrackerEntry) (n : Z) : TrackerEntry :=
  {| warnings := warnings e; last_messages := last_messages e;
     zalgo_warnings := n; mimic_warnings := mimic_warnings e |}.

Definition set_mimic_warnings (e : TrackerEntry) (n : Z) : TrackerEntry :=
  {| warnings := warnings e; last_messages := last_messages e;
     zalgo_warnings := zalgo_warnings e; mimic_warnings := n |}.

Record World := {
  user_moderation_tracker : dict (Z * Z) TrackerEntry;
  (* chat_id -> user_id -> [message_id] *)
  user_message_id_cache : dict Z (dict Z (list Z));
  (* chat_id -> deque(maxlen=BOT_MESSAGE_CACHE_SIZE) of normalised texts *)
  bot_message_cache : dict Z (list text);
  avatar_check_cache : dict Z Q;
  bio_check_cache : dict Z Q;
  user_avatar_phash_cache : dict text text;
  db : Database;
  (* oldest first *)
  events : list Event
}.

Definition with_tracker (w : World) (t : dict (Z * Z) TrackerEntry) : World :=
  {| user_moderation_tracker := t;
     user_message_id_cache := user_message_id_cache w;
     bot_message_cache := bot_message_cache w;
     avatar_check_cache := avatar_check_cache w;
     bio_check_cache := bio_check_cache w;
     user_avatar_phash_cache := user_avatar_phash_cache w;
     db := db w; events := events w |}.

Definition with_message_ids (w : World) (c : dict Z (dict Z (list Z))) : World :=
  {| user_moderation_tracker := user_moderation_tracker w;
     user_message_id_cache := c;
     bot_message_cache := bot_message_cache w;
     avatar_check_cache := avatar_check_cache w;
     bio_check_cache := bio_check_cache w;
     user_avatar_phash_cache := user_avatar_phash_cache w;
     db := db w; events := events w |}.

Definition with_bot_messages (w : World) (c : dict Z (list text)) : World :=
  {| user_moderation_tracker := user_moderation_tracker w;
     user_message_id_cache := user_message_id_cache w;
     bot_message_cache := c;
     avatar_check_cache := avatar_check_cache w;
     bio_check_cache := bio_check_cache w;
     user_avatar_phash_cache := user_avatar_phash_cache w;
     db := db w; events := events w |}.

Definition with_avatar_checks (w : World) (c : dict Z Q) : World :=
  {| user_moderation_tracker := user_moderation_tracker w;
     user_message_id_cache := user_message_id_cache w;
     bot_message_cache := bot_message_cache w;
     avatar_check_cache := c;
     bio_check_cache := bio_check_cache w;
     user_avatar_phash_cache := user_avatar_phash_cache w;
     db := db w; events := events w |}.

Definition with_bio_checks (w : World) (c : dict Z Q) : World :=
  {| user_moderation_tracker := user_moderation_tracker w;
     user_message_id_cache := user_message_id_cache w;
     bot_message_cache := bot_message_cache w;
     avatar_check_cache := avatar_check_cache w;
     bio_check_cache := c;
     user_avatar_phash_cache := user_avatar_phash_cache w;
     db := db w; events := events w |}.

Definition with_phashes (w : World) (c : dict text text) : World :=
  {| user_moderation_tracker := user_moderation_tracker w;
     user_message_id_cache := user_message_id_cache w;
     bot_message_cache := bot_message_cache w;
     avatar_check_cache := avatar_check_cache w;
     bio_check_cache := bio_check_cache w;
     user_avatar_phash_cache := c;
     db := db w; events := events w |}.

Definition with_db (w : World) (d : Database) : World :=
  {| user_moderation_tracker := user_moderation_tracker w;
     user_message_id_cache := user_message_id_cache w;
     bot_message_cache := bot_message_cache w;
     avatar_check_cache := avatar_check_cache w;
     bio_check_cache := bio_check_cache w;
     user_avatar_phash_cache := user_avatar_phash_cache w;
     db := d; events := events w |}.

Definition with_events (w : World) (l : list Event) : World :=
  {| user_moderation_tracker := user_moderation_tracker w;
     user_message_id_cache := user_message_id_cache w;
     bot_message_cache := bot_message_cache w;
     avatar_check_cache := avatar_check_cache w;
     bio_check_cache := bio_check_cache w;
     user_avatar_phash_cache := user_avatar_phash_cache w;
     db := db w; events := l |}.

(** ** The monad of handlers *)

Inductive Exn :=
| TelegramError
| UnboundLocalError
| AttributeError
| ApplicationHandlerStop.

Inductive Outcome (A : Type) :=
| Ret (a : A)
| Raise (e : Exn).
Arguments Ret {A} a.
Arguments Raise {A} e.

Definition M (A : Type) := World -> Outcome A * World.

Definition ret {A} (a : A) : M A := fun w => (Ret a, w).

Definition raise {A} (e : Exn) : M A := fun w => (Raise e, w).

Definition bind {A B} (m : M A) (k : A -> M B) : M B :=
  fun w =>
    match m w with
    | (Ret a, w1) => k a w1
    | (Raise e, w1) => (Raise e, w1)
    end.

(** [try: m  except Exception: h].  All of [Exn] derive from [Exception]. *)
Definition try_except {A} (m : M A) (h : Exn -> M A) : M A :=
  fun w =>
    match m w with
    | (Ret a, w1) => (Ret a, w1)
    | (Raise e, w1) => h e w1
    end.

Declare Scope py_scope.
Delimit Scope py_scope with py.
Notation "x <- m ;; k" := (bind m (fun x => k))
  (at level 61, m at next level, right associativity) : py_scope.
Notation "m ;; k" := (bind m (fun _ => k))
  (at level 61, right associativity) : py_scope.
Local Open Scope py_scope.

Definition get_world : M World := fun w => (Ret w, w).
Definition modify (f : World -> World) : M unit := fun w => (Ret tt, f w).

(** Mark an event without a platform call behind it. *)
Definition emit (e : Event) : M unit :=
  modify (fun w => with_events w (events w ++ [e])).

(** Give up the result of a computation; used where the source ignores it. *)
Definition ignore {A} (m : M A) : M unit := _ <- m ;; ret tt.

(** [try: m  except Exception: log] *)
Definition try_log (m : M unit) : M unit := try_except m (fun _ => ret tt).

Definition default {A} (d : A) (o : option A) : A :=
  match o with Some a => a | None => d end.

(** [o or ""] for an optional string. *)
Definition text_or_empty (o : option text) : text := default [] o.

Definition truthy (o : option text) : bool := nonempty (text_or_empty o).

(** ** Handlers *)

Section Handlers.
Variable R : Runtime.
Variable cfg : Config.
Variable P : Platform.

(** A call on the platform client: it is issued, and may raise. *)
Definition call (e : Event) : M unit :=
  fun w =>
    let w1 := with_events w (events w ++ [e]) in
    if call_fails P (events w) e then (Raise TelegramError, w1) else (Ret tt, w1).

(** A query on the platform client. *)
Definition query {A} (q : list Event -> option A) : M A :=
  fun w =>
    match q (events w) with
    | Some a => (Ret a, w)
    | None => (Raise TelegramError, w)
    end.

(** [await context.bot.send_message(...)]: the returned message's id and text. *)
Definition send_message (chat : Z) (n : Notice) : M (Z * text) :=
  fun w =>
    match call (SendMessage chat n) w with
    | (Ret _, w1) => (Ret (sent_message_id P (events w), sent_text P n), w1)
    | (Raise e, w1) => (Raise e, w1)
    end.

(** [schedule_message_deletion]: a one-shot job on the job queue. *)
Definition schedule_message_deletion (chat msg delay : Z) : M unit :=
  emit (ScheduleMessageDeletion chat msg delay).

(** [deque.append] under [maxlen]. *)
Definition deque_append (maxlen : nat) (x : text) (q : list text) : list text :=
  let q1 := q ++ [x] in skipn (length q1 - maxlen) q1.

(** [utils/helpers.py: add_bot_message_to_cache] *)
Definition add_bot_message_to_cache (chat : Z) (t : text) : M unit :=
  if negb (nonempty t) then ret tt
  else
    modify (fun w =>
      let q := default [] (dict_get Z.eqb chat (bot_message_cache w)) in
      let normalized_text := normalize_text R t in
      let q1 :=
        if nonempty normalized_text && negb (existsb (text_eqb normalized_text) q)
        then deque_append BOT_MESSAGE_CACHE_SIZE normalized_text q
        else q in
      with_bot_messages w (dict_set Z.eqb chat q1 (bot_message_cache w))).

(** [handlers/helpers.py: add_user_message_id] *)
Definition add_user_message_id (chat user msg : Z) : M unit :=
  modify (fun w =>
    let chat_cache := default [] (dict_get Z.eqb chat (user_message_id_cache w)) in
    let user_messages := default [] (dict_get Z.eqb user chat_cache) ++ [msg] in
    let user_messages :=
      if (USER_MESSAGE_CACHE_SIZE <? length user_messages)%nat
      then tl user_messages else user_messages in
    with_message_ids w
      (dict_set Z.eqb chat (dict_set Z.eqb user user_messages chat_cache)
                (user_message_id_cache w))).

(** [message_ids[i:i+100] for i in range(0, len(message_ids), 100)] *)
Fixpoint chunks (fuel : nat) (size : nat) (l : list Z) : list (list Z) :=
  match fuel with
  | O => []
  | S fuel' =>
      match l with
      | [] => []
      | _ :: _ => firstn size l :: chunks fuel' size (skipn size l)
      end
  end.

Fixpoint delete_chunks (chat : Z) (cs : list (list Z)) : M unit :=
  match cs with
  | [] => ret tt
  | c :: rest => try_log (call (DeleteMessages chat c)) ;; delete_chunks chat rest
  end.

(** The ids cached for a user in a chat:
    [_user_message_id_cache.get(chat_id, {}).get(user_id, [])] *)
Definition cached_ids (w : World) (chat user : Z) : list Z :=
  match dict_get Z.eqb chat (user_message_id_cache w) with
  | Some chat_cache => default [] (dict_get Z.eqb user chat_cache)
  | None => []
  end.

(** [chat_cache.pop(user_id, [])] as far as the cache goes. *)
Definition pop_cached (chat user : Z) (w : World) : World :=
  match dict_get Z.eqb chat (user_message_id_cache w) with
  | Some chat_cache =>
      with_message_ids w
        (dict_set Z.eqb chat (dict_del Z.eqb user chat_cache) (user_message_id_cache w))
  | None => w
  end.

(** [handlers/helpers.py: delete_cached_messages].  The user's list leaves
    the cache, then goes to the platform in chunks of 100. *)
Definition delete_cached_messages (chat user : Z) : M unit :=
  w <- get_world ;;
  let message_ids := cached_ids w chat user in
  modify (pop_cached chat user) ;;
  emit (CachePop chat user message_ids) ;;
  match message_ids with
  | [] => ret tt
  | _ :: _ => delete_chunks chat (chunks (length message_ids) 100 message_ids)
  end.

Fixpoint send_to_admins (admins : list Z) (n : Notice) : M unit :=
  match admins with
  | [] => ret tt
  | a :: rest => try_log (ignore (send_message a n)) ;; send_to_admins rest n
  end.

(** [utils/notifications.py: propose_global_ban] *)
Definition propose_global_ban (user chat : Z) (reason : Reason) : M unit :=
  match ADMIN_IDS cfg with
  | [] => ret tt
  | _ :: _ => send_to_admins (ADMIN_IDS cfg) (GlobalBanProposal user chat reason)
  end.

(** *** The moderation tracker *)

(** [if key not in user_moderation_tracker: user_moderation_tracker[key] = {...}] *)
Definition ensure_entry (key : Z * Z) (w : World) : World :=
  if dict_mem key_eqb key (user_moderation_tracker w) then w
  else with_tracker w (dict_set key_eqb key new_entry (user_moderation_tracker w)).

Definition tracker_setdefault (key : Z * Z) : M unit :=
  modify (ensure_entry key).

(** [user_moderation_tracker[key]], read after the entry was made sure of. *)
Definition entry_of (w : World) (key : Z * Z) : TrackerEntry :=
  default new_entry (dict_get key_eqb key (user_moderation_tracker w)).

Definition get_entry (key : Z * Z) : M TrackerEntry :=
  fun w => (Ret (entry_of w key), w).

(** A write to a field of the entry, which is mutated in place. *)
Definition put_entry (key : Z * Z) (e : TrackerEntry) (w : World) : World :=
  with_tracker w (dict_set key_eqb key e (user_moderation_tracker w)).

Definition set_entry (key : Z * Z) (e : TrackerEntry) : M unit :=
  modify (put_entry key e).

Definition db_log (chat : option Z) (user : Z) (action : LogAction)
    (admin : option Z) (reason : Reason) (duration : option Z) : M unit :=
  modify (fun w => with_db w (log_moderation_action (db w) chat user action admin reason duration)).

Definition db_ban_user (user : User) (reason : Reason) : M unit :=
  modify (fun w =>
    with_db w (snd (ban_user (db w) (user_id user) reason (bot_id P)
                             (username user) (Some (first_name user)) (last_name user)))).

(** [update.effective_chat.id] and [update.effective_user.mention_html()]:
    an attribute of [None] raises. *)
Definition effective_chat_id (update : Update) : M Z :=
  match effective_chat update with
  | Some c => ret c
  | None => raise AttributeError
  end.

Definition effective_user_mention (update : Update) : M Z :=
  match effective_user update with
  | Some u => ret (user_id u)
  | None => raise AttributeError
  end.

(** [message.delete()] *)
Definition delete_message (m : Message) : M unit :=
  call (DeleteMessage (chat_id m) (message_id m)).

(** [datetime.now() + timedelta(minutes=MUTE_DURATION_MINUTES)] *)
Definition mute_until : Q := now P + inject_Z (60 * MUTE_DURATION_MINUTES cfg).

(** *** [handlers/message_handlers.py] *)

(** [_handle_zalgo_violation].  In the ban branch the notice is built from
    [user_mention], a local that only the other branch assigns: building
    the f-string raises [UnboundLocalError] after the ban call has
    returned, and the surrounding handler logs it; the notice, the
    deletion job and the proposal that follow in the source are not
    reached. *)
Definition _handle_zalgo_violation (update : Update) (user : User) (chat : Z)
    (is_edited : bool) : M unit :=
  let key := (chat, user_id user) in
  tracker_setdefault key ;;
  e <- get_entry key ;;
  let n := zalgo_warnings e + 1 in
  set_entry key (set_zalgo_warnings e n) ;;
  if 1 <? n then
    try_log (delete_cached_messages chat (user_id user)) ;;
    try_log (call (BanChatMember chat (user_id user) true) ;;
             raise UnboundLocalError)
  else
    sent <- send_message chat (ZalgoWarnNotice (user_id user)) ;;
    add_bot_message_to_cache chat (snd sent) ;;
    schedule_message_deletion chat (fst sent) 15.

(** [_issue_warning_and_mute_if_needed] *)
Definition _issue_warning_and_mute_if_needed (update : Update) (user : Z)
    (reason : Reason) : M bool :=
  chat <- effective_chat_id update ;;
  let key := (chat, user) in
  tracker_setdefault key ;;
  data <- get_entry key ;;
  let n := warnings data + 1 in
  set_entry key (set_warnings data n) ;;
  if MAX_WARNINGS cfg <=? n then
    try_log (
      me <- query (get_me P) ;;
      bot_member <- query (fun h => get_chat_member P h chat me) ;;
      if negb (getattr_can_restrict_members bot_member) then ret tt
      else
        call (RestrictChatMember chat user PERMS_NO_MESSAGES (Some mute_until)) ;;
        data <- get_entry key ;;
        set_entry key (set_warnings data 0) ;;
        mention <- effective_user_mention update ;;
        sent <- send_message chat (MuteNotice mention (MUTE_DURATION_MINUTES cfg)) ;;
        add_bot_message_to_cache chat (snd sent) ;;
        db_log (Some chat) user LogMute (Some (bot_id P))
               (ReasonExceededWarnings (MAX_WARNINGS cfg))
               (Some (60 * MUTE_DURATION_MINUTES cfg))) ;;
    ret true
  else
    mention <- effective_user_mention update ;;
    sent <- send_message chat (WarnNotice mention reason n (MAX_WARNINGS cfg)) ;;
    add_bot_message_to_cache chat (snd sent) ;;
    schedule_message_deletion chat (fst sent) 15 ;;
    db_log (Some chat) user LogWarn (Some (bot_id P)) reason None ;;
    ret true.

(** The fallback of [_ban_for_word]: delete just the trigger message. *)
Definition delete_trigger (update : Update) (is_edited : bool) : M unit :=
  match is_edited, edited_message update with
  | true, Some em => delete_message em
  | _, _ =>
      match message update with
      | Some m => delete_message m
      | None => ret tt
      end
  end.

(** [_ban_for_word]: 1. ban, 2. purge the cached ids as a fallback,
    3. look the member up, 4. notice, 5. proposal, 6. registry. *)
Definition _ban_for_word (update : Update) (user : User) (chat : Z)
    (word : text) (is_edited : bool) : M unit :=
  let reason_text := ReasonBannedWord word is_edited in
  try_except (
    call (BanChatMember chat (user_id user) true) ;;
    delete_cached_messages chat (user_id user) ;;
    try_log (ignore (query (fun h => get_chat_member P h chat (user_id user)))) ;;
    sent <- send_message chat (BanNotice (user_id user) reason_text) ;;
    add_bot_message_to_cache chat (snd sent) ;;
    schedule_message_deletion chat (fst sent) 15 ;;
    ignore (query (fun h => get_chat P h chat)) ;;
    propose_global_ban (user_id user) chat reason_text ;;
    db_ban_user user reason_text)
  (fun _ => try_log (delete_trigger update is_edited)).

(** [_handle_mimicking_violation] *)
Definition _handle_mimicking_violation (update : Update) (user : User)
    (chat : Z) : M unit :=
  let key := (chat, user_id user) in
  tracker_setdefault key ;;
  e <- get_entry key ;;
  let n := mimic_warnings e + 1 in
  set_entry key (set_mimic_warnings e n) ;;
  if 1 <? n then
    try_log (
      call (RestrictChatMember chat (user_id user) PERMS_NO_MESSAGES (Some mute_until)) ;;
      sent <- send_message chat (MimicMuteNotice (user_id user) (MUTE_DURATION_MINUTES cfg)) ;;
      add_bot_message_to_cache chat (snd sent) ;;
      schedule_message_deletion chat (fst sent) 15 ;;
      e <- get_entry key ;;
      set_entry key (set_mimic_warnings e 0))
  else
    sent <- send_message chat (MimicWarnNotice (user_id user)) ;;
    add_bot_message_to_cache chat (snd sent) ;;
    schedule_message_deletion chat (fst sent) 15.

(** [_check_bot_mimicking].  The caller has checked that the update has a
    message, a chat and a user. *)
Definition _check_bot_mimicking (update : Update) (user : Z)
    (message_text : text) : M bool :=
  if negb (nonempty message_text) then ret false
  else
    chat <- effective_chat_id update ;;
    w <- get_world ;;
    match default [] (dict_get Z.eqb chat (bot_message_cache w)) with
    | [] => ret false
    | recent_bot_messages =>
        if existsb (text_eqb (normalize_text R message_text)) recent_bot_messages then
          match message update with
          | Some m => delete_message m
          | None => raise AttributeError
          end ;;
          match effective_user update with
          | Some u => _handle_mimicking_violation update u chat
          | None => raise AttributeError
          end ;;
          ret true
        else ret false
    end.

(** [m['time'] >= window_start], with [window_start = now - SPAM_WINDOW_SECONDS] *)
Definition in_window (m : text * Q) : bool :=
  Qle_bool (now P - SPAM_WINDOW_SECONDS) (snd m).

Definition same_text (t : text) (m : text * Q) : bool := text_eqb (fst m) t.

(** The eviction at the head of [_check_spam]:
    [del user_moderation_tracker[next(iter(user_moderation_tracker))]] *)
Definition evicted (key : Z * Z) (w : World) : World :=
  let t := user_moderation_tracker w in
  if (MAX_HISTORY_USERS <? Z.of_nat (length t)) && negb (dict_mem key_eqb key t)
  then with_tracker w (tl t) else w.

Definition evict_oldest (key : Z * Z) : M unit := modify (evicted key).

(** [_check_spam] *)
Definition _check_spam (update : Update) (user : Z) (message_text : text) : M bool :=
  if negb (nonempty message_text) then ret false
  else
    chat <- effective_chat_id update ;;
    let key := (chat, user) in
    evict_oldest key ;;
    tracker_setdefault key ;;
    data <- get_entry key ;;
    let appended := last_messages data ++ [(message_text, now P)] in
    let kept := filter in_window appended in
    set_entry key (set_last_messages data kept) ;;
    let identical_count := Z.of_nat (length (filter (same_text message_text) kept)) in
    if MAX_IDENTICAL_MESSAGES_BEFORE_WARN cfg <=? identical_count then
      data <- get_entry key ;;
      set_entry key
        (set_last_messages data
           (filter (fun m => negb (same_text message_text m)) (last_messages data))) ;;
      match message update with
      | Some m => try_log (delete_message m)
      | None => ret tt
      end ;;
      _issue_warning_and_mute_if_needed update user ReasonSpam
    else ret false.

(** [re.findall(r'[A-ZА-ЯЁ]', s)]: Latin capitals, Cyrillic capitals
    U+0410..U+042F, and U+0401. *)
Definition is_caps_letter (c : Z) : bool :=
  ((65 <=? c) && (c <=? 90)) || ((1040 <=? c) && (c <=? 1071)) || (c =? 1025).

(** [_check_caps] *)
Definition _check_caps (update : Update) (user : Z) (message_text : text) : M bool :=
  if negb (nonempty message_text) || (Z.of_nat (length message_text) <? CAPS_THRESHOLD cfg)
  then ret false
  else
    let uppercase_letters := filter is_caps_letter message_text in
    if CAPS_THRESHOLD cfg <=? Z.of_nat (length uppercase_letters) then
      match message update with
      | Some m => try_log (delete_message m)
      | None => ret tt
      end ;;
      _issue_warning_and_mute_if_needed update user ReasonCaps
    else ret false.

(** [update.message.text or update.message.caption or ""] *)
Definition message_text_of (m : Message) : text :=
  if truthy (msg_text m) then text_or_empty (msg_text m)
  else if truthy (caption m) then text_or_empty (caption m)
  else [].

(** [update.message.entities or update.message.caption_entities or []] *)
Definition entities_of (m : Message) : list EntityType :=
  match entities m with
  | [] => caption_entities m
  | es => es
  end.

Definition is_link_entity (e : EntityType) : bool :=
  match e with URL | TEXT_LINK => true | OTHER_ENTITY => false end.

(** The admin exemption at the head of the handlers: [true] when the
    sender is a chat administrator and the handler returns. *)
Definition sender_is_exempt_admin (chat user : Z) : M bool :=
  if MODERATE_ADMINS cfg then ret false
  else
    try_except
      (member <- query (fun h => get_chat_member P h chat user) ;;
       ret (is_chat_admin member))
      (fun _ => ret false).

(** Step -1 of [check_user_message]: a globally banned sender is banned
    from this chat again.  [user_mention] is not yet assigned here, so
    the notice is never sent (see [_handle_zalgo_violation]). *)
Definition reban_globally_banned (chat : Z) (user : User) : M unit :=
  try_log (delete_cached_messages chat (user_id user)) ;;
  try_log (call (BanChatMember chat (user_id user) true) ;;
           raise UnboundLocalError) ;;
  raise ApplicationHandlerStop.

(** The forwarded-from-a-public-chat step. *)
Definition ban_for_forward (chat : Z) (user : User) : M unit :=
  try_log (delete_cached_messages chat (user_id user)) ;;
  try_log (
    call (BanChatMember chat (user_id user) true) ;;
    sent <- send_message chat (BanNotice (user_id user) ReasonForward) ;;
    add_bot_message_to_cache chat (snd sent) ;;
    schedule_message_deletion chat (fst sent) 15 ;;
    propose_global_ban (user_id user) chat ReasonForward).

(** The link step, once a link is found and link banning is enabled. *)
Definition ban_for_link (m : Message) (chat : Z) (user : User) : M unit :=
  try_except (
    call (BanChatMember chat (user_id user) true) ;;
    delete_cached_messages chat (user_id user) ;;
    sent <- send_message chat (BanNotice (user_id user) ReasonLink) ;;
    schedule_message_deletion chat (fst sent) 15 ;;
    propose_global_ban (user_id user) chat ReasonLink ;;
    db_ban_user user ReasonLink)
  (fun _ => try_log (delete_message m)) ;;
  raise ApplicationHandlerStop.

Definition has_link (m : Message) (message_text : text) : bool :=
  let has_link_entity := existsb is_link_entity (entities_of m) in
  let has_link_in_text :=
    negb has_link_entity && nonempty message_text &&
    link_patterns_search R (str_lower R message_text) in
  has_link_entity || has_link_in_text.

Definition is_public_forward (m : Message) : bool :=
  match forward_from_chat m with
  | Some CHANNEL | Some SUPERGROUP => true
  | _ => false
  end.

(** The first banned word that occurs in the normalised text. *)
Definition first_banned_word (words : list text) (normalized : text) : option text :=
  find (fun word => str_in word normalized) words.

Definition is_zalgo (t : text) : bool :=
  is_zalgo_text R t (ZALGO_MIN_DIACRITICS cfg) (ZALGO_RATIO_THRESHOLD cfg).

(** [check_user_message] *)
Definition check_user_message (update : Update) : M unit :=
  match message update, effective_chat update, effective_user update with
  | Some m, Some chat, Some user =>
      add_user_message_id chat (user_id user) (message_id m) ;;
      exempt <- sender_is_exempt_admin chat (user_id user) ;;
      if exempt then ret tt
      else if is_bot user && negb (MODERATE_BOTS cfg) then ret tt
      else
        let message_text := message_text_of m in
        w <- get_world ;;
        if is_banned (db w) (user_id user) then reban_globally_banned chat user
        else if is_whitelisted (db w) chat (user_id user) then ret tt
        else
          handled <- _check_bot_mimicking update (user_id user) message_text ;;
          if handled then ret tt
          else if is_public_forward m then ban_for_forward chat user
          else
            handled <- _check_spam update (user_id user) message_text ;;
            if handled then ret tt
            else
              handled <- _check_caps update (user_id user) message_text ;;
              if handled then ret tt
              else if is_zalgo message_text then
                try_log (delete_message m) ;;
                _handle_zalgo_violation update user chat false
              else
                w <- get_world ;;
                if has_link m message_text && is_link_deletion_enabled (db w) chat
                then ban_for_link m chat user
                else if negb (nonempty message_text) then ret tt
                else
                  match first_banned_word (get_chat_ban_words (db w) chat)
                                          (normalize_text R message_text) with
                  | Some word =>
                      try_log (delete_message m) ;;
                      _ban_for_word update user chat word
                        (match edited_message update with Some _ => true | None => false end) ;;
                      raise ApplicationHandlerStop
                  | None => ret tt
                  end
  | _, _, _ => ret tt
  end.

(** [handle_edited_message] *)
Definition handle_edited_message (update : Update) : M unit :=
  match edited_message update with
  | None => ret tt
  | Some em =>
      if negb (truthy (msg_text em)) then ret tt
      else
        match chat_type em with
        | GROUP | SUPERGROUP =>
            let chat := chat_id em in
            exempt <-
              match from_user em with
              | Some u => sender_is_exempt_admin chat (user_id u)
              | None => ret false
              end ;;
            if exempt then ret tt
            else
              match from_user em with
              | None => raise AttributeError
              | Some user =>
                  w <- get_world ;;
                  if is_whitelisted (db w) chat (user_id user) then ret tt
                  else
                    let t := text_or_empty (msg_text em) in
                    if is_zalgo t then
                      try_log (delete_message em) ;;
                      _handle_zalgo_violation update user chat true ;;
                      raise ApplicationHandlerStop
                    else
                      match first_banned_word (get_chat_ban_words (db w) chat)
                                              (normalize_text R t) with
                      | Some word =>
                          _ban_for_word update user chat word true ;;
                          raise ApplicationHandlerStop
                      | None => ret tt
                      end
              end
        | _ => ret tt
        end
  end.

(** *** [handlers/member_handlers.py] *)

(** [_ban_for_profile_violation]: the member lookup only decides whether
    there is a user object to propose a global ban for. *)
Definition _ban_for_profile_violation (chat user : Z) (reason_text : ProfileReason) : M bool :=
  try_except (
    has_user <-
      try_except
        (_ <- query (fun h => get_chat_member P h chat user) ;; ret true)
        (fun _ => ret false) ;;
    delete_cached_messages chat user ;;
    call (BanChatMember chat user true) ;;
    sent <- send_message chat (BanNotice user (ReasonProfile reason_text)) ;;
    schedule_message_deletion chat (fst sent) 15 ;;
    (if has_user then
       ignore (query (fun h => get_chat P h chat)) ;;
       propose_global_ban user chat (ReasonProfile reason_text)
     else ret tt) ;;
    ret true)
  (fun _ => ret false).

(** [if update and update.message: try: await update.message.delete() ...] *)
Definition delete_context_message (update : option Update) : M unit :=
  match update with
  | Some u =>
      match message u with
      | Some m => try_log (delete_message m)
      | None => ret tt
      end
  | None => ret tt
  end.

(** [last_check and (now - last_check) < cooldown] *)
Definition in_cooldown (cooldown : Q) (last_check : option Q) : bool :=
  match last_check with
  | Some t => negb (Qeq_bool t 0) && negb (Qle_bool cooldown (now P - t))
  | None => false
  end.

Fixpoint first_similar (current : text) (hashes : list text) : bool :=
  match hashes with
  | [] => false
  | h :: rest =>
      compare_phashes P current h (AVATAR_HASH_THRESHOLD cfg) || first_similar current rest
  end.

(** [check_user_avatar] *)
Definition check_user_avatar (chat user : Z) (update : option Update) : M bool :=
  w <- get_world ;;
  if in_cooldown AVATAR_CHECK_COOLDOWN (dict_get Z.eqb user (avatar_check_cache w))
  then ret false
  else
    modify (fun w => with_avatar_checks w (dict_set Z.eqb user (now P) (avatar_check_cache w))) ;;
    try_except (
      photo <- query (fun h => get_user_profile_photos P h user) ;;
      match photo with
      | None => ret false
      | Some current_avatar_id =>
          w <- get_world ;;
          if is_avatar_banned (db w) current_avatar_id then
            delete_context_message update ;;
            _ban_for_profile_violation chat user AvatarExact
          else
            current_phash <-
              match dict_get text_eqb current_avatar_id (user_avatar_phash_cache w) with
              | Some h => ret (Some h)
              | None =>
                  h <- query (fun _ => fetch_phash P current_avatar_id) ;;
                  match h with
                  | Some hh =>
                      if nonempty hh then
                        modify (fun w => with_phashes w
                          (dict_set text_eqb current_avatar_id hh (user_avatar_phash_cache w))) ;;
                        ret h
                      else ret h
                  | None => ret h
                  end
              end ;;
            match current_phash with
            | None => ret false
            | Some cur =>
                if negb (nonempty cur) then ret false
                else
                  w <- get_world ;;
                  if first_similar cur (get_all_banned_avatar_hashes (db w)) then
                    delete_context_message update ;;
                    _ban_for_profile_violation chat user AvatarSimilar
                  else ret false
            end
      end)
    (fun _ => ret false).

(** [check_username] *)
Definition check_username (chat user : Z) (name : text) (update : option Update) : M bool :=
  if negb (nonempty name) then ret false
  else
    w <- get_world ;;
    match first_banned_word (get_ban_nickname_words (db w) chat) (normalize_text R name) with
    | None => ret false
    | Some matched_banned_word =>
        if negb (nonempty matched_banned_word) then ret false
        else
          delete_context_message update ;;
          _ban_for_profile_violation chat user (NicknameWord matched_banned_word)
    end.

(** [bot_member.can_restrict_members], an attribute only administrators have. *)
Definition can_restrict_members_attr (m : ChatMember) : M bool :=
  match m with
  | ADMINISTRATOR b => ret b
  | _ => raise AttributeError
  end.

Fixpoint notify_admins (admins : list Z) (n : Notice) : M unit :=
  match admins with
  | [] => ret tt
  | a :: rest => ignore (send_message a n) ;; notify_admins rest n
  end.

(** The link-in-bio branch of [check_user_bio]: restrict, purge, and ask
    the administrators. *)
Definition moderate_bio_link (chat user : Z) (bio : text) (update : option Update) : M bool :=
  allowed <-
    try_except
      (me <- query (get_me P) ;;
       bot_member <- query (fun h => get_chat_member P h chat me) ;;
       can_restrict_members_attr bot_member)
      (fun _ => ret false) ;;
  if negb allowed then ret false
  else
    try_log (
      delete_cached_messages chat user ;;
      match update with
      | Some u => match message u with Some m => delete_message m | None => ret tt end
      | None => ret tt
      end) ;;
    restricted <-
      try_except
        (call (RestrictChatMember chat user PERMS_FULL_RESTRICT None) ;; ret true)
        (fun _ => ret false) ;;
    if negb restricted then ret false
    else
      match ADMIN_IDS cfg with
      | [] => ret tt
      | _ :: _ =>
          ignore (query (fun h => get_chat P h chat)) ;;
          notify_admins (ADMIN_IDS cfg) (BioLinkModeration user chat bio)
      end ;;
      ret true.

(** [check_user_bio] *)
Definition check_user_bio (chat user : Z) (update : option Update) : M bool :=
  w <- get_world ;;
  if in_cooldown BIO_CHECK_COOLDOWN (dict_get Z.eqb user (bio_check_cache w))
  then ret false
  else
    modify (fun w => with_bio_checks w (dict_set Z.eqb user (now P) (bio_check_cache w))) ;;
    try_except (
      bio <- query (fun h => get_chat P h user) ;;
      if negb (truthy bio) then ret false
      else
        let bio := text_or_empty bio in
        w <- get_world ;;
        if is_link_deletion_enabled (db w) chat && link_in_bio_search R (str_lower R bio)
        then moderate_bio_link chat user bio update
        else
          match first_banned_word (get_ban_bio_words (db w) chat) (normalize_text R bio) with
          | Some word =>
              delete_context_message update ;;
              _ban_for_profile_violation chat user (BioWord word)
          | None => ret false
          end)
    (fun _ => ret false).

(** [if welcome_message_id:] *)
Definition truthy_id (o : option Z) : option Z :=
  match o with
  | Some i => if i =? 0 then None else Some i
  | None => None
  end.

Definition cleanup_welcome (chat : Z) (welcome_message_id : option Z) : M unit :=
  match truthy_id welcome_message_id with
  | Some i => try_log (call (DeleteMessage chat i))
  | None => ret tt
  end.

(** [if member.status != 'restricted' or member.can_send_messages] *)
Definition verified_or_gone (m : ChatMember) : bool :=
  match m with
  | RESTRICTED can_send _ => can_send
  | _ => true
  end.

(** [kick_unverified_member], the job scheduled at the captcha challenge. *)
Definition kick_unverified_member (chat user : Z) (welcome_message_id : option Z) : M unit :=
  try_log (
    member <- query (fun h => get_chat_member P h chat user) ;;
    if verified_or_gone member then cleanup_welcome chat welcome_message_id
    else
      call (BanChatMember chat user true) ;;
      delete_cached_messages chat user ;;
      call (UnbanChatMember chat user) ;;
      cleanup_welcome chat welcome_message_id).

(** *** [handlers/admin_handlers.py] *)

(** [for val in filter(None, fields): if await check_username(...): ... break] *)
Fixpoint check_names (chat user : Z) (fields : list (option text)) : M bool :=
  match fields with
  | [] => ret false
  | f :: rest =>
      if truthy f then
        banned <- check_username chat user (text_or_empty f) None ;;
        if banned then ret true else check_names chat user rest
      else check_names chat user rest
  end.

(** The body of the member loop of [scheduled_name_check]. *)
Definition rescan_member (chat : Z) (member_data : KnownMemberRow) : M unit :=
  let user := km_user_id member_data in
  if existsb (Z.eqb user) (ADMIN_IDS cfg) then
    modify (fun w => with_db w (mark_user_profile_checked (db w) chat user))
  else
    banned_now <- check_user_bio chat user None ;;
    (if banned_now then ret tt
     else ignore (check_names chat user
                    [km_username member_data; km_first_name member_data;
                     km_last_name member_data])) ;;
    modify (fun w => with_db w (mark_user_profile_checked (db w) chat user)).

Fixpoint rescan_members (chat : Z) (members : list KnownMemberRow) : M unit :=
  match members with
  | [] => ret tt
  | m :: rest => rescan_member chat m ;; rescan_members chat rest
  end.

(** The permission check of the chat loop: [false] means [continue].
    [getattr(bot_member, 'can_restrict_members', False) is False and
     bot_member.status not in ['administrator', 'creator']] *)
Definition bot_may_scan (chat : Z) : M bool :=
  fun w =>
    try_except
      (me <- query (get_me P) ;;
       bot_member <- query (fun h => get_chat_member P h chat me) ;;
       ret (negb (negb (getattr_can_restrict_members bot_member) &&
                  negb (is_chat_admin bot_member))))
      (fun _ =>
         (if error_is_not_found P (events w) chat
          then modify (fun w => with_db w (set_chat_inactive (db w) chat))
          else ret tt) ;;
         ret false) w.

(** The body of the chat loop of [scheduled_name_check]. *)
Definition rescan_chat (chat : Z) : M unit :=
  ok <- bot_may_scan chat ;;
  if negb ok then ret tt
  else
    w <- get_world ;;
    rescan_members chat (get_unchecked_known_members (db w) chat true).



End Handlers.


(** ** More of the persistent store ([utils/database.py]) *)

Definition with_whitelisted_users (d : Database) (rows : list (Z * Z)) : Database :=
  {| banned_users := banned_users d;
     moderation_logs := moderation_logs d;
     whitelisted_users := rows;
     chat_settings := chat_settings d;
     ban_words := ban_words d;
     ban_nickname_words := ban_nickname_words d;
     ban_bio_words := ban_bio_words d;
     banned_avatars := banned_avatars d;
     known_members := known_members d;
     profile_checks := profile_checks d |}.

Definition with_banned_avatars (d : Database) (rows : list (text * option text)) : Database :=
  {| banned_users := banned_users d;
     moderation_logs := moderation_logs d;
     whitelisted_users := whitelisted_users d;
     chat_settings := chat_settings d;
     ban_words := ban_words d;
     ban_nickname_words := ban_nickname_words d;
     ban_bio_words := ban_bio_words d;
     banned_avatars := rows;
     known_members := known_members d;
     profile_checks := profile_checks d |}.

Definition with_known_members (d : Database) (rows : list KnownMemberRow) : Database :=
  {| banned_users := banned_users d;
     moderation_logs := moderation_logs d;
     whitelisted_users := whitelisted_users d;
     chat_settings := chat_settings d;
     ban_words := ban_words d;
     ban_nickname_words := ban_nickname_words d;
     ban_bio_words := ban_bio_words d;
     banned_avatars := banned_avatars d;
     known_members := rows;
     profile_checks := profile_checks d |}.

(** The row INSERT INTO chat_settings (chat_id, title) makes: the other
    columns take the defaults of the schema. *)
Definition default_chat_settings (chat : Z) : ChatSettingsRow :=
  {| cs_chat_id := chat; cs_delete_links_enabled := false;
     cs_welcome_captcha_enabled := false; cs_is_active := true |}.

(** [get_or_create_chat(chat_id)]: INSERT OR IGNORE on the primary key. *)
Definition get_or_create_chat (d : Database) (chat : Z) : Database :=
  match find_chat_settings d chat with
  | Some _ => d
  | None => with_chat_settings d (chat_settings d ++ [default_chat_settings chat])
  end.

(** UPDATE chat_settings SET ... WHERE chat_id = ? *)
Definition update_chat_settings (d : Database) (chat : Z)
    (f : ChatSettingsRow -> ChatSettingsRow) : Database :=
  with_chat_settings d
    (map (fun r => if cs_chat_id r =? chat then f r else r) (chat_settings d)).

Definition set_link_deletion (d : Database) (chat : Z) (enabled : bool) : Database :=
  update_chat_settings (get_or_create_chat d chat) chat
    (fun r => {| cs_chat_id := cs_chat_id r;
                 cs_delete_links_enabled := enabled;
                 cs_welcome_captcha_enabled := cs_welcome_captcha_enabled r;
                 cs_is_active := cs_is_active r |}).

Definition set_welcome_captcha (d : Database) (chat : Z) (enabled : bool) : Database :=
  update_chat_settings (get_or_create_chat d chat) chat
    (fun r => {| cs_chat_id := cs_chat_id r;
                 cs_delete_links_enabled := cs_delete_links_enabled r;
                 cs_welcome_captcha_enabled := enabled;
                 cs_is_active := cs_is_active r |}).

Definition is_welcome_captcha_enabled (d : Database) (chat : Z) : bool :=
  match find_chat_settings d chat with
  | Some r => cs_welcome_captcha_enabled r
  | None => false
  end.

Definition set_chat_active_status (d : Database) (chat : Z) (is_active : bool) : Database :=
  update_chat_settings (get_or_create_chat d chat) chat
    (fun r => {| cs_chat_id := cs_chat_id r;
                 cs_delete_links_enabled := cs_delete_links_enabled r;
                 cs_welcome_captcha_enabled := cs_welcome_captcha_enabled r;
                 cs_is_active := is_active |}).

(** [add_whitelist_user]: the chat row is made sure of, then INSERT OR
    IGNORE on the unique pair; the answer is SELECT changes() > 0.  The
    column added_by is not read anywhere and is left out of the rows. *)
Definition add_whitelist_user (d : Database) (chat user added_by : Z) : bool * Database :=
  let d1 := get_or_create_chat d chat in
  if existsb (key_eqb (chat, user)) (whitelisted_users d1) then (false, d1)
  else (true, with_whitelisted_users d1 (whitelisted_users d1 ++ [(chat, user)])).

(** [remove_whitelist_user]: DELETE, then SELECT changes() > 0. *)
Definition remove_whitelist_user (d : Database) (chat user : Z) : bool * Database :=
  let changes := Z.of_nat (length (filter (key_eqb (chat, user)) (whitelisted_users d))) in
  (0 <? changes,
   with_whitelisted_users d
     (filter (fun k => negb (key_eqb (chat, user) k)) (whitelisted_users d))).

(** SELECT user_id FROM whitelisted_users WHERE chat_id = ? *)
Definition get_whitelisted_users (d : Database) (chat : Z) : list Z :=
  map snd (filter (fun k => fst k =? chat) (whitelisted_users d)).

(** [add_banned_avatar]: INSERT OR IGNORE on the unique file_unique_id.
    The columns file_id and added_by are read by no check and are left
    out of the rows. *)
Definition add_banned_avatar (d : Database) (file_unique_id file_id : text)
    (phash : option text) (admin : Z) : bool * Database :=
  if existsb (fun r => text_eqb (fst r) file_unique_id) (banned_avatars d) then (false, d)
  else (true, with_banned_avatars d (banned_avatars d ++ [(file_unique_id, phash)])).


(** The key of known_members: UNIQUE(chat_id, user_id). *)
Definition same_member (chat user : Z) (km : KnownMemberRow) : bool :=
  (km_chat_id km =? chat) && (km_user_id km =? user).

(** [upsert_member(chat_id, user, is_member)], for a user object:
    [if not user_id: return False], then INSERT ... ON CONFLICT(chat_id,
    user_id) DO UPDATE of the names and of is_member. *)
Definition upsert_member (d : Database) (chat : Z) (user : User) (is_member : bool)
    : bool * Database :=
  if user_id user =? 0 then (false, d)
  else
    let row := {| km_chat_id := chat; km_user_id := user_id user;
                  km_username := username user;
                  km_first_name := Some (first_name user);
                  km_last_name := last_name user;
                  km_is_member := is_member |} in
    if existsb (same_member chat (user_id user)) (known_members d)
    then (true, with_known_members d
                  (map (fun km => if same_member chat (user_id user) km then row else km)
                       (known_members d)))
    else (true, with_known_members d (known_members d ++ [row])).

(** [mark_left(chat_id, user_id)]: INSERT of a row without names and with
    is_member = 0, ON CONFLICT DO UPDATE SET is_member = 0. *)
Definition mark_left (d : Database) (chat user : Z) : Database :=
  if existsb (same_member chat user) (known_members d)
  then with_known_members d
         (map (fun km => if same_member chat user km
                         then {| km_chat_id := km_chat_id km; km_user_id := km_user_id km;
                                 km_username := km_username km;
                                 km_first_name := km_first_name km;
                                 km_last_name := km_last_name km;
                                 km_is_member := false |}
                         else km)
              (known_members d))
  else with_known_members d
         (known_members d ++
          [{| km_chat_id := chat; km_user_id := user; km_username := None;
              km_first_name := None; km_last_name := None; km_is_member := false |}]).

(** ** More handlers *)

Section MoreHandlers.
Variable R : Runtime.
Variable cfg : Config.
Variable P : Platform.

(** [db.upsert_member(chat_id, user, is_member=True)], result ignored. *)
Definition db_upsert_member (chat : Z) (user : User) : M unit :=
  modify (fun w => with_db w (snd (upsert_member (db w) chat user true))).

(** [for username in filter(None, usernames_to_check):
       if await check_username(...): raise ApplicationHandlerStop] *)
Fixpoint check_names_or_stop (chat user : Z) (update : Update)
    (fields : list (option text)) : M unit :=
  match fields with
  | [] => ret tt
  | f :: rest =>
      if truthy f then
        banned <- check_username R cfg P chat user (text_or_empty f) (Some update) ;;
        if banned then raise ApplicationHandlerStop
        else check_names_or_stop chat user update rest
      else check_names_or_stop chat user update rest
  end.

(** [handlers/member_handlers.py: check_message_username].
    [reply_sender_chat] is the type of
    [update.message.reply_to_message.sender_chat], when the message is a
    reply to a message sent on behalf of a chat.  The administrator
    exemption raises [ApplicationHandlerStop] inside the [try] whose
    [except Exception] logs and goes on. *)
Definition check_message_username (update : Update)
    (reply_sender_chat : option ChatType) : M unit :=
  match message update, effective_chat update, effective_user update with
  | Some m, Some chat, Some user =>
      match reply_sender_chat with
      | Some CHANNEL => db_upsert_member chat user
      | _ =>
          (if MODERATE_ADMINS cfg then ret tt
           else
             try_log (
               member <- query (fun h => get_chat_member P h chat (user_id user)) ;;
               if is_chat_admin member then raise ApplicationHandlerStop else ret tt)) ;;
          if is_bot user && negb (MODERATE_BOTS cfg) then raise ApplicationHandlerStop
          else
            db_upsert_member chat user ;;
            w <- get_world ;;
            if is_whitelisted (db w) chat (user_id user) then ret tt
            else
              banned <- check_user_avatar cfg P chat (user_id user) (Some update) ;;
              if banned then raise ApplicationHandlerStop
              else
                banned <- check_user_bio R cfg P chat (user_id user) (Some update) ;;
                if banned then raise ApplicationHandlerStop
                else
                  check_names_or_stop chat (user_id user) update
                    [username user; Some (first_name user); last_name user]
      end
  | _, _, _ => ret tt
  end.

End MoreHandlers.
(** * Notions used in the statements, and example inputs *)

(** Number of active rows of a user in the global-ban registry, and the
    keys of the registry in table order. *)
Definition active_count (d : Database) (user : Z) : nat :=
  length (filter (active_ban_of user) (banned_users d)).

Definition registry_keys (d : Database) : list Z :=
  map bu_user_id (banned_users d).

(** A runtime for examples: texts are already decomposed, the combining
    marks are U+0300..U+036F, letters are lower-cased in the Latin range,
    the space is the only separator, and a link is the text "t.me/". *)
Definition example_runtime : Runtime := {|
  nfd := fun s => s;
  category_is_mark := fun c => (768 <=? c) && (c <=? 879);
  str_lower := map (fun c => if (65 <=? c) && (c <=? 90) then c + 32 else c);
  str_isspace := fun c => c =? 32;
  link_patterns_search := str_in [116; 46; 109; 101; 47];
  link_in_bio_search := str_in [116; 46; 109; 101; 47]
|}.


(** A restriction of a member (every mute is one). *)
Definition is_restrict (e : Event) : bool :=
  match e with RestrictChatMember _ _ _ _ => true | _ => false end.

Definition is_ban (e : Event) : bool :=
  match e with BanChatMember _ _ _ => true | _ => false end.

(** The bot is an administrator of the chat with the right to restrict,
    as the ladder checks it before muting. *)
Definition bot_can_restrict (P : Platform) (h : list Event) (chat : Z) : Prop :=
  exists me, get_me P h = Some me /\
             get_chat_member P h chat me = Some (ADMINISTRATOR true).


(** What [_check_spam] keeps and counts, from the history it finds. *)
Definition kept_history (P : Platform) (t : text) (old : list (text * Q)) : list (text * Q) :=
  filter (in_window P) (old ++ [(t, now P)]).

Definition identical_count (P : Platform) (t : text) (old : list (text * Q)) : Z :=
  Z.of_nat (length (filter (same_text t) (kept_history P t old))).

(** A run of [_check_spam] detected a flood when it did not answer
    [False]: it went on to the warning ladder, which answers [True] or
    raises. *)
Definition flagged (o : Outcome bool) : bool :=
  match o with Ret false => false | _ => true end.

(** The same text sent again and again by one user, each time in its own
    run: which sends were detected, and the state after the last. *)
Fixpoint send_repeatedly (R : Runtime) (cfg : Config)
    (runs : list (Platform * Update)) (user : Z) (t : text) (w : World)
    : list bool * World :=
  match runs with
  | [] => ([], w)
  | (P, update) :: rest =>
      let r := _check_spam R cfg P update user t w in
      let rest_result := send_repeatedly R cfg rest user t (snd r) in
      (flagged (fst r) :: fst rest_result, snd rest_result)
  end.


(** *** Example inputs *)

(** A platform on which every call succeeds: the bot (id 1) is an
    administrator with the right to restrict, everybody else an ordinary
    member without bio or profile photo; what the bot posts comes back
    as the text "bot". *)
Definition example_platform (t : Q) : Platform := {|
  now := t;
  bot_id := 1;
  call_fails := fun _ _ => false;
  get_me := fun _ => Some 1;
  get_chat_member := fun _ _ u => Some (if u =? 1 then ADMINISTRATOR true else MEMBER);
  get_chat := fun _ _ => Some None;
  error_is_not_found := fun _ _ => false;
  get_user_profile_photos := fun _ _ => Some None;
  fetch_phash := fun _ => Some None;
  compare_phashes := fun _ _ _ => false;
  sent_message_id := fun h => 1000 + Z.of_nat (length h);
  sent_text := fun _ => [98; 111; 116]
|}.

Definition empty_db : Database := {|
  banned_users := [];
  moderation_logs := [];
  whitelisted_users := [];
  chat_settings := [];
  ban_words := fun _ => [];
  ban_nickname_words := fun _ => [];
  ban_bio_words := fun _ => [];
  banned_avatars := [];
  known_members := [];
  profile_checks := []
|}.

Definition world_of (d : Database) : World := {|
  user_moderation_tracker := [];
  user_message_id_cache := [];
  bot_message_cache := [];
  avatar_check_cache := [];
  bio_check_cache := [];
  user_avatar_phash_cache := [];
  db := d;
  events := []
|}.

Definition example_user : User := {|
  user_id := 7; username := Some [97; 110; 110]; first_name := [65; 110; 110];
  last_name := None; is_bot := false
|}.

(** A message of [example_user] in the supergroup -100. *)
Definition example_message (id : Z) (t : text) : Message := {|
  message_id := id; chat_id := -100; chat_type := SUPERGROUP;
  from_user := Some example_user; msg_text := Some t; caption := None;
  entities := []; caption_entities := []; forward_from_chat := None
|}.

Definition example_update (id : Z) (t : text) : Update :=
  {| message := Some (example_message id t); edited_message := None |}.

Definition example_edit (id : Z) (t : text) : Update :=
  {| message := None; edited_message := Some (example_message id t) |}.

(** A registry in which user 7 is actively banned and user 8 was unbanned. *)
Definition example_registry : Database :=
  with_banned_users empty_db
    [ {| bu_user_id := 7; bu_username := None; bu_first_name := None;
         bu_last_name := None; bu_reason := ReasonLink; bu_admin_id := 1;
         bu_unbanned_at := None; bu_is_active := true |};
      {| bu_user_id := 8; bu_username := None; bu_first_name := None;
         bu_last_name := None; bu_reason := ReasonForward; bu_admin_id := 1;
         bu_unbanned_at := Some (5 # 1); bu_is_active := false |} ].

(** *** Frames: what a computation leaves alone *)

(** A relation between the world before and the world after. *)
Class FrameRel (I : World -> World -> Prop) : Prop := {
  frame_refl : forall w, I w w;
  frame_trans : forall w1 w2 w3, I w1 w2 -> I w2 w3 -> I w1 w3
}.

(** The computation relates every world to the one it ends in, whether it
    returns or raises. *)
Definition frame (I : World -> World -> Prop) {A : Type} (m : M A) : Prop :=
  forall w, I w (snd (m w)).

(** Only events satisfying [p] are added. *)
Definition emits_only (p : Event -> bool) (w w' : World) : Prop :=
  exists l, events w' = events w ++ l /\ forallb p l = true.

(** The component [f] of the world is unchanged. *)
Definition keeps {X : Type} (f : World -> X) (w w' : World) : Prop := f w' = f w.

(** The events a computation adds to those already there. *)
Definition emitted {A : Type} (m : M A) (w : World) : list Event :=
  skipn (length (events w)) (events (snd (m w))).

Definition not_ban (e : Event) : bool := negb (is_ban e).

Definition is_bulk_delete (e : Event) : bool :=
  match e with DeleteMessages _ _ => true | _ => false end.

(** A message to a chat or an administrator, or the job deleting one. *)
Definition is_notice (e : Event) : bool :=
  match e with
  | SendMessage _ _ | ScheduleMessageDeletion _ _ _ => true
  | _ => false
  end.


(** The sender is not let off as a chat administrator: the exemption
    check of the handlers answers no. *)
Definition not_exempt (cfg : Config) (P : Platform) (w : World) (chat user : Z) : Prop :=
  sender_is_exempt_admin cfg P chat user w = (Ret false, w).

(** What may follow a ban: notices, their deletion jobs, and the deletion
    of a single message. *)
Definition is_followup (e : Event) : bool :=
  match e with
  | SendMessage _ _ | ScheduleMessageDeletion _ _ _ | DeleteMessage _ _ => true
  | _ => false
  end.

Definition is_delete_one (e : Event) : bool :=
  match e with DeleteMessage _ _ => true | _ => false end.

(** Mimicry violations of one user handled one after the other, each in
    its own run: the events each of them adds. *)
Fixpoint mimic_violations (R : Runtime) (cfg : Config) (runs : list (Platform * Update))
    (user : User) (chat : Z) (w : World) : list (list Event) :=
  match runs with
  | [] => []
  | (P, update) :: rest =>
      let m := _handle_mimicking_violation R cfg P update user chat in
      emitted m w :: mimic_violations R cfg rest user chat (snd (m w))
  end.

(** "The first mimicry occurrence yields a warning while every occurrence
    from the second onward yields a timed mute", read on the events. *)
Definition mimicry_mutes_from_second_on : Prop :=
  forall R cfg runs user chat w i,
    mimic_warnings (entry_of w (chat, user_id user)) = 0 ->
    (1 <= i < length runs)%nat ->
    existsb is_restrict (nth i (mimic_violations R cfg runs user chat w) []) = true.

(** The bot's recent messages in a chat, and whether a text repeats one. *)
Definition recent_bot_messages (w : World) (chat : Z) : list text :=
  default [] (dict_get Z.eqb chat (bot_message_cache w)).

Definition is_mimicry (R : Runtime) (w : World) (chat : Z) (t : text) : bool :=
  nonempty t && existsb (text_eqb (normalize_text R t)) (recent_bot_messages w chat).

(** A world in which the bot has just said "bot" in chat -100. *)
Definition world_after_bot_message : World :=
  with_bot_messages (world_of empty_db) [(-100, [[98; 111; 116]])].

(** A platform on which user 7 is still restricted without the right to
    send messages. *)
Definition captcha_platform : Platform := {|
  now := 600;
  bot_id := 1;
  call_fails := fun _ _ => false;
  get_me := fun _ => Some 1;
  get_chat_member := fun _ _ u =>
    Some (if u =? 1 then ADMINISTRATOR true else RESTRICTED false false);
  get_chat := fun _ _ => Some None;
  error_is_not_found := fun _ _ => false;
  get_user_profile_photos := fun _ _ => Some None;
  fetch_phash := fun _ => Some None;
  compare_phashes := fun _ _ _ => false;
  sent_message_id := fun h => 1000 + Z.of_nat (length h);
  sent_text := fun _ => [98; 111; 116]
|}.

(** A store in which chat -100 bans the word "spam" and has link banning
    switched on. *)
Definition db_with_ban_word : Database := {|
  banned_users := [];
  moderation_logs := [];
  whitelisted_users := [];
  chat_settings := [{| cs_chat_id := -100; cs_delete_links_enabled := true;
                       cs_welcome_captcha_enabled := true; cs_is_active := true |}];
  ban_words := fun c => if c =? -100 then [[115; 112; 97; 109]] else [];
  ban_nickname_words := fun _ => [];
  ban_bio_words := fun _ => [];
  banned_avatars := [];
  known_members := [];
  profile_checks := []
|}.


(** Members once marked as checked stay marked. *)
Definition checks_kept (w w' : World) : Prop :=
  forall chat user,
    profile_checked (db w) chat user = true -> profile_checked (db w') chat user = true.

(** The store after the members of a list were marked one by one. *)
Definition mark_all (d : Database) (chat : Z) (members : list KnownMemberRow) : Database :=
  fold_left (fun d km => mark_user_profile_checked d chat (km_user_id km)) members d.

Definition is_global_admin (cfg : Config) (user : Z) : bool :=
  existsb (Z.eqb user) (ADMIN_IDS cfg).

(** A platform on which user 7 shows the profile photo "av". *)
Definition avatar_platform : Platform := {|
  now := 600;
  bot_id := 1;
  call_fails := fun _ _ => false;
  get_me := fun _ => Some 1;
  get_chat_member := fun _ _ u => Some (if u =? 1 then ADMINISTRATOR true else MEMBER);
  get_chat := fun _ _ => Some None;
  error_is_not_found := fun _ _ => false;
  get_user_profile_photos := fun _ u => Some (if u =? 7 then Some [97; 118] else None);
  fetch_phash := fun _ => Some None;
  compare_phashes := fun _ _ _ => false;
  sent_message_id := fun h => 1000 + Z.of_nat (length h);
  sent_text := fun _ => [98; 111; 116]
|}.

(** A store in which the photo "av" is banned, chat -100 is active and
    bans the nickname word "bad", and user 7 ("ann") and user 8 ("bad
    bob") are known members of the chat that were never checked. *)
Definition db_with_banned_avatar : Database := {|
  banned_users := [];
  moderation_logs := [];
  whitelisted_users := [];
  chat_settings := [{| cs_chat_id := -100; cs_delete_links_enabled := false;
                       cs_welcome_captcha_enabled := false; cs_is_active := true |}];
  ban_words := fun _ => [];
  ban_nickname_words := fun c => if c =? -100 then [[98; 97; 100]] else [];
  ban_bio_words := fun _ => [];
  banned_avatars := [([97; 118], None)];
  known_members :=
    [{| km_chat_id := -100; km_user_id := 7; km_username := Some [97; 110; 110];
        km_first_name := Some [65; 110; 110]; km_last_name := None;
        km_is_member := true |};
     {| km_chat_id := -100; km_user_id := 8; km_username := None;
        km_first_name := Some [66; 97; 100; 32; 66; 111; 98]; km_last_name := None;
        km_is_member := true |}];
  profile_checks := []
|}.

(** A store in which user 7 is whitelisted in chat -100, which bans the
    word "spam" and links. *)
Definition db_whitelisting : Database := {|
  banned_users := [];
  moderation_logs := [];
  whitelisted_users := [(-100, 7)];
  chat_settings := [{| cs_chat_id := -100; cs_delete_links_enabled := true;
                       cs_welcome_captcha_enabled := true; cs_is_active := true |}];
  ban_words := fun c => if c =? -100 then [[115; 112; 97; 109]] else [];
  ban_nickname_words := fun _ => [];
  ban_bio_words := fun _ => [];
  banned_avatars := [];
  known_members := [];
  profile_checks := []
|}.

(** A message of [example_user] forwarded from a channel. *)
Definition forwarded_update (id : Z) (t : text) : Update :=
  {| message := Some {| message_id := id; chat_id := -100; chat_type := SUPERGROUP;
                        from_user := Some example_user; msg_text := Some t;
                        caption := None; entities := []; caption_entities := [];
                        forward_from_chat := Some CHANNEL |};
     edited_message := None |}.

(** *** Notions for the helpers *)

(** A word of [str.split()]: not empty, and free of separators. *)
Definition is_word (R : Runtime) (w : text) : Prop :=
  w <> [] /\ Forall (fun c => str_isspace R c = false) w.

(** The ids handed to the bulk deletion calls among some events. *)
Definition bulk_deleted_ids (l : list Event) : list Z :=
  flat_map (fun e => match e with DeleteMessages _ ids => ids | _ => [] end) l.

(** A Python dictionary holds a key once. *)
Definition unique_keys {K V : Type} (d : dict K V) : Prop := NoDup (map fst d).

(** A world in which user 7 has sent the messages 11, 12 and 13 to chat
    -100, and user 8 the message 21. *)
Definition world_with_cached_ids : World :=
  with_message_ids (world_of empty_db) [(-100, [(7, [11; 12; 13]); (8, [21])])].

(** *** Notions for the store *)

(** Whether the user is among the members a rescan of the chat would
    enumerate. *)
Definition awaits_check (d : Database) (chat user : Z) (only_active_chat : bool) : bool :=
  existsb (fun km => km_user_id km =? user)
          (get_unchecked_known_members d chat only_active_chat).

(** The row [upsert_member] writes for a user. *)
Definition member_row (chat : Z) (user : User) (is_member : bool) : KnownMemberRow :=
  {| km_chat_id := chat; km_user_id := user_id user;
     km_username := username user; km_first_name := Some (first_name user);
     km_last_name := last_name user; km_is_member := is_member |}.

(** The user has a row in the global-ban registry, active or not. *)
Definition has_registry_row (d : Database) (user : Z) : bool :=
  existsb (fun r => bu_user_id r =? user) (banned_users d).

(** A platform on which the bot is no longer in the chats: the lookup of
    its own membership raises, the error reading "chat not found". *)
Definition departed_platform : Platform := {|
  now := 600;
  bot_id := 1;
  call_fails := fun _ _ => false;
  get_me := fun _ => Some 1;
  get_chat_member := fun _ _ _ => None;
  get_chat := fun _ _ => Some None;
  error_is_not_found := fun _ _ => true;
  get_user_profile_photos := fun _ _ => Some None;
  fetch_phash := fun _ => Some None;
  compare_phashes := fun _ _ _ => false;
  sent_message_id := fun h => 1000 + Z.of_nat (length h);
  sent_text := fun _ => [98; 111; 116]
|}.

(** *** Notions for the tracker *)

(** The (chat, user) pairs the moderation tracker holds, oldest first. *)
Definition tracker_keys (w : World) : list (Z * Z) :=
  map fst (user_moderation_tracker w).

Definition tracked (w : World) (key : Z * Z) : bool :=
  dict_mem key_eqb key (user_moderation_tracker w).

(** The pair is tracked, and stays so with the other pairs as they are. *)
Definition keeps_tracked (key : Z * Z) (w w' : World) : Prop :=
  tracked w key = true -> tracker_keys w' = tracker_keys w /\ tracked w' key = true.

(** A platform on which everybody is the owner of every chat. *)
Definition owner_platform : Platform := {|
  now := 600;
  bot_id := 1;
  call_fails := fun _ _ => false;
  get_me := fun _ => Some 1;
  get_chat_member := fun _ _ _ => Some OWNER;
  get_chat := fun _ _ => Some None;
  error_is_not_found := fun _ _ => false;
  get_user_profile_photos := fun _ _ => Some None;
  fetch_phash := fun _ => Some None;
  compare_phashes := fun _ _ _ => false;
  sent_message_id := fun h => 1000 + Z.of_nat (length h);
  sent_text := fun _ => [98; 111; 116]
|}.

(** A store in which user 7 is whitelisted in chat -100 and has an active
    row in the global-ban registry. *)
Definition db_banned_and_whitelisted : Database :=
  with_banned_users db_whitelisting (banned_users example_registry).


(** *** Notions for the profile checks *)

(** The events of a purge of the ids cached for a user. *)
Definition purge_events (chat user : Z) (ids : list Z) : list Event :=
  CachePop chat user ids :: map (DeleteMessages chat) (chunks (length ids) 100 ids).

(** The configuration with the switch [MODERATE_ADMINS] set. *)
Definition with_moderate_admins (cfg : Config) (b : bool) : Config :=
  {| MAX_WARNINGS := MAX_WARNINGS cfg;
     MUTE_DURATION_MINUTES := MUTE_DURATION_MINUTES cfg;
     CAPS_THRESHOLD := CAPS_THRESHOLD cfg;
     MAX_IDENTICAL_MESSAGES_BEFORE_WARN := MAX_IDENTICAL_MESSAGES_BEFORE_WARN cfg;
     AVATAR_HASH_THRESHOLD := AVATAR_HASH_THRESHOLD cfg;
     MODERATE_ADMINS := b;
     MODERATE_BOTS := MODERATE_BOTS cfg;
     ZALGO_MIN_DIACRITICS := ZALGO_MIN_DIACRITICS cfg;
     ZALGO_RATIO_THRESHOLD := ZALGO_RATIO_THRESHOLD cfg;
     ADMIN_IDS := ADMIN_IDS cfg |}.



(** A store like [db_with_banned_avatar] in which the owner of chat -100,
    user 7, carries the banned nickname word "bad" in the first name. *)
Definition bad_owner : User := {|
  user_id := 7; username := None; first_name := [98; 97; 100];
  last_name := None; is_bot := false
|}.

Definition bad_owner_update : Update :=
  {| message := Some {| message_id := 1; chat_id := -100; chat_type := SUPERGROUP;
                        from_user := Some bad_owner; msg_text := Some [104; 105];
                        caption := None; entities := []; caption_entities := [];
                        forward_from_chat := None |};
     edited_message := None |}.

(** A platform on which user 7 has the bio "t.me/x". *)
Definition bio_link_platform : Platform := {|
  now := 600;
  bot_id := 1;
  call_fails := fun _ _ => false;
  get_me := fun _ => Some 1;
  get_chat_member := fun _ _ u => Some (if u =? 1 then ADMINISTRATOR true else MEMBER);
  get_chat := fun _ c => Some (if c =? 7 then Some [116; 46; 109; 101; 47; 120] else None);
  error_is_not_found := fun _ _ => false;
  get_user_profile_photos := fun _ _ => Some None;
  fetch_phash := fun _ => Some None;
  compare_phashes := fun _ _ _ => false;
  sent_message_id := fun h => 1000 + Z.of_nat (length h);
  sent_text := fun _ => [98; 111; 116]
|}.

(** Message ids of one user in one chat remembered one after the other. *)
Definition add_user_message_ids (chat user : Z) (ids : list Z) (w : World) : World :=
  fold_left (fun w0 i => snd (add_user_message_id chat user i w0)) ids w.
(** * Properties *)

(** ** Basic facts *)

Lemma text_eqb_eq (a b : text) : text_eqb a b = true <-> a = b.
Proof.
  unfold text_eqb. destruct (list_eq_dec Z.eq_dec a b); split; congruence.
Qed.

Lemma text_eqb_refl (a : text) : text_eqb a a = true.
Proof. now apply text_eqb_eq. Qed.

Lemma key_eqb_eq (a b : Z * Z) : key_eqb a b = true <-> a = b.
Proof.
  destruct a as [a1 a2], b as [b1 b2]. unfold key_eqb. cbn.
  rewrite andb_true_iff, !Z.eqb_eq. split.
  - intros [-> ->]. reflexivity.
  - intros H. inversion H. auto.
Qed.

Lemma key_eqb_refl (a : Z * Z) : key_eqb a a = true.
Proof. now apply key_eqb_eq. Qed.

Lemma key_eqb_neq (a b : Z * Z) : a <> b -> key_eqb a b = false.
Proof.
  intros H. destruct (key_eqb a b) eqn:E; [|reflexivity].
  apply key_eqb_eq in E. contradiction.
Qed.

Section DictFacts.
Variables K V : Type.
Variable eqb : K -> K -> bool.
Hypothesis eqb_eq : forall a b, eqb a b = true <-> a = b.

Lemma dict_get_set_same (k : K) (v : V) (d : dict K V) :
  dict_get eqb k (dict_set eqb k v d) = Some v.
Proof.
  induction d as [|[k' v'] d IH]; cbn.
  - replace (eqb k k) with true by (symmetry; now apply eqb_eq). reflexivity.
  - destruct (eqb k k') eqn:E; cbn; rewrite E; auto.
Qed.

Lemma dict_get_set_other (k k0 : K) (v : V) (d : dict K V) :
  k0 <> k -> dict_get eqb k0 (dict_set eqb k v d) = dict_get eqb k0 d.
Proof.
  intros Hne. induction d as [|[k' v'] d IH]; cbn.
  - destruct (eqb k0 k) eqn:E; [apply eqb_eq in E; contradiction | reflexivity].
  - destruct (eqb k k') eqn:E; cbn.
    + apply eqb_eq in E. subst k'.
      destruct (eqb k0 k) eqn:E0; [apply eqb_eq in E0; contradiction | reflexivity].
    + destruct (eqb k0 k'); auto.
Qed.

Lemma dict_get_tl_other (k0 : K) (d : dict K V) :
  (forall k v, hd_error d = Some (k, v) -> k <> k0) ->
  dict_get eqb k0 (tl d) = dict_get eqb k0 d.
Proof.
  destruct d as [|[k v] d]; cbn; intros H; [reflexivity|].
  destruct (eqb k0 k) eqn:E; [|reflexivity].
  apply eqb_eq in E. subst. exfalso. now apply (H k v).
Qed.
End DictFacts.

(** ** The obfuscation classifier *)

Section ZalgoFacts.
Variable R : Runtime.





End ZalgoFacts.


(** ** The global-ban registry *)

Lemma existsb_active_count (d : Database) (user : Z) :
  is_banned d user = true <-> (0 < active_count d user)%nat.
Proof.
  unfold is_banned, active_count.
  induction (banned_users d) as [|r l IH]; cbn.
  - split; [discriminate | lia].
  - destruct (active_ban_of user r); cbn; [split; [lia|auto]|exact IH].
Qed.

Lemma active_count_app (rows1 rows2 : list BannedUserRow) (user : Z) :
  length (filter (active_ban_of user) (rows1 ++ rows2)) =
  (length (filter (active_ban_of user) rows1) +
   length (filter (active_ban_of user) rows2))%nat.
Proof. now rewrite filter_app, length_app. Qed.

Lemma no_row_no_active (rows : list BannedUserRow) (user : Z) :
  existsb (fun r => bu_user_id r =? user) rows = false ->
  filter (active_ban_of user) rows = [].
Proof.
  induction rows as [|r l IH]; cbn; [reflexivity|].
  intros H. apply orb_false_iff in H. destruct H as [H1 H2].
  unfold active_ban_of at 1. rewrite H1. cbn. auto.
Qed.

Lemma deactivate_key (ts : Q) (user : Z) (r : BannedUserRow) :
  bu_user_id (deactivate ts user r) = bu_user_id r.
Proof. unfold deactivate. now destruct (active_ban_of user r). Qed.

Lemma deactivate_not_active (ts : Q) (user : Z) (r : BannedUserRow) :
  active_ban_of user (deactivate ts user r) = false.
Proof.
  unfold deactivate. destruct (active_ban_of user r) eqn:E; [|exact E].
  unfold active_ban_of. cbn. apply andb_false_r.
Qed.

Lemma deactivate_all (ts : Q) (user : Z) (rows : list BannedUserRow) :
  existsb (active_ban_of user) (map (deactivate ts user) rows) = false.
Proof.
  induction rows as [|r l IH]; cbn; [reflexivity|].
  now rewrite deactivate_not_active.
Qed.

Lemma deactivate_other (ts : Q) (user : Z) (r : BannedUserRow) :
  bu_user_id r <> user -> deactivate ts user r = r.
Proof.
  intros H. unfold deactivate, active_ban_of.
  replace (bu_user_id r =? user) with false by (symmetry; now apply Z.eqb_neq).
  reflexivity.
Qed.

(** The primary key keeps the registry at one row per user, whatever
    sequence of bans and unbans is applied. *)
Lemma ban_user_keeps_keys_unique (d : Database) (user : Z) (reason : Reason)
    (admin : Z) (un fn ln : option text) :
  NoDup (registry_keys d) ->
  NoDup (registry_keys (snd (ban_user d user reason admin un fn ln))).
Proof.
  intros H. unfold ban_user.
  destruct (existsb (active_ban_of user) (banned_users d)); [exact H|].
  destruct (existsb (fun r => bu_user_id r =? user) (banned_users d)) eqn:E; [exact H|].
  unfold registry_keys. cbn. rewrite map_app. cbn.
  apply NoDup_app; [exact H | constructor; [intros []|constructor] |].
  intros a Ha [Hb|[]]. subst a.
  apply in_map_iff in Ha. destruct Ha as [r [Hr1 Hr2]].
  assert (X : existsb (fun r => bu_user_id r =? user) (banned_users d) = true).
  { apply existsb_exists. exists r. split; [exact Hr2|]. now apply Z.eqb_eq. }
  congruence.
Qed.

Lemma unban_user_keeps_keys (d : Database) (ts : Q) (user : Z) (admin : option Z) :
  registry_keys (snd (unban_user d ts user admin)) = registry_keys d.
Proof.
  unfold unban_user, registry_keys.
  destruct (0 <? _); cbn; rewrite map_map; apply map_ext; intros r; apply deactivate_key.
Qed.

Lemma unique_key_one_active (rows : list BannedUserRow) (user : Z) :
  NoDup (map bu_user_id rows) ->
  (length (filter (active_ban_of user) rows) <= 1)%nat.
Proof.
  induction rows as [|r l IH]; cbn; [lia|].
  intros H. inversion H as [|? ? Hnotin Hl]; subst.
  destruct (active_ban_of user r) eqn:E; [|auto].
  cbn. rewrite no_row_no_active; [cbn; lia|].
  destruct (existsb _ l) eqn:Ex; [|reflexivity].
  exfalso. apply existsb_exists in Ex. destruct Ex as [r' [Hin Hk]].
  apply Z.eqb_eq in Hk. unfold active_ban_of in E.
  apply andb_true_iff in E. destruct E as [E _]. apply Z.eqb_eq in E.
  apply Hnotin. apply in_map_iff. exists r'. split; [congruence|exact Hin].
Qed.

(** C10.  [ban_user] on a user with an active record returns failure and
    leaves the whole store as it was; no call of [ban_user] raises the
    number of active records of any user above one (or above what it
    was); [unban_user] keeps every row in its place, turns the active row
    of the user into an inactive one carrying the unban time, leaves the
    rows of other users alone, and reports whether there was an active
    row. *)
Theorem global_ban_registry_toggle (d : Database) (user : Z) (reason : Reason)
    (admin : Z) (un fn ln : option text) (ts : Q) (unban_admin : option Z) :
  (is_banned d user = true ->
   ban_user d user reason admin un fn ln = (false, d))
  /\ (forall u, (active_count (snd (ban_user d user reason admin un fn ln)) u
                 <= Nat.max 1 (active_count d u))%nat)
  /\ (let d' := snd (unban_user d ts user unban_admin) in
      fst (unban_user d ts user unban_admin) = is_banned d user
      /\ banned_users d' = map (deactivate ts user) (banned_users d)
      /\ registry_keys d' = registry_keys d
      /\ length (banned_users d') = length (banned_users d)
      /\ is_banned d' user = false
      /\ (forall r, In r (banned_users d) -> active_ban_of user r = true ->
            In {| bu_user_id := bu_user_id r; bu_username := bu_username r;
                  bu_first_name := bu_first_name r; bu_last_name := bu_last_name r;
                  bu_reason := bu_reason r; bu_admin_id := bu_admin_id r;
                  bu_unbanned_at := Some ts; bu_is_active := false |}
               (banned_users d'))
      /\ (forall r, In r (banned_users d) -> bu_user_id r <> user ->
            In r (banned_users d'))).
Proof.
  split; [|split].
  - intros H. unfold ban_user. unfold is_banned in H. now rewrite H.
  - intros u. unfold ban_user.
    destruct (existsb (active_ban_of user) (banned_users d)) eqn:E1; [apply Nat.le_max_r|].
    destruct (existsb (fun r => bu_user_id r =? user) (banned_users d)) eqn:E2; [apply Nat.le_max_r|].
    unfold active_count. cbn [snd log_moderation_action with_moderation_logs
      with_banned_users banned_users].
    rewrite active_count_app. cbn [filter].
    unfold active_ban_of at 2. cbn [bu_user_id bu_is_active].
    destruct (user =? u) eqn:Eu; cbn.
    + apply Z.eqb_eq in Eu. subst u.
      rewrite (no_row_no_active _ _ E2). cbn. lia.
    + destruct (length (filter (active_ban_of u) (banned_users d))); cbn; lia.
  - assert (Hrows : banned_users (snd (unban_user d ts user unban_admin)) =
                    map (deactivate ts user) (banned_users d)).
    { unfold unban_user. now destruct (0 <? _). }
    cbn zeta. split; [|split; [exact Hrows|split; [apply unban_user_keeps_keys|split; [|split; [|split]]]]].
    + unfold unban_user.
      destruct (is_banned d user) eqn:Eb.
      * apply existsb_active_count in Eb. unfold active_count in Eb.
        replace (0 <? _) with true; [reflexivity|]. symmetry. apply Z.ltb_lt. lia.
      * replace (0 <? _) with false; [reflexivity|]. symmetry. apply Z.ltb_ge.
        destruct (filter (active_ban_of user) (banned_users d)) eqn:Ef; [cbn; lia|].
        exfalso. assert (X : is_banned d user = true).
        { apply existsb_active_count. unfold active_count. rewrite Ef. cbn. lia. }
        congruence.
    + rewrite Hrows. apply length_map.
    + unfold is_banned. rewrite Hrows. apply deactivate_all.
    + intros r Hin Hact. rewrite Hrows. apply in_map_iff. exists r.
      split; [|exact Hin]. unfold deactivate. now rewrite Hact.
    + intros r Hin Hne. rewrite Hrows. apply in_map_iff. exists r.
      split; [now apply deactivate_other|exact Hin].
Qed.

(** ** Running handlers *)

Unset Implicit Arguments.

#[local] Arguments Z.mul : simpl never.
#[local] Arguments Z.add : simpl never.
#[local] Arguments Z.sub : simpl never.
#[local] Arguments Z.leb : simpl never.
#[local] Arguments Z.ltb : simpl never.
#[local] Arguments Z.eqb : simpl never.
#[local] Arguments Z.of_nat : simpl never.
#[local] Arguments Qplus : simpl never.
#[local] Arguments Qminus : simpl never.
#[local] Arguments Qle_bool : simpl never.
#[local] Arguments Qeq_bool : simpl never.
#[local] Arguments inject_Z : simpl never.
#[local] Arguments ensure_entry : simpl never.
#[local] Arguments put_entry : simpl never.
#[local] Arguments entry_of : simpl never.
#[local] Arguments normalize_text : simpl never.

Lemma entry_of_put (w : World) (key : Z * Z) (e : TrackerEntry) :
  entry_of (put_entry key e w) key = e.
Proof.
  unfold entry_of, put_entry. cbn. now rewrite (dict_get_set_same key_eqb key_eqb_eq).
Qed.

Lemma entry_of_put_other (w : World) (key key0 : Z * Z) (e : TrackerEntry) :
  key0 <> key -> entry_of (put_entry key e w) key0 = entry_of w key0.
Proof.
  intros H. unfold entry_of, put_entry. cbn.
  now rewrite (dict_get_set_other key_eqb key_eqb_eq).
Qed.

(** Creating a missing entry does not change what is read at any key. *)
Lemma entry_of_ensure (w : World) (key key0 : Z * Z) :
  entry_of (ensure_entry key w) key0 = entry_of w key0.
Proof.
  unfold ensure_entry, dict_mem.
  destruct (dict_get key_eqb key (user_moderation_tracker w)) eqn:E; [reflexivity|].
  destruct (key_eqb key0 key) eqn:Ek.
  - apply key_eqb_eq in Ek. subst key0. fold (put_entry key new_entry w).
    rewrite entry_of_put. unfold entry_of. now rewrite E.
  - fold (put_entry key new_entry w). apply entry_of_put_other.
    intros ->. now rewrite key_eqb_refl in Ek.
Qed.

Lemma events_ensure (w : World) (key : Z * Z) : events (ensure_entry key w) = events w.
Proof. unfold ensure_entry. now destruct (dict_mem _ _ _). Qed.

Lemma events_put (w : World) (key : Z * Z) (e : TrackerEntry) :
  events (put_entry key e w) = events w.
Proof. reflexivity. Qed.

(** The tracker component decides [entry_of]. *)
Lemma entry_of_tracker (w1 w2 : World) (key : Z * Z) :
  user_moderation_tracker w1 = user_moderation_tracker w2 ->
  entry_of w1 key = entry_of w2 key.
Proof. unfold entry_of. now intros ->. Qed.

Lemma entry_of_with_db (w : World) (d : Database) (k : Z * Z) :
  entry_of (with_db w d) k = entry_of w k.
Proof. reflexivity. Qed.

Lemma entry_of_with_events (w : World) (l : list Event) (k : Z * Z) :
  entry_of (with_events w l) k = entry_of w k.
Proof. reflexivity. Qed.

Lemma entry_of_with_bot_messages (w : World) (c : dict Z (list text)) (k : Z * Z) :
  entry_of (with_bot_messages w c) k = entry_of w k.
Proof. reflexivity. Qed.

Lemma entry_of_with_message_ids (w : World) (c : dict Z (dict Z (list Z))) (k : Z * Z) :
  entry_of (with_message_ids w c) k = entry_of w k.
Proof. reflexivity. Qed.

Create Rewrite HintDb world.
#[local] Hint Rewrite entry_of_put entry_of_ensure entry_of_with_db entry_of_with_events
  entry_of_with_bot_messages entry_of_with_message_ids events_ensure events_put : world.

Ltac unfold_monad :=
  unfold delete_message, send_message, schedule_message_deletion, db_log, db_ban_user,
    add_bot_message_to_cache, tracker_setdefault, evict_oldest, get_entry, set_entry,
    effective_chat_id, effective_user_mention, try_log, ignore, emit in *;
  unfold call, query, modify, get_world, try_except, bind, ret, raise in *.

Ltac case_call :=
  match goal with
  | |- context [call_fails ?P ?h ?e] => destruct (call_fails P h e) eqn:?
  end.

Ltac simpl_world := cbn; repeat (progress (autorewrite with world; cbn)).


Section LadderFacts.
Variable R : Runtime.
Variable cfg : Config.




End LadderFacts.


(** ** Flood detection *)

#[local] Arguments evicted : simpl never.
#[local] Arguments in_window : simpl never.
#[local] Arguments same_text : simpl never.

Lemma dict_get_tl_absent {V : Type} (key : Z * Z) (d : dict (Z * Z) V) :
  dict_get key_eqb key d = None -> dict_get key_eqb key (tl d) = None.
Proof.
  destruct d as [|[k v] d]; cbn; [auto|].
  destruct (key_eqb key k); [discriminate|auto].
Qed.

(** The eviction only happens when the key is absent, and then it stays
    absent: the entry read at the key is the same. *)
Lemma entry_of_evicted (w : World) (key : Z * Z) :
  entry_of (evicted key w) key = entry_of w key.
Proof.
  unfold evicted.
  destruct (MAX_HISTORY_USERS <? _); cbn [andb]; [|reflexivity].
  unfold dict_mem.
  destruct (dict_get key_eqb key (user_moderation_tracker w)) eqn:E; cbn [negb];
    [reflexivity|].
  unfold entry_of. cbn. now rewrite (dict_get_tl_absent _ _ E), E.
Qed.

Lemma events_evicted (w : World) (key : Z * Z) : events (evicted key w) = events w.
Proof. unfold evicted. now destruct (_ && _). Qed.

#[local] Hint Rewrite entry_of_evicted events_evicted : world.

Ltac case_step :=
  match goal with
  | |- context [call_fails ?P ?h ?e] => destruct (call_fails P h e) eqn:?
  | |- context [match ?x with _ => _ end] =>
      match type of x with
      | option _ => destruct x eqn:?
      | bool => destruct x eqn:?
      | ChatMember => destruct x eqn:?
      | list _ => destruct x eqn:?
      end
  | |- context [if ?x then _ else _] => destruct x eqn:?
  end.

Ltac run_all := simpl_world; repeat (case_step; simpl_world).

Section FloodFacts.
Variable R : Runtime.
Variable cfg : Config.

(** The warning ladder touches the warning counter only. *)
Lemma ladder_keeps_history (P : Platform) (update : Update) (chat user : Z)
    (reason : Reason) (w : World) :
  effective_chat update = Some chat ->
  let w' := snd (_issue_warning_and_mute_if_needed R cfg P update user reason w) in
  last_messages (entry_of w' (chat, user)) = last_messages (entry_of w (chat, user))
  /\ zalgo_warnings (entry_of w' (chat, user)) = zalgo_warnings (entry_of w (chat, user))
  /\ mimic_warnings (entry_of w' (chat, user)) = mimic_warnings (entry_of w (chat, user)).
Proof.
  intros Hc.
  unfold _issue_warning_and_mute_if_needed. unfold_monad. rewrite Hc.
  run_all; auto.
Qed.



Lemma flagged_ladder (P : Platform) (update : Update) (user : Z) (reason : Reason)
    (w : World) :
  flagged (fst (_issue_warning_and_mute_if_needed R cfg P update user reason w)) = true.
Proof.
  unfold _issue_warning_and_mute_if_needed. unfold_monad.
  run_all; reflexivity.
Qed.











End FloodFacts.

Example repeated_text_run :
  fst (send_repeatedly example_runtime (config_py [])
         [(example_platform 10, example_update 1 [104; 105]);
          (example_platform 20, example_update 2 [104; 105]);
          (example_platform 30, example_update 3 [104; 105]);
          (example_platform 40, example_update 4 [104; 105])]
         7 [104; 105] (world_of empty_db))
  = [false; false; true; false].
Proof. vm_compute. reflexivity. Qed.


(** ** Frame rules *)

Section Frame.
Context (I : World -> World -> Prop) `{HI : FrameRel I}.

Lemma frame_ret {A} (a : A) : frame I (ret a).
Proof. intros w. apply frame_refl. Qed.

Lemma frame_raise {A} (e : Exn) : frame I (@raise A e).
Proof. intros w. apply frame_refl. Qed.

Lemma frame_get_world : frame I get_world.
Proof. intros w. apply frame_refl. Qed.

Lemma frame_get_entry (key : Z * Z) : frame I (get_entry key).
Proof. intros w. apply frame_refl. Qed.

Lemma frame_query {A} (q : list Event -> option A) : frame I (query q).
Proof. intros w. unfold query. destruct (q (events w)); apply frame_refl. Qed.

Lemma frame_bind {A B} (m : M A) (k : A -> M B) :
  frame I m -> (forall a, frame I (k a)) -> frame I (bind m k).
Proof.
  intros Hm Hk w. unfold bind. specialize (Hm w).
  destruct (m w) as [[a|e] w1]; cbn in *; [|exact Hm].
  eapply frame_trans; [exact Hm|apply Hk].
Qed.

Lemma frame_try_except {A} (m : M A) (h : Exn -> M A) :
  frame I m -> (forall e, frame I (h e)) -> frame I (try_except m h).
Proof.
  intros Hm Hh w. unfold try_except. specialize (Hm w).
  destruct (m w) as [[a|e] w1]; cbn in *; [exact Hm|].
  eapply frame_trans; [exact Hm|apply Hh].
Qed.

Lemma frame_modify (f : World -> World) :
  (forall w, I w (f w)) -> frame I (modify f).
Proof. intros H w. apply H. Qed.

Lemma frame_call (P : Platform) (e : Event) :
  (forall w, I w (with_events w (events w ++ [e]))) -> frame I (call P e).
Proof. intros H w. unfold call. destruct (call_fails P (events w) e); apply H. Qed.

Lemma frame_send_message (P : Platform) (chat : Z) (n : Notice) :
  (forall w, I w (with_events w (events w ++ [SendMessage chat n]))) ->
  frame I (send_message P chat n).
Proof.
  intros H w. unfold send_message, call.
  destruct (call_fails P (events w) _); apply H.
Qed.
End Frame.

#[local] Instance emits_only_frame (p : Event -> bool) : FrameRel (emits_only p).
Proof.
  split.
  - intros w. exists []. now rewrite app_nil_r.
  - intros w1 w2 w3 [l1 [H1 P1]] [l2 [H2 P2]]. exists (l1 ++ l2).
    rewrite H2, H1, app_assoc, forallb_app, P1, P2. auto.
Qed.

#[local] Instance keeps_frame {X} (f : World -> X) : FrameRel (keeps f).
Proof.
  split.
  - intros w. reflexivity.
  - intros w1 w2 w3 H1 H2. unfold keeps in *. congruence.
Qed.

(** Decompose a handler along its structure; what is left are the
    primitive steps. *)
Ltac frame_step :=
  lazymatch goal with
  | |- FrameRel _ => typeclasses eauto
  | |- forall _, _ => intros ?
  | |- frame _ (ret _) => apply frame_ret
  | |- frame _ (raise _) => apply frame_raise
  | |- frame _ get_world => apply frame_get_world
  | |- frame _ (get_entry _) => apply frame_get_entry
  | |- frame _ (query _) => apply frame_query
  | |- frame _ (bind _ _) => apply frame_bind
  | |- frame _ (try_except _ _) => apply frame_try_except
  | |- frame _ (modify _) => apply frame_modify
  | |- frame _ (call _ _) => apply frame_call
  | |- frame _ (send_message _ _ _) => apply frame_send_message
  | |- frame _ (if ?b then _ else _) => destruct b
  | |- frame _ (match ?x with _ => _ end) => destruct x
  | |- frame _ (let _ := _ in _) => cbv zeta
  end.

Ltac frame_unfold :=
  cbv beta delta [try_log ignore emit set_entry tracker_setdefault evict_oldest
    schedule_message_deletion db_log db_ban_user add_bot_message_to_cache
    add_user_message_id delete_message effective_chat_id effective_user_mention].

Create HintDb frames.

Ltac frame_auto :=
  repeat (frame_unfold; first [assumption | solve [auto 2 with frames nocore] | frame_step]).

Ltac solve_emits :=
  try match goal with
  | |- emits_only _ ?w ?w => exists []; split; [now rewrite app_nil_r | reflexivity]
  | |- emits_only _ ?w (with_events ?w (events ?w ++ ?l)) =>
      exists l; split; [reflexivity | reflexivity]
  | |- emits_only _ ?w (ensure_entry _ ?w) =>
      exists []; rewrite events_ensure, app_nil_r; split; reflexivity
  | |- emits_only _ ?w (evicted _ ?w) =>
      exists []; rewrite events_evicted, app_nil_r; split; reflexivity
  | |- emits_only _ _ _ => exists []; cbn; rewrite app_nil_r; split; reflexivity
  end.

Lemma emitted_app {A} (m : M A) (w : World) (l : list Event) :
  events (snd (m w)) = events w ++ l -> emitted m w = l.
Proof.
  intros H. unfold emitted. rewrite H, skipn_app, skipn_all, Nat.sub_diag. reflexivity.
Qed.

Lemma emits_only_weaken (p q : Event -> bool) (w w' : World) :
  (forall e, p e = true -> q e = true) -> emits_only p w w' -> emits_only q w w'.
Proof.
  intros Hpq [l [He Hp]]. exists l. split; [exact He|].
  rewrite forallb_forall in *. auto.
Qed.

Lemma frame_weaken (p q : Event -> bool) {A} (m : M A) :
  (forall e, p e = true -> q e = true) ->
  frame (emits_only p) m -> frame (emits_only q) m.
Proof. intros Hpq H w. eapply emits_only_weaken; [exact Hpq|apply H]. Qed.

Section Emissions.
Variable R : Runtime.
Variable cfg : Config.
Variable P : Platform.

Lemma send_to_admins_notices (admins : list Z) (n : Notice) :
  frame (emits_only is_notice) (send_to_admins P admins n).
Proof.
  induction admins as [|a rest IH]; cbn [send_to_admins]; frame_auto; solve_emits.
Qed.

Lemma propose_global_ban_notices (user chat : Z) (reason : Reason) :
  frame (emits_only is_notice) (propose_global_ban cfg P user chat reason).
Proof.
  unfold propose_global_ban. frame_auto. apply send_to_admins_notices.
Qed.

Lemma notify_admins_notices (admins : list Z) (n : Notice) :
  frame (emits_only is_notice) (notify_admins P admins n).
Proof.
  induction admins as [|a rest IH]; cbn [notify_admins]; frame_auto; solve_emits.
Qed.

Lemma delete_chunks_bulk (chat : Z) (cs : list (list Z)) :
  frame (emits_only is_bulk_delete) (delete_chunks P chat cs).
Proof.
  induction cs as [|c rest IH]; cbn [delete_chunks]; frame_auto; solve_emits.
Qed.

Lemma delete_chunks_returns (chat : Z) (cs : list (list Z)) (w : World) :
  fst (delete_chunks P chat cs w) = Ret tt.
Proof.
  revert w. induction cs as [|c rest IH]; intros w; cbn [delete_chunks]; [reflexivity|].
  unfold_monad. destruct (call_fails P (events w) _); cbn; apply IH.
Qed.

Lemma delete_chunks_keeps {X} (f : World -> X) (chat : Z) (cs : list (list Z)) :
  (forall w l, f (with_events w l) = f w) ->
  frame (keeps f) (delete_chunks P chat cs).
Proof.
  intros Hf.
  induction cs as [|c rest IH]; cbn [delete_chunks]; frame_auto; unfold keeps; auto.
Qed.

(** The purge: the user's list is popped, then deleted in bulk calls; it
    never raises and touches neither the tracker nor the store. *)
Lemma delete_cached_messages_run (chat user : Z) (w : World) :
  exists w' dels,
    delete_cached_messages P chat user w = (Ret tt, w')
    /\ events w' = events w ++ CachePop chat user (cached_ids w chat user) :: dels
    /\ forallb is_bulk_delete dels = true
    /\ user_moderation_tracker w' = user_moderation_tracker w
    /\ bot_message_cache w' = bot_message_cache w
    /\ db w' = db w.
Proof.
  unfold delete_cached_messages. unfold_monad. cbn.
  assert (Hpop_events : events (pop_cached chat user w) = events w)
    by (unfold pop_cached; now destruct (dict_get _ _ _)).
  assert (Hpop_tracker : user_moderation_tracker (pop_cached chat user w) =
                         user_moderation_tracker w)
    by (unfold pop_cached; now destruct (dict_get _ _ _)).
  assert (Hpop_bot : bot_message_cache (pop_cached chat user w) = bot_message_cache w)
    by (unfold pop_cached; now destruct (dict_get _ _ _)).
  assert (Hpop_db : db (pop_cached chat user w) = db w)
    by (unfold pop_cached; now destruct (dict_get _ _ _)).
  rewrite Hpop_events.
  destruct (cached_ids w chat user) as [|i ids] eqn:Eids.
  - eexists. exists []. cbn. repeat split; auto.
  - set (w0 := with_events (pop_cached chat user w) _).
    set (cs := chunks _ _ _).
    pose proof (delete_chunks_returns chat cs w0) as Hret.
    destruct (delete_chunks_bulk chat cs w0) as [dels [Hev Hdels]].
    pose proof (delete_chunks_keeps user_moderation_tracker chat cs (fun _ _ => eq_refl) w0) as Ht.
    pose proof (delete_chunks_keeps bot_message_cache chat cs (fun _ _ => eq_refl) w0) as Hb.
    pose proof (delete_chunks_keeps db chat cs (fun _ _ => eq_refl) w0) as Hd.
    unfold keeps in Ht, Hb, Hd.
    destruct (delete_chunks P chat cs w0) as [o w'] eqn:Erun. cbn in *. subst o.
    exists w', dels. repeat split; auto.
    + rewrite Hev. unfold w0. cbn. now rewrite <- app_assoc.
    + now rewrite Ht.
    + now rewrite Hb.
    + now rewrite Hd.
Qed.
End Emissions.

(** ** Obfuscated text: two strikes *)

#[local] Arguments delete_cached_messages : simpl never.
#[local] Arguments propose_global_ban : simpl never.
#[local] Arguments _handle_zalgo_violation : simpl never.
#[local] Arguments _issue_warning_and_mute_if_needed : simpl never.
#[local] Arguments _ban_for_word : simpl never.
#[local] Arguments _handle_mimicking_violation : simpl never.
#[local] Arguments cached_ids : simpl never.

Lemma cached_ids_put (w : World) (key : Z * Z) (e : TrackerEntry) (chat user : Z) :
  cached_ids (put_entry key e w) chat user = cached_ids w chat user.
Proof. reflexivity. Qed.

Lemma cached_ids_ensure (w : World) (key : Z * Z) (chat user : Z) :
  cached_ids (ensure_entry key w) chat user = cached_ids w chat user.
Proof. unfold ensure_entry. now destruct (dict_mem _ _ _). Qed.

Lemma cached_ids_with_events (w : World) (l : list Event) (chat user : Z) :
  cached_ids (with_events w l) chat user = cached_ids w chat user.
Proof. reflexivity. Qed.

#[local] Hint Rewrite cached_ids_put cached_ids_ensure cached_ids_with_events : world.

Ltac run_purge P chat user :=
  match goal with
  | |- context [delete_cached_messages P chat user ?w0] =>
      let w' := fresh "wp" in
      let dels := fresh "dels" in
      let Hrun := fresh "Hrun" in
      let Hev := fresh "Hev" in
      let Hdels := fresh "Hdels" in
      let Ht := fresh "Htr" in
      let Hb := fresh "Hbot" in
      let Hd := fresh "Hdb" in
      destruct (delete_cached_messages_run P chat user w0)
        as [w' [dels [Hrun [Hev [Hdels [Ht [Hb Hd]]]]]]];
      rewrite Hrun; autorewrite with world in Hev
  end.

Lemma try_bind_call {A} (P : Platform) (e : Event) (k : unit -> M A) (h : Exn -> M A)
    (w : World) :
  try_except (bind (call P e) k) h w =
  if call_fails P (events w) e
  then h TelegramError (with_events w (events w ++ [e]))
  else try_except (k tt) h (with_events w (events w ++ [e])).
Proof.
  unfold try_except, bind, call. now destruct (call_fails P (events w) e).
Qed.

Lemma try_bind_ret {A B} (m : M A) (k : A -> M B) (h : Exn -> M B) (w w1 : World) (a : A) :
  m w = (Ret a, w1) ->
  try_except (bind m k) h w = try_except (k a) h w1.
Proof. intros H. unfold try_except, bind. now rewrite H. Qed.

Lemma bind_ret_run {A B} (m : M A) (k : A -> M B) (w w1 : World) (a : A) :
  m w = (Ret a, w1) -> bind m k w = k a w1.
Proof. intros H. unfold bind. now rewrite H. Qed.

Lemma try_log_returns (m : M unit) (w : World) : fst (try_log m w) = Ret tt.
Proof.
  unfold try_log, try_except, ret. destruct (m w) as [[[]|e] w1]; reflexivity.
Qed.

Lemma try_except_returns {A} (m : M A) (h : Exn -> M A) (w : World) :
  (forall e w1, exists a, fst (h e w1) = Ret a) ->
  exists a, fst (try_except m h w) = Ret a.
Proof.
  intros Hh. unfold try_except. destruct (m w) as [[a|e] w1]; [now exists a|apply Hh].
Qed.

Lemma try_log_call (P : Platform) (e : Event) (w : World) :
  try_log (call P e) w = (Ret tt, with_events w (events w ++ [e])).
Proof. unfold try_log, try_except, call, ret. now destruct (call_fails P (events w) e). Qed.

Lemma snd_bind_raise {A B} (m : M A) (e : Exn) (w : World) :
  snd (bind m (fun _ => @raise B e) w) = snd (m w).
Proof. unfold bind, raise. now destruct (m w) as [[a|e0] w1]. Qed.

Lemma bind_get_world {A} (k : World -> M A) (w : World) :
  bind get_world k w = k w w.
Proof. reflexivity. Qed.

Section ZalgoStrikes.
Variable R : Runtime.
Variable cfg : Config.

Lemma zalgo_first_offense (P : Platform) (update : Update) (user : User) (chat : Z)
    (is_edited : bool) (w : World) :
  zalgo_warnings (entry_of w (chat, user_id user)) = 0 ->
  let w' := snd (_handle_zalgo_violation R P update user chat is_edited w) in
  zalgo_warnings (entry_of w' (chat, user_id user)) = 1
  /\ warnings (entry_of w' (chat, user_id user)) = warnings (entry_of w (chat, user_id user))
  /\ exists l, events w' =
               events w ++ SendMessage chat (ZalgoWarnNotice (user_id user)) :: l
               /\ forallb is_notice l = true.
Proof.
  intros H0. unfold _handle_zalgo_violation. unfold_monad. simpl_world.
  replace (1 <? zalgo_warnings (entry_of w (chat, user_id user)) + 1) with false
    by (rewrite H0; reflexivity).
  case_call; simpl_world.
  - rewrite H0. repeat split. exists []. auto.
  - destruct (nonempty (sent_text P _)); simpl_world; rewrite H0;
      (repeat split; eexists; rewrite <- app_assoc; split; reflexivity).
Qed.

Lemma zalgo_repeat_offense (P : Platform) (update : Update) (user : User) (chat : Z)
    (is_edited : bool) (w : World) :
  1 <= zalgo_warnings (entry_of w (chat, user_id user)) ->
  let r := _handle_zalgo_violation R P update user chat is_edited w in
  fst r = Ret tt
  /\ warnings (entry_of (snd r) (chat, user_id user)) =
     warnings (entry_of w (chat, user_id user))
  /\ exists dels,
       events (snd r) =
         events w ++ CachePop chat (user_id user) (cached_ids w chat (user_id user))
                  :: dels ++ [BanChatMember chat (user_id user) true]
       /\ forallb is_bulk_delete dels = true.
Proof.
  intros H1. unfold _handle_zalgo_violation. unfold_monad. simpl_world.
  replace (1 <? zalgo_warnings (entry_of w (chat, user_id user)) + 1) with true
    by (symmetry; apply Z.ltb_lt; lia).
  run_purge P chat (user_id user). simpl_world.
  assert (Hentry : entry_of wp (chat, user_id user) =
                   set_zalgo_warnings (entry_of w (chat, user_id user))
                     (zalgo_warnings (entry_of w (chat, user_id user)) + 1)).
  { erewrite entry_of_tracker by exact Htr. now autorewrite with world. }
  rewrite Hev. simpl_world.
  case_call; simpl_world; rewrite Hentry; cbn;
    (repeat split; exists dels; rewrite <- app_assoc; cbn; auto).
Qed.

Lemma delete_trigger_followup (P : Platform) (update : Update) (is_edited : bool) :
  frame (emits_only is_delete_one) (delete_trigger P update is_edited).
Proof. unfold delete_trigger. frame_auto; solve_emits. Qed.

(** [_ban_for_word] issues the ban first.  When the ban call goes through
    the purge comes right after it, followed by notices (or the deletion
    of the trigger if one of them fails); when it raises, there is no
    purge at all, only the attempt to delete the trigger. *)
Lemma ban_for_word_order (P : Platform) (update : Update) (user : User) (chat : Z)
    (word : text) (is_edited : bool) (w : World) :
  let r := _ban_for_word R cfg P update user chat word is_edited w in
  let ban := BanChatMember chat (user_id user) true in
  fst r = Ret tt
  /\ (call_fails P (events w) ban = false ->
      exists dels l,
        events (snd r) =
          events w ++ ban :: CachePop chat (user_id user) (cached_ids w chat (user_id user))
                   :: dels ++ l
        /\ forallb is_bulk_delete dels = true /\ forallb is_followup l = true)
  /\ (call_fails P (events w) ban = true ->
      exists l, events (snd r) = events w ++ ban :: l
                /\ forallb is_delete_one l = true).
Proof.
  cbv zeta. unfold _ban_for_word. rewrite try_bind_call.
  destruct (call_fails P (events w) _) eqn:Ecall.
  - split; [apply try_log_returns|]. split; [discriminate|]. intros _.
    destruct (frame_try_except (emits_only is_delete_one)
                (delete_trigger P update is_edited) (fun _ => ret tt)
                (delete_trigger_followup P update is_edited)
                (fun _ => frame_ret (emits_only is_delete_one) tt)
                (with_events w (events w ++ [BanChatMember chat (user_id user) true])))
      as [l [Hl Hp]].
    exists l. split; [|exact Hp]. unfold try_log. rewrite Hl. cbn.
    now rewrite <- app_assoc.
  - destruct (delete_cached_messages_run P chat (user_id user)
                (with_events w (events w ++ [BanChatMember chat (user_id user) true])))
      as [wp [dels [Hrun [Hev [Hdels _]]]]].
    erewrite try_bind_ret by exact Hrun.
    match goal with
    | |- context [try_except ?m ?h wp] =>
        assert (Hframe : frame (emits_only is_followup) (try_except m h))
    end.
    { frame_auto; solve_emits.
      - eapply frame_weaken; [|apply propose_global_ban_notices].
        intros [] H; cbn in *; congruence.
      - eapply frame_weaken; [|apply delete_trigger_followup].
        intros [] H; cbn in *; congruence. }
    split; [|split; [|discriminate]].
    + match goal with
      | |- fst (try_except ?m ?h wp) = _ =>
          destruct (m wp) as [[[]|e] w2] eqn:E; unfold try_except; rewrite E;
            [reflexivity|apply try_log_returns]
      end.
    + intros _. destruct (Hframe wp) as [l [Hl Hp]].
      exists dels, l. split; [|auto]. rewrite Hl, Hev. cbn.
      rewrite <- !app_assoc. reflexivity.
Qed.

(** The pipeline for edited messages: the obfuscation check with the
    counter of [_handle_zalgo_violation], then the banned words, and
    nothing else. *)
Lemma edited_pipeline (P : Platform) (update : Update) (em : Message) (user : User)
    (w : World) :
  edited_message update = Some em ->
  truthy (msg_text em) = true ->
  chat_type em = GROUP \/ chat_type em = SUPERGROUP ->
  from_user em = Some user ->
  not_exempt cfg P w (chat_id em) (user_id user) ->
  is_whitelisted (db w) (chat_id em) (user_id user) = false ->
  let t := text_or_empty (msg_text em) in
  let chat := chat_id em in
  let r := handle_edited_message R cfg P update w in
  (is_zalgo R cfg t = true ->
   snd r = snd (_handle_zalgo_violation R P update user chat true
                  (with_events w (events w ++ [DeleteMessage chat (message_id em)]))))
  /\ (is_zalgo R cfg t = false ->
      forall word,
        first_banned_word (get_chat_ban_words (db w) chat) (normalize_text R t) = Some word ->
        snd r = snd (_ban_for_word R cfg P update user chat word true w))
  /\ (is_zalgo R cfg t = false ->
      first_banned_word (get_chat_ban_words (db w) chat) (normalize_text R t) = None ->
      r = (Ret tt, w)).
Proof.
  intros Hem Htext Htype Hfrom Hex Hwl. cbv zeta.
  unfold handle_edited_message. rewrite Hem, Htext. cbn [negb].
  assert (Hbody :
    match chat_type em with
    | GROUP | SUPERGROUP => true
    | _ => false
    end = true) by (destruct Htype as [-> | ->]; reflexivity).
  destruct (chat_type em); try discriminate; clear Hbody;
    rewrite Hfrom;
    (erewrite bind_ret_run by exact Hex);
    cbn [negb]; rewrite bind_get_world, Hwl;
    (split; [|split]).
  all: try (intros Hz; rewrite Hz;
            erewrite bind_ret_run by (unfold delete_message; apply try_log_call);
            apply snd_bind_raise).
  all: try (intros Hz word Hword; rewrite Hz, Hword; apply snd_bind_raise).
  all: intros Hz Hword; rewrite Hz, Hword; reflexivity.
Qed.

(** C5.  Obfuscated text is counted on its own counter: a first offense
    (counter at zero) is answered by the stand-alone warning notice and by
    neither ban nor restriction; an offense with the counter at one or
    more purges the cache and bans; neither touches the shared warning
    counter, and the shared ladder does not touch this one.  An edited
    message from a moderated, non-whitelisted group member goes through
    exactly two checks: the obfuscation check, which deletes the message
    and runs the same two-strike handler, and the banned-word check, which
    bans at once; with neither matching nothing happens. *)
Theorem obfuscation_two_strikes :
  (forall P update user chat is_edited w,
     zalgo_warnings (entry_of w (chat, user_id user)) = 0 ->
     let w1 := snd (_handle_zalgo_violation R P update user chat is_edited w) in
     zalgo_warnings (entry_of w1 (chat, user_id user)) = 1
     /\ warnings (entry_of w1 (chat, user_id user)) = warnings (entry_of w (chat, user_id user))
     /\ (exists l, events w1 =
                     events w ++ SendMessage chat (ZalgoWarnNotice (user_id user)) :: l
                   /\ forallb is_notice l = true)
     /\ forall P2 update2 is_edited2,
          let r2 := _handle_zalgo_violation R P2 update2 user chat is_edited2 w1 in
          fst r2 = Ret tt
          /\ warnings (entry_of (snd r2) (chat, user_id user)) =
             warnings (entry_of w (chat, user_id user))
          /\ exists dels,
               events (snd r2) =
                 events w1 ++ CachePop chat (user_id user) (cached_ids w1 chat (user_id user))
                           :: dels ++ [BanChatMember chat (user_id user) true]
               /\ forallb is_bulk_delete dels = true)
  /\ (forall P update user chat is_edited w,
       1 <= zalgo_warnings (entry_of w (chat, user_id user)) ->
       let r := _handle_zalgo_violation R P update user chat is_edited w in
       fst r = Ret tt
       /\ warnings (entry_of (snd r) (chat, user_id user)) =
          warnings (entry_of w (chat, user_id user))
       /\ exists dels,
            events (snd r) =
              events w ++ CachePop chat (user_id user) (cached_ids w chat (user_id user))
                       :: dels ++ [BanChatMember chat (user_id user) true]
            /\ forallb is_bulk_delete dels = true)
  /\ (forall P update chat user reason w,
       effective_chat update = Some chat ->
       zalgo_warnings
         (entry_of (snd (_issue_warning_and_mute_if_needed R cfg P update user reason w))
                   (chat, user)) =
       zalgo_warnings (entry_of w (chat, user)))
  /\ (forall P update em user w,
       edited_message update = Some em ->
       truthy (msg_text em) = true ->
       chat_type em = GROUP \/ chat_type em = SUPERGROUP ->
       from_user em = Some user ->
       not_exempt cfg P w (chat_id em) (user_id user) ->
       is_whitelisted (db w) (chat_id em) (user_id user) = false ->
       let t := text_or_empty (msg_text em) in
       let chat := chat_id em in
       let r := handle_edited_message R cfg P update w in
       (is_zalgo R cfg t = true ->
        snd r = snd (_handle_zalgo_violation R P update user chat true
                       (with_events w (events w ++ [DeleteMessage chat (message_id em)]))))
       /\ (is_zalgo R cfg t = false ->
           forall word,
             first_banned_word (get_chat_ban_words (db w) chat) (normalize_text R t)
               = Some word ->
             exists l, events (snd r) =
                       events w ++ BanChatMember chat (user_id user) true :: l)
       /\ (is_zalgo R cfg t = false ->
           first_banned_word (get_chat_ban_words (db w) chat) (normalize_text R t) = None ->
           r = (Ret tt, w))).
Proof.
  split; [|split; [|split]].
  - intros P update user chat is_edited w H0 w1.
    destruct (zalgo_first_offense P update user chat is_edited w H0) as [Hz [Hw Hev]].
    fold w1 in Hz, Hw, Hev.
    split; [exact Hz|split; [exact Hw|split; [exact Hev|]]].
    intros P2 update2 is_edited2.
    destruct (zalgo_repeat_offense P2 update2 user chat is_edited2 w1) as [Hr [Hw2 Hev2]];
      [lia|].
    cbv zeta. split; [exact Hr|split; [congruence|exact Hev2]].
  - intros. now apply zalgo_repeat_offense.
  - intros P update chat user reason w Hc.
    now destruct (ladder_keeps_history R cfg P update chat user reason w Hc) as [_ [H _]].
  - intros P update em user w Hem Htext Htype Hfrom Hex Hwl.
    destruct (edited_pipeline P update em user w Hem Htext Htype Hfrom Hex Hwl)
      as [Ha [Hb Hc]].
    cbv zeta. split; [exact Ha|split; [|exact Hc]].
    intros Hz word Hword. rewrite (Hb Hz word Hword).
    destruct (ban_for_word_order P update user (chat_id em) word true w) as [_ [Hok Hfail]].
    destruct (call_fails P (events w) (BanChatMember (chat_id em) (user_id user) true)) eqn:E.
    + destruct (Hfail eq_refl) as [l [Hl _]]. now exists l.
    + destruct (Hok eq_refl) as [dels [l [Hl _]]]. eexists. exact Hl.
Qed.
End ZalgoStrikes.

Lemma obfuscation_two_strikes_witness :
  let P := example_platform 100 in
  let update := example_update 1 [97; 768; 769; 770; 771] in
  let w := world_of empty_db in
  let w1 := snd (_handle_zalgo_violation example_runtime P update example_user (-100) false w) in
  zalgo_warnings (entry_of w1 (-100, 7)) = 1
  /\ events w1 = [SendMessage (-100) (ZalgoWarnNotice 7);
                  ScheduleMessageDeletion (-100) 1000 15]
  /\ events (snd (_handle_zalgo_violation example_runtime P update example_user (-100) false w1))
     = events w1 ++ [CachePop (-100) 7 []; BanChatMember (-100) 7 true].
Proof.
  cbv zeta.
  destruct (proj1 (obfuscation_two_strikes example_runtime (config_py []))
              (example_platform 100) (example_update 1 [97; 768; 769; 770; 771])
              example_user (-100) false (world_of empty_db) eq_refl)
    as [H1 _].
  split; [exact H1|]. split; reflexivity.
Defined.

(** ** Bot mimicry *)

Lemma mimicry_mutes_from_second_on_fails : ~ mimicry_mutes_from_second_on.
Proof.
  intros H.
  specialize (H example_runtime (config_py [])
                [(example_platform 10, example_update 1 [98; 111; 116]);
                 (example_platform 20, example_update 2 [98; 111; 116]);
                 (example_platform 30, example_update 3 [98; 111; 116])]
                example_user (-100) (world_of empty_db) 2%nat eq_refl).
  assert (Hi : (1 <= 2 < 3)%nat) by lia.
  specialize (H Hi). vm_compute in H. discriminate.
Qed.

(** The third occurrence on a platform where every call succeeds: the
    message is warned about, nobody is restricted. *)
Example mimicry_third_occurrence :
  nth 2 (mimic_violations example_runtime (config_py [])
           [(example_platform 10, example_update 1 [98; 111; 116]);
            (example_platform 20, example_update 2 [98; 111; 116]);
            (example_platform 30, example_update 3 [98; 111; 116])]
           example_user (-100) (world_of empty_db)) []
  = [SendMessage (-100) (MimicWarnNotice 7); ScheduleMessageDeletion (-100) 1005 15].
Proof. vm_compute. reflexivity. Qed.

Section Mimicry.
Variable R : Runtime.
Variable cfg : Config.

Lemma mimic_first (P : Platform) (update : Update) (user : User) (chat : Z) (w : World) :
  mimic_warnings (entry_of w (chat, user_id user)) = 0 ->
  let w' := snd (_handle_mimicking_violation R cfg P update user chat w) in
  mimic_warnings (entry_of w' (chat, user_id user)) = 1
  /\ exists l, events w' = events w ++ SendMessage chat (MimicWarnNotice (user_id user)) :: l
               /\ forallb is_notice l = true.
Proof.
  intros H0. unfold _handle_mimicking_violation. unfold_monad. simpl_world.
  replace (1 <? mimic_warnings (entry_of w (chat, user_id user)) + 1) with false
    by (rewrite H0; reflexivity).
  case_call; simpl_world.
  - rewrite H0. repeat split. exists []. auto.
  - destruct (nonempty (sent_text P _)); simpl_world; rewrite H0;
      (repeat split; eexists; rewrite <- app_assoc; split; reflexivity).
Qed.

Lemma mimic_again (P : Platform) (update : Update) (user : User) (chat : Z) (w : World) :
  1 <= mimic_warnings (entry_of w (chat, user_id user)) ->
  let r := _handle_mimicking_violation R cfg P update user chat w in
  let mute := RestrictChatMember chat (user_id user) PERMS_NO_MESSAGES
                (Some (mute_until cfg P)) in
  let notice := SendMessage chat (MimicMuteNotice (user_id user) (MUTE_DURATION_MINUTES cfg)) in
  fst r = Ret tt
  /\ (exists l, events (snd r) = events w ++ mute :: l /\ forallb is_notice l = true)
  /\ (call_fails P (events w) mute = false ->
      call_fails P (events w ++ [mute]) notice = false ->
      mimic_warnings (entry_of (snd r) (chat, user_id user)) = 0)
  /\ (call_fails P (events w) mute = true \/
      call_fails P (events w ++ [mute]) notice = true ->
      mimic_warnings (entry_of (snd r) (chat, user_id user)) =
      mimic_warnings (entry_of w (chat, user_id user)) + 1).
Proof.
  intros H1. unfold _handle_mimicking_violation. unfold_monad. simpl_world.
  replace (1 <? mimic_warnings (entry_of w (chat, user_id user)) + 1) with true
    by (symmetry; apply Z.ltb_lt; lia).
  simpl_world.
  destruct (call_fails P (events w) _) eqn:E1; simpl_world;
    [|destruct (call_fails P (events w ++ _) _) eqn:E2; simpl_world;
      [|destruct (nonempty (sent_text P _)); simpl_world]];
    repeat split;
    first [ reflexivity
          | intros; discriminate
          | intros [?|?]; discriminate
          | intros; reflexivity
          | eexists; rewrite <- ?app_assoc; split; reflexivity
          | exists []; split; reflexivity ].
Qed.

Lemma check_bot_mimicking_miss (P : Platform) (update : Update) (chat user : Z)
    (t : text) (w : World) :
  effective_chat update = Some chat ->
  is_mimicry R w chat t = false ->
  _check_bot_mimicking R cfg P update user t w = (Ret false, w).
Proof.
  intros Hc Hm. unfold _check_bot_mimicking, is_mimicry, recent_bot_messages in *.
  destruct (nonempty t); cbn [negb andb] in *; [|reflexivity].
  unfold effective_chat_id. rewrite Hc. cbn.
  destruct (default [] _) as [|x q]; [reflexivity|]. cbv beta iota. cbn [existsb] in *. now rewrite Hm.
Qed.

Lemma check_bot_mimicking_hit (P : Platform) (update : Update) (m : Message) (u : User)
    (chat : Z) (t : text) (w : World) :
  effective_chat update = Some chat ->
  message update = Some m ->
  effective_user update = Some u ->
  is_mimicry R w chat t = true ->
  let delete := DeleteMessage (chat_id m) (message_id m) in
  let w1 := with_events w (events w ++ [delete]) in
  let r := _check_bot_mimicking R cfg P update (user_id u) t w in
  (call_fails P (events w) delete = true -> r = (Raise TelegramError, w1))
  /\ (call_fails P (events w) delete = false ->
      snd r = snd (_handle_mimicking_violation R cfg P update u chat w1)
      /\ (fst (_handle_mimicking_violation R cfg P update u chat w1) = Ret tt ->
          fst r = Ret true)).
Proof.
  intros Hc Hm Hu Hmim. cbv zeta.
  unfold _check_bot_mimicking, is_mimicry, recent_bot_messages in *.
  destruct (nonempty t); cbn [negb andb] in *; [|discriminate].
  unfold_monad. rewrite Hc, Hm, Hu. cbn.
  destruct (default [] _) as [|x q]; [discriminate|]. cbn [existsb] in Hmim.
  rewrite Hmim.
  destruct (call_fails P (events w) _); split; try discriminate; intros _.
  - reflexivity.
  - destruct (_handle_mimicking_violation R cfg P update u chat _) as [[[]|e] w2];
      cbn; split; [reflexivity|reflexivity|reflexivity|discriminate].
Qed.

(** C7, as the code has it.  A message whose normalised text is among the
    bot's recent messages in the chat is deleted first; with the counter
    at zero the occurrence is answered by a warning (counter one); with
    the counter at one or more it is answered by a restriction until now
    plus the mute duration, and once the restriction and its notice have
    gone through the counter is back at zero, so that the occurrence after
    a mute is warned about again. *)
Theorem mimicry_escalation :
  (forall P update m u chat t w,
     effective_chat update = Some chat ->
     message update = Some m ->
     effective_user update = Some u ->
     is_mimicry R w chat t = true ->
     let delete := DeleteMessage (chat_id m) (message_id m) in
     let w1 := with_events w (events w ++ [delete]) in
     let r := _check_bot_mimicking R cfg P update (user_id u) t w in
     (call_fails P (events w) delete = true -> r = (Raise TelegramError, w1))
     /\ (call_fails P (events w) delete = false ->
         snd r = snd (_handle_mimicking_violation R cfg P update u chat w1)
         /\ (fst (_handle_mimicking_violation R cfg P update u chat w1) = Ret tt ->
             fst r = Ret true)))
  /\ (forall P update chat user t w,
       effective_chat update = Some chat ->
       is_mimicry R w chat t = false ->
       _check_bot_mimicking R cfg P update user t w = (Ret false, w))
  /\ (forall P update user chat w,
       mimic_warnings (entry_of w (chat, user_id user)) = 0 ->
       let w' := snd (_handle_mimicking_violation R cfg P update user chat w) in
       mimic_warnings (entry_of w' (chat, user_id user)) = 1
       /\ exists l, events w' =
                    events w ++ SendMessage chat (MimicWarnNotice (user_id user)) :: l
                    /\ forallb is_notice l = true)
  /\ (forall P update user chat w,
       1 <= mimic_warnings (entry_of w (chat, user_id user)) ->
       let r := _handle_mimicking_violation R cfg P update user chat w in
       let mute := RestrictChatMember chat (user_id user) PERMS_NO_MESSAGES
                     (Some (mute_until cfg P)) in
       let notice := SendMessage chat
                       (MimicMuteNotice (user_id user) (MUTE_DURATION_MINUTES cfg)) in
       fst r = Ret tt
       /\ (exists l, events (snd r) = events w ++ mute :: l /\ forallb is_notice l = true)
       /\ (call_fails P (events w) mute = false ->
           call_fails P (events w ++ [mute]) notice = false ->
           mimic_warnings (entry_of (snd r) (chat, user_id user)) = 0)
       /\ (call_fails P (events w) mute = true \/
           call_fails P (events w ++ [mute]) notice = true ->
           mimic_warnings (entry_of (snd r) (chat, user_id user)) =
           mimic_warnings (entry_of w (chat, user_id user)) + 1)).
Proof.
  split; [|split; [|split]].
  - intros. now apply check_bot_mimicking_hit.
  - intros. now apply (check_bot_mimicking_miss P update chat).
  - intros. now apply mimic_first.
  - intros. now apply mimic_again.
Qed.
End Mimicry.

Lemma mimicry_escalation_witness :
  let P := example_platform 10 in
  let update := example_update 1 [66; 111; 116] in
  let w := world_after_bot_message in
  let w1 := with_events w (events w ++ [DeleteMessage (-100) 1]) in
  let r := _check_bot_mimicking example_runtime (config_py []) P update 7 [66; 111; 116] w in
  snd r = snd (_handle_mimicking_violation example_runtime (config_py []) P update
                 example_user (-100) w1)
  /\ events (snd r) = [DeleteMessage (-100) 1; SendMessage (-100) (MimicWarnNotice 7);
                        ScheduleMessageDeletion (-100) 1001 15].
Proof.
  cbv zeta.
  destruct (proj1 (mimicry_escalation example_runtime (config_py []))
              (example_platform 10) (example_update 1 [66; 111; 116])
              (example_message 1 [66; 111; 116]) example_user (-100) [66; 111; 116]
              world_after_bot_message eq_refl eq_refl eq_refl eq_refl) as [_ H].
  destruct (H eq_refl) as [H1 _].
  split; [exact H1|reflexivity].
Defined.

(** ** The captcha timeout *)

Section CaptchaTimeout.
Variable P : Platform.





End CaptchaTimeout.

(** ** Order of purge and ban *)




Section PurgeOrder.
Variable R : Runtime.
Variable cfg : Config.
Variable P : Platform.

Lemma member_lookup_run (chat user : Z) (w : World) :
  exists b,
    try_except (_ <- query (fun h => get_chat_member P h chat user) ;; ret true)
               (fun _ => ret false) w = (Ret b, w).
Proof.
  unfold try_except, bind, query, ret.
  destruct (get_chat_member P (events w) chat user); eauto.
Qed.

(** The profile ban purges, then bans. *)
Lemma ban_for_profile_order (chat user : Z) (reason : ProfileReason) (w : World) :
  exists dels l,
    events (snd (_ban_for_profile_violation cfg P chat user reason w)) =
      events w ++ CachePop chat user (cached_ids w chat user)
               :: dels ++ BanChatMember chat user true :: l
    /\ forallb is_bulk_delete dels = true
    /\ forallb is_notice l = true.
Proof.
  unfold _ban_for_profile_violation.
  destruct (member_lookup_run chat user w) as [b Hb].
  erewrite try_bind_ret by exact Hb.
  destruct (delete_cached_messages_run P chat user w) as [wp [dels [Hrun [Hev [Hdels _]]]]].
  erewrite try_bind_ret by exact Hrun.
  rewrite try_bind_call.
  destruct (call_fails P (events wp) _).
  - exists dels, []. cbn. rewrite Hev, <- app_assoc. cbn. auto.
  - match goal with
    | |- context [try_except ?m ?h ?w0] =>
        assert (Hframe : frame (emits_only is_notice) (try_except m h))
    end.
    { frame_auto; solve_emits. apply propose_global_ban_notices. }
    destruct (Hframe (with_events wp (events wp ++ [BanChatMember chat user true])))
      as [l [Hl Hp]].
    exists dels, l. rewrite Hl. cbn. rewrite Hev, <- !app_assoc. cbn. auto.
Qed.


(** The renewed ban of a globally banned sender purges, then bans. *)
Lemma reban_order (chat : Z) (user : User) (w : World) :
  exists dels,
    events (snd (reban_globally_banned P chat user w)) =
      events w ++ CachePop chat (user_id user) (cached_ids w chat (user_id user))
               :: dels ++ [BanChatMember chat (user_id user) true]
    /\ forallb is_bulk_delete dels = true.
Proof.
  unfold reban_globally_banned.
  destruct (delete_cached_messages_run P chat (user_id user) w)
    as [wp [dels [Hrun [Hev [Hdels _]]]]].
  assert (Hpurge : try_log (delete_cached_messages P chat (user_id user)) w = (Ret tt, wp))
    by (unfold try_log, try_except; now rewrite Hrun).
  erewrite bind_ret_run by exact Hpurge.
  rewrite snd_bind_raise.
  unfold try_log. rewrite try_bind_call.
  exists dels. split; [|exact Hdels].
  destruct (call_fails P (events wp) _); cbn; rewrite Hev, <- app_assoc; reflexivity.
Qed.



End PurgeOrder.


(** The same sender with a link in the text, link banning being on. *)
Example link_ban_run :
  emitted (check_user_message example_runtime (config_py []) (example_platform 10)
             (example_update 1 [116; 46; 109; 101; 47])) (world_of db_with_ban_word)
  = [BanChatMember (-100) 7 true; CachePop (-100) 7 [1]; DeleteMessages (-100) [1];
     SendMessage (-100) (BanNotice 7 ReasonLink); ScheduleMessageDeletion (-100) 1003 15].
Proof. vm_compute. reflexivity. Qed.



Example captcha_timeout_run :
  events (snd (kick_unverified_member captcha_platform (-100) 7 (Some 55) (world_of empty_db)))
  = [BanChatMember (-100) 7 true; CachePop (-100) 7 [];
     UnbanChatMember (-100) 7; DeleteMessage (-100) 55].
Proof. vm_compute. reflexivity. Qed.

Example captcha_verified_run :
  events (snd (kick_unverified_member (example_platform 600) (-100) 7 (Some 55)
                 (world_of empty_db)))
  = [DeleteMessage (-100) 55].
Proof. vm_compute. reflexivity. Qed.

(** ** The whitelist *)

#[local] Arguments is_banned : simpl never.
#[local] Arguments is_whitelisted : simpl never.

Section Whitelist.
Variable R : Runtime.
Variable cfg : Config.
Variable P : Platform.

(** C2.  A message whose sender is whitelisted in the chat and not
    globally banned makes the message handler return without a single
    event: nothing is deleted, posted, restricted or banned, whatever the
    message contains; the tracker, the bot's message cache and the store
    are as before (only the message id is remembered).  An edited message
    of a whitelisted sender leaves the whole world as it was. *)
Theorem whitelist_bypass (update : Update) (w : World) :
  (forall m u,
     message update = Some m ->
     from_user m = Some u ->
     is_banned (db w) (user_id u) = false ->
     is_whitelisted (db w) (chat_id m) (user_id u) = true ->
     let r := check_user_message R cfg P update w in
     fst r = Ret tt
     /\ events (snd r) = events w
     /\ user_moderation_tracker (snd r) = user_moderation_tracker w
     /\ bot_message_cache (snd r) = bot_message_cache w
     /\ db (snd r) = db w)
  /\ (forall em u,
        edited_message update = Some em ->
        from_user em = Some u ->
        is_whitelisted (db w) (chat_id em) (user_id u) = true ->
        handle_edited_message R cfg P update w = (Ret tt, w)).
Proof.
  split.
  - intros m u Hm Hu Hb Hwl. cbv zeta.
    unfold check_user_message, effective_chat, effective_user, effective_message.
    rewrite Hm. cbn [option_map]. rewrite Hu.
    unfold sender_is_exempt_admin. unfold_monad.
    repeat (simpl_world; rewrite ?Hb, ?Hwl;
            match goal with
            | |- context [if MODERATE_ADMINS cfg then _ else _] =>
                destruct (MODERATE_ADMINS cfg)
            | |- context [match get_chat_member P ?h ?c ?x with _ => _ end] =>
                destruct (get_chat_member P h c x) as [[]|]
            | |- context [is_bot u && ?b] => destruct (is_bot u && b)
            end);
      simpl_world; rewrite ?Hb, ?Hwl; repeat split; reflexivity.
  - intros em u Hem Hu Hwl.
    unfold handle_edited_message. rewrite Hem, Hu.
    unfold sender_is_exempt_admin. unfold_monad.
    destruct (truthy (msg_text em)); cbn [negb]; [|reflexivity].
    destruct (chat_type em); try reflexivity;
      repeat (simpl_world; rewrite ?Hwl;
              match goal with
              | |- context [if MODERATE_ADMINS cfg then _ else _] =>
                  destruct (MODERATE_ADMINS cfg)
              | |- context [match get_chat_member P ?h ?c ?x with _ => _ end] =>
                  destruct (get_chat_member P h c x) as [[]|]
              end);
      simpl_world; rewrite ?Hwl; reflexivity.
Qed.
End Whitelist.

(** ** The background rescan *)

#[local] Arguments mark_user_profile_checked : simpl never.
#[local] Arguments profile_checked : simpl never.
#[local] Arguments get_unchecked_known_members : simpl never.
#[local] Arguments in_cooldown : simpl never.

Section KeepsFacts.
Variable X : Type.
Variable f : World -> X.
Hypothesis f_events : forall w l, f (with_events w l) = f w.
Hypothesis f_message_ids : forall w c, f (with_message_ids w c) = f w.
Hypothesis f_bio_checks : forall w c, f (with_bio_checks w c) = f w.
Variable R : Runtime.
Variable cfg : Config.
Variable P : Platform.

Lemma f_pop_cached (chat user : Z) (w : World) : f (pop_cached chat user w) = f w.
Proof. unfold pop_cached. destruct (dict_get _ _ _); auto. Qed.

Ltac solve_keeps :=
  unfold keeps; rewrite ?f_events, ?f_message_ids, ?f_bio_checks, ?f_pop_cached; reflexivity.

Lemma delete_cached_messages_keeps (chat user : Z) :
  frame (keeps f) (delete_cached_messages P chat user).
Proof.
  unfold delete_cached_messages. frame_auto; try solve_keeps.
  apply delete_chunks_keeps. exact f_events.
Qed.

Lemma send_to_admins_keeps (admins : list Z) (n : Notice) :
  frame (keeps f) (send_to_admins P admins n).
Proof.
  induction admins as [|a rest IH]; cbn [send_to_admins]; frame_auto; solve_keeps.
Qed.

Lemma notify_admins_keeps (admins : list Z) (n : Notice) :
  frame (keeps f) (notify_admins P admins n).
Proof.
  induction admins as [|a rest IH]; cbn [notify_admins]; frame_auto; solve_keeps.
Qed.

Lemma propose_global_ban_keeps (user chat : Z) (reason : Reason) :
  frame (keeps f) (propose_global_ban cfg P user chat reason).
Proof. unfold propose_global_ban. frame_auto. apply send_to_admins_keeps. Qed.

Lemma ban_for_profile_keeps (chat user : Z) (reason : ProfileReason) :
  frame (keeps f) (_ban_for_profile_violation cfg P chat user reason).
Proof.
  unfold _ban_for_profile_violation.
  frame_auto; try solve_keeps.
  - apply delete_cached_messages_keeps.
  - apply propose_global_ban_keeps.
Qed.

Lemma moderate_bio_link_keeps (chat user : Z) (bio : text) :
  frame (keeps f) (moderate_bio_link cfg P chat user bio None).
Proof.
  unfold moderate_bio_link, can_restrict_members_attr.
  frame_auto; try solve_keeps.
  - apply delete_cached_messages_keeps.
  - apply notify_admins_keeps.
Qed.

Lemma check_user_bio_keeps (chat user : Z) :
  frame (keeps f) (check_user_bio R cfg P chat user None).
Proof.
  unfold check_user_bio, delete_context_message.
  frame_auto; try solve_keeps.
  - apply moderate_bio_link_keeps.
  - apply ban_for_profile_keeps.
Qed.

Lemma check_username_keeps (chat user : Z) (name : text) :
  frame (keeps f) (check_username R cfg P chat user name None).
Proof.
  unfold check_username, delete_context_message.
  frame_auto; try solve_keeps. apply ban_for_profile_keeps.
Qed.

Lemma check_names_keeps (chat user : Z) (fields : list (option text)) :
  frame (keeps f) (check_names R cfg P chat user fields).
Proof.
  induction fields as [|x rest IH]; cbn [check_names]; frame_auto; try solve_keeps.
  apply check_username_keeps.
Qed.
End KeepsFacts.

Lemma profile_checked_mark (d : Database) (chat user : Z) :
  profile_checked (mark_user_profile_checked d chat user) chat user = true.
Proof.
  unfold mark_user_profile_checked.
  destruct (profile_checked d chat user) eqn:E; [exact E|].
  unfold profile_checked. cbn. rewrite existsb_app. cbn.
  now rewrite key_eqb_refl, orb_true_r.
Qed.

Lemma profile_checked_mark_mono (d : Database) (chat user c u : Z) :
  profile_checked d c u = true ->
  profile_checked (mark_user_profile_checked d chat user) c u = true.
Proof.
  intros H. unfold mark_user_profile_checked.
  destruct (profile_checked d chat user); [exact H|].
  unfold profile_checked in *. cbn. rewrite existsb_app, H. reflexivity.
Qed.

Lemma mark_all_mono (members : list KnownMemberRow) (d : Database) (chat c u : Z) :
  profile_checked d c u = true -> profile_checked (mark_all d chat members) c u = true.
Proof.
  revert d. induction members as [|km rest IH]; intros d H; cbn; [exact H|].
  apply IH. now apply profile_checked_mark_mono.
Qed.

Lemma mark_all_checked (members : list KnownMemberRow) (d : Database) (chat : Z)
    (km : KnownMemberRow) :
  In km members -> profile_checked (mark_all d chat members) chat (km_user_id km) = true.
Proof.
  revert d. induction members as [|x rest IH]; intros d Hin; [destruct Hin|].
  destruct Hin as [Hin|Hin]; cbn.
  - subst x. apply mark_all_mono. apply profile_checked_mark.
  - now apply IH.
Qed.

#[local] Instance checks_kept_frame : FrameRel checks_kept.
Proof.
  split.
  - intros w c u H. exact H.
  - intros w1 w2 w3 H1 H2 c u H. apply H2, H1, H.
Qed.


#[local] Arguments check_names : simpl never.
#[local] Arguments check_user_bio : simpl never.
#[local] Arguments rescan_member : simpl never.
#[local] Arguments rescan_members : simpl never.

Section Rescan.
Variable R : Runtime.
Variable cfg : Config.
Variable P : Platform.

Lemma check_user_bio_returns (chat user : Z) (update : option Update) (w : World) :
  exists b, fst (check_user_bio R cfg P chat user update w) = Ret b.
Proof.
  unfold check_user_bio. rewrite bind_get_world.
  destruct (in_cooldown _ _ _); [now exists false|].
  erewrite bind_ret_run by reflexivity.
  apply try_except_returns. intros e w1. now exists false.
Qed.

Lemma ban_for_profile_returns (chat user : Z) (reason : ProfileReason) (w : World) :
  exists b, fst (_ban_for_profile_violation cfg P chat user reason w) = Ret b.
Proof.
  unfold _ban_for_profile_violation.
  apply try_except_returns. intros e w1. now exists false.
Qed.

Lemma check_username_returns (chat user : Z) (name : text) (w : World) :
  exists b, fst (check_username R cfg P chat user name None w) = Ret b.
Proof.
  unfold check_username. destruct (negb (nonempty name)); [now exists false|].
  rewrite bind_get_world.
  destruct (first_banned_word _ _) as [word|]; [|now exists false].
  destruct (negb (nonempty word)); [now exists false|].
  cbn [delete_context_message]. erewrite bind_ret_run by reflexivity.
  apply ban_for_profile_returns.
Qed.

Lemma check_names_returns (chat user : Z) (fields : list (option text)) (w : World) :
  exists b, fst (check_names R cfg P chat user fields w) = Ret b.
Proof.
  revert w. induction fields as [|x rest IH]; intros w;
    [now exists false|].
  change (check_names R cfg P chat user (x :: rest)) with
    (if truthy x
     then banned <- check_username R cfg P chat user (text_or_empty x) None ;;
          if banned then ret true else check_names R cfg P chat user rest
     else check_names R cfg P chat user rest).
  destruct (truthy x); [|apply IH].
  unfold bind at 1.
  destruct (check_username_returns chat user (text_or_empty x) w) as [b Hb].
  destruct (check_username R cfg P chat user (text_or_empty x) None w) as [[b0|e] w1];
    cbn in Hb; [|discriminate].
  destruct b0; [now exists true|apply IH].
Qed.

(** One member of the rescan: an administrator of the bot is marked and
    nothing else; anybody else has the bio checked, then (unless that
    check acted) the names, and is marked whatever came of it. *)
Lemma rescan_member_run (chat : Z) (km : KnownMemberRow) (w : World) :
  let user := km_user_id km in
  let r := rescan_member R cfg P chat km w in
  fst r = Ret tt
  /\ db (snd r) = mark_user_profile_checked (db w) chat user
  /\ (is_global_admin cfg user = true ->
      snd r = with_db w (mark_user_profile_checked (db w) chat user))
  /\ (is_global_admin cfg user = false ->
      exists b w1,
        check_user_bio R cfg P chat user None w = (Ret b, w1)
        /\ (b = true ->
            snd r = with_db w1 (mark_user_profile_checked (db w1) chat user))
        /\ (b = false ->
            exists b2 w2,
              check_names R cfg P chat user
                [km_username km; km_first_name km; km_last_name km] w1 = (Ret b2, w2)
              /\ snd r = with_db w2 (mark_user_profile_checked (db w2) chat user))).
Proof.
  cbv zeta. unfold is_global_admin.
  destruct (existsb (Z.eqb (km_user_id km)) (ADMIN_IDS cfg)) eqn:Eadmin.
  - unfold rescan_member. rewrite Eadmin. cbn. repeat split; intros; discriminate.
  - destruct (check_user_bio_returns chat (km_user_id km) None w) as [b Hb].
    pose proof (check_user_bio_keeps _ db (fun _ _ => eq_refl) (fun _ _ => eq_refl)
                  (fun _ _ => eq_refl) R cfg P chat (km_user_id km) w) as Hk1.
    unfold keeps in Hk1.
    destruct (check_user_bio R cfg P chat (km_user_id km) None w) as [[b0|e] w1] eqn:Ebio;
      cbn in Hb, Hk1; [|discriminate].
    destruct b0.
    + assert (Hrun : rescan_member R cfg P chat km w =
                     (Ret tt, with_db w1 (mark_user_profile_checked (db w1) chat (km_user_id km)))).
      { unfold rescan_member. rewrite Eadmin. unfold bind at 1. rewrite Ebio. reflexivity. }
      rewrite Hrun. cbn. rewrite Hk1. repeat split; try discriminate. intros _.
      exists true, w1. repeat split; try discriminate. now rewrite Hk1.
    + destruct (check_names_returns chat (km_user_id km)
                  [km_username km; km_first_name km; km_last_name km] w1) as [b2 Hb2].
      pose proof (check_names_keeps _ db (fun _ _ => eq_refl) (fun _ _ => eq_refl)
                    R cfg P chat (km_user_id km)
                    [km_username km; km_first_name km; km_last_name km] w1) as Hk2.
      unfold keeps in Hk2.
      destruct (check_names R cfg P chat (km_user_id km)
                  [km_username km; km_first_name km; km_last_name km] w1)
        as [[b3|e] w2] eqn:Enames; cbn in Hb2, Hk2; [|discriminate].
      assert (Hrun : rescan_member R cfg P chat km w =
                     (Ret tt, with_db w2 (mark_user_profile_checked (db w2) chat (km_user_id km)))).
      { unfold rescan_member. rewrite Eadmin. unfold bind at 1. rewrite Ebio.
        unfold bind at 1, ignore. unfold bind at 1. rewrite Enames. reflexivity. }
      rewrite Hrun. cbn. rewrite Hk2, Hk1. repeat split; try discriminate. intros _.
      exists false, w1. repeat split; try discriminate. intros _.
      exists b3, w2. split; [exact Enames|]. now rewrite Hk2, Hk1.
Qed.

Lemma rescan_members_run (chat : Z) (members : list KnownMemberRow) (w : World) :
  fst (rescan_members R cfg P chat members w) = Ret tt
  /\ db (snd (rescan_members R cfg P chat members w)) = mark_all (db w) chat members.
Proof.
  revert w. induction members as [|km rest IH]; intros w.
  - cbn. auto.
  - change (rescan_members R cfg P chat (km :: rest)) with
      (rescan_member R cfg P chat km ;; rescan_members R cfg P chat rest).
    destruct (rescan_member_run chat km w) as [Hr [Hd _]].
    unfold bind.
    destruct (rescan_member R cfg P chat km w) as [[[]|e] w1]; cbn in Hr, Hd; [|discriminate].
    destruct (IH w1) as [Hr2 Hd2]. split; [exact Hr2|].
    rewrite Hd2, Hd. reflexivity.
Qed.

Lemma bot_may_scan_true (chat : Z) (w : World) :
  fst (bot_may_scan P chat w) = Ret true -> bot_may_scan P chat w = (Ret true, w).
Proof.
  unfold bot_may_scan. unfold_monad.
  destruct (get_me P (events w)) as [me|]; cbn.
  - destruct (get_chat_member P (events w) chat me) as [m|]; cbn.
    + intros H. now rewrite <- H.
    + destruct (error_is_not_found P (events w) chat); cbn; discriminate.
  - destruct (error_is_not_found P (events w) chat); cbn; discriminate.
Qed.

(** One chat of the rescan, the bot being allowed in: every member that
    was enumerated is marked afterwards. *)
Lemma rescan_chat_marks (chat : Z) (w : World) :
  fst (bot_may_scan P chat w) = Ret true ->
  let r := rescan_chat R cfg P chat w in
  fst r = Ret tt
  /\ db (snd r) = mark_all (db w) chat (get_unchecked_known_members (db w) chat true)
  /\ forall km, In km (get_unchecked_known_members (db w) chat true) ->
                profile_checked (db (snd r)) chat (km_user_id km) = true.
Proof.
  intros Hmay. cbv zeta. unfold rescan_chat.
  erewrite bind_ret_run by (apply bot_may_scan_true; exact Hmay).
  cbn [negb]. rewrite bind_get_world.
  destruct (rescan_members_run chat (get_unchecked_known_members (db w) chat true) w)
    as [Hr Hd].
  split; [exact Hr|]. split; [exact Hd|].
  intros km Hin. rewrite Hd. now apply mark_all_checked.
Qed.
End Rescan.

(** What the whole job leaves alone. *)
Section RescanFrame.
Variable I : World -> World -> Prop.
Context `{HI : FrameRel I}.
Variable R : Runtime.
Variable cfg : Config.
Variable P : Platform.
Hypothesis I_bio : forall chat user, frame I (check_user_bio R cfg P chat user None).
Hypothesis I_names : forall chat user fields, frame I (check_names R cfg P chat user fields).
Hypothesis I_mark :
  forall w chat user, I w (with_db w (mark_user_profile_checked (db w) chat user)).
Hypothesis I_inactive : forall w chat, I w (with_db w (set_chat_inactive (db w) chat)).






End RescanFrame.

Lemma unchecked_members_spec (d : Database) (chat : Z) (km : KnownMemberRow) :
  In km (get_unchecked_known_members d chat true) <->
  In km (known_members d) /\ km_chat_id km = chat /\ km_is_member km = true
  /\ profile_checked d chat (km_user_id km) = false /\ is_active_chat d chat = true.
Proof.
  unfold get_unchecked_known_members. rewrite filter_In.
  cbn [negb orb]. rewrite !andb_true_iff, Z.eqb_eq, negb_true_iff. tauto.
Qed.

Section RescanJob.
Variable R : Runtime.
Variable cfg : Config.
Variable P : Platform.



End RescanJob.



Lemma whitelist_bypass_witness :
  let w := world_of db_whitelisting in
  let r := check_user_message example_runtime (config_py []) (example_platform 10)
             (example_update 1 [115; 112; 97; 109]) w in
  fst r = Ret tt
  /\ events (snd r) = events w
  /\ user_moderation_tracker (snd r) = user_moderation_tracker w
  /\ bot_message_cache (snd r) = bot_message_cache w
  /\ db (snd r) = db w.
Proof.
  cbv zeta.
  apply (proj1 (whitelist_bypass example_runtime (config_py []) (example_platform 10)
                  (example_update 1 [115; 112; 97; 109]) (world_of db_whitelisting))
           (example_message 1 [115; 112; 97; 109]) example_user);
    reflexivity.
Defined.

Lemma global_ban_registry_toggle_witness :
  is_banned example_registry 7 = true
  /\ ban_user example_registry 7 ReasonSpam 1 None None None = (false, example_registry).
Proof.
  split; [reflexivity|].
  apply (proj1 (global_ban_registry_toggle example_registry 7 ReasonSpam 1 None None None
                  (5 # 1) None)).
  reflexivity.
Defined.

(** A user who was unbanned keeps the row, and the primary key then
    refuses a new ban of the same user. *)
Example reban_after_unban :
  ban_user example_registry 8 ReasonSpam 1 None None None = (false, example_registry).
Proof. reflexivity. Qed.

(** ** Runs of the handlers on the example inputs *)

Example forward_ban_run :
  emitted (check_user_message example_runtime (config_py []) (example_platform 10)
             (forwarded_update 1 [104; 105])) (world_of empty_db)
  = [CachePop (-100) 7 [1]; DeleteMessages (-100) [1]; BanChatMember (-100) 7 true;
     SendMessage (-100) (BanNotice 7 ReasonForward); ScheduleMessageDeletion (-100) 1003 15].
Proof. vm_compute. reflexivity. Qed.

Example global_reban_run :
  emitted (check_user_message example_runtime (config_py []) (example_platform 10)
             (example_update 1 [104; 105])) (world_of example_registry)
  = [CachePop (-100) 7 [1]; DeleteMessages (-100) [1]; BanChatMember (-100) 7 true].
Proof. vm_compute. reflexivity. Qed.

Example edited_word_ban_run :
  emitted (handle_edited_message example_runtime (config_py []) (example_platform 10)
             (example_edit 1 [115; 112; 97; 109])) (world_of db_with_ban_word)
  = [BanChatMember (-100) 7 true; CachePop (-100) 7 [];
     SendMessage (-100) (BanNotice 7 (ReasonBannedWord [115; 112; 97; 109] true));
     ScheduleMessageDeletion (-100) 1002 15].
Proof. vm_compute. reflexivity. Qed.

Example whitelisted_edit_run :
  handle_edited_message example_runtime (config_py []) (example_platform 10)
    (example_edit 1 [115; 112; 97; 109]) (world_of db_whitelisting)
  = (Ret tt, world_of db_whitelisting).
Proof. vm_compute. reflexivity. Qed.

(** ** Text normalisation *)

Section NormalizeFacts.
Variable R : Runtime.

Lemma split_ws_words (s acc : text) :
  Forall (fun c => str_isspace R c = false) acc ->
  Forall (is_word R) (split_ws R acc s).
Proof.
  revert acc. induction s as [|c rest IH]; intros acc Hacc; cbn [split_ws].
  - destruct acc as [|a acc']; constructor; [|constructor].
    split.
    + intros H. apply (f_equal (@length Z)) in H. rewrite length_rev in H. discriminate.
    + apply Forall_rev. exact Hacc.
  - destruct (str_isspace R c) eqn:Ec.
    + destruct acc as [|a acc']; [apply IH; constructor|].
      constructor; [|apply IH; constructor].
      split.
      * intros H. apply (f_equal (@length Z)) in H. rewrite length_rev in H. discriminate.
      * apply Forall_rev. exact Hacc.
    + apply IH. constructor; assumption.
Qed.

Lemma split_ws_word_prefix (w rest acc : text) :
  Forall (fun c => str_isspace R c = false) w ->
  split_ws R acc (w ++ rest) = split_ws R (rev w ++ acc) rest.
Proof.
  revert acc. induction w as [|c w IH]; intros acc Hw; [reflexivity|].
  inversion Hw as [|? ? Hc Hw']; subst. cbn [app split_ws]. rewrite Hc.
  rewrite IH by exact Hw'. cbn [rev]. now rewrite <- app_assoc.
Qed.

Lemma split_ws_join (ws : list text) :
  str_isspace R 32 = true ->
  Forall (is_word R) ws ->
  split_ws R [] (join_space ws) = ws.
Proof.
  intros Hsp. induction ws as [|w ws IH]; intros Hall; [reflexivity|].
  inversion Hall as [|? ? [Hne Hw] Hrest]; subst.
  destruct ws as [|w2 ws].
  - cbn [join_space]. rewrite <- (app_nil_r w) at 1.
    rewrite split_ws_word_prefix by exact Hw. rewrite app_nil_r. cbn [split_ws].
    destruct (rev w) eqn:Er.
    + apply (f_equal (@length Z)) in Er. rewrite length_rev in Er.
      destruct w; [contradiction|discriminate].
    + rewrite <- Er. now rewrite rev_involutive.
  - change (join_space (w :: w2 :: ws)) with (w ++ 32 :: join_space (w2 :: ws)).
    rewrite split_ws_word_prefix by exact Hw. rewrite app_nil_r. cbn [split_ws].
    rewrite Hsp.
    destruct (rev w) eqn:Er.
    + apply (f_equal (@length Z)) in Er. rewrite length_rev in Er.
      destruct w; [contradiction|discriminate].
    + rewrite <- Er, rev_involutive. f_equal. apply IH. exact Hrest.
Qed.

(** X1.  The normalised text is a sequence of words (non-empty, free of
    separators) joined by single spaces.  Where the space is a separator
    of [str.split], splitting the normalised text gives back exactly
    these words, and normalising a second time changes nothing, provided
    lower-casing leaves the normalised text as it is. *)
Theorem normalize_text_normal_form (s : text) :
  (exists ws, normalize_text R s = join_space ws /\ Forall (is_word R) ws)
  /\ (str_isspace R 32 = true ->
      join_space (split_ws R [] (normalize_text R s)) = normalize_text R s
      /\ (str_lower R (normalize_text R s) = normalize_text R s ->
          normalize_text R (normalize_text R s) = normalize_text R s)).
Proof.
  assert (Hform : exists ws, normalize_text R s = join_space ws /\ Forall (is_word R) ws).
  { unfold normalize_text. destruct (nonempty s).
    - eexists. split; [reflexivity|]. apply split_ws_words. constructor.
    - exists []. split; [reflexivity|constructor]. }
  split; [exact Hform|].
  intros Hsp. destruct Hform as [ws [Hn Hws]].
  assert (Hjoin : join_space (split_ws R [] (normalize_text R s)) = normalize_text R s).
  { rewrite Hn. now rewrite split_ws_join. }
  split; [exact Hjoin|].
  intros Hlow. unfold normalize_text at 1.
  destruct (nonempty (normalize_text R s)) eqn:Ene.
  - rewrite Hlow. exact Hjoin.
  - destruct (normalize_text R s); [reflexivity|discriminate].
Qed.
End NormalizeFacts.

Lemma normalize_text_normal_form_witness :
  let s := [32; 72; 105; 32; 32; 89; 111; 117; 32] in
  normalize_text example_runtime s = [104; 105; 32; 121; 111; 117]
  /\ normalize_text example_runtime (normalize_text example_runtime s) =
     normalize_text example_runtime s.
Proof.
  split; [reflexivity|].
  apply (proj2 (normalize_text_normal_form example_runtime
                  [32; 72; 105; 32; 32; 89; 111; 117; 32])); reflexivity.
Defined.

(** ** The cache of message ids and the purge *)

Lemma chunks_cover_fuel (size : nat) (fuel : nat) (l : list Z) :
  (0 < size)%nat -> (length l <= fuel)%nat ->
  concat (chunks fuel size l) = l
  /\ Forall (fun c => c <> [] /\ (length c <= size)%nat) (chunks fuel size l).
Proof.
  intros Hsize. revert l. induction fuel as [|fuel IH]; intros l Hlen.
  - destruct l; [|cbn in Hlen; lia]. cbn. split; [reflexivity|constructor].
  - destruct l as [|x l]; [cbn; split; [reflexivity|constructor]|].
    cbn [chunks].
    destruct (IH (skipn size (x :: l))) as [Hc Hf].
    { rewrite length_skipn. cbn [length] in *. lia. }
    split.
    + cbn [concat]. rewrite Hc. apply firstn_skipn.
    + constructor; [|exact Hf]. split.
      * destruct size; [lia|]. cbn. discriminate.
      * rewrite length_firstn. lia.
Qed.

Lemma chunks_nil (fuel size : nat) : chunks fuel size [] = [].
Proof. now destruct fuel. Qed.

Lemma chunks_full_fuel (size : nat) (fuel : nat) (l : list Z) (i : nat) :
  (S i < length (chunks fuel size l))%nat ->
  length (nth i (chunks fuel size l) []) = size.
Proof.
  revert l i. induction fuel as [|fuel IH]; intros l i Hi; [cbn in Hi; lia|].
  destruct l as [|x l]; [cbn in Hi; lia|].
  cbn [chunks] in *. cbn [length] in Hi.
  destruct i as [|i]; cbn [nth].
  - rewrite length_firstn. apply Nat.min_l.
    destruct (Nat.le_gt_cases size (length (x :: l))) as [Hle|Hgt]; [exact Hle|].
    rewrite skipn_all2 in Hi by lia. rewrite chunks_nil in Hi. cbn in Hi. lia.
  - apply IH. lia.
Qed.

(** X2.  The slices [message_ids[i:i+size]] taken for the bulk deletion
    cover the list: put one after the other they give the list back, in
    order and without repetition; every slice is non-empty and at most
    [size] long, and every slice but the last is exactly [size] long. *)
Theorem chunks_partition (size : nat) (l : list Z) :
  (0 < size)%nat ->
  let cs := chunks (length l) size l in
  concat cs = l
  /\ Forall (fun c => c <> [] /\ (length c <= size)%nat) cs
  /\ (forall i, (S i < length cs)%nat -> length (nth i cs []) = size).
Proof.
  intros H. cbv zeta.
  destruct (chunks_cover_fuel size (length l) l H (Nat.le_refl _)) as [Hc Hf].
  split; [exact Hc|]. split; [exact Hf|].
  intros i Hi. now apply chunks_full_fuel.
Qed.

Lemma chunks_partition_witness :
  let cs := chunks 5 2 [1; 2; 3; 4; 5] in
  concat cs = [1; 2; 3; 4; 5]
  /\ Forall (fun c => c <> [] /\ (length c <= 2)%nat) cs
  /\ (forall i, (S i < length cs)%nat -> length (nth i cs []) = 2%nat).
Proof. apply (chunks_partition 2 [1; 2; 3; 4; 5]). lia. Defined.

Lemma cached_ids_add_same (chat user msg : Z) (w : World) :
  cached_ids (snd (add_user_message_id chat user msg w)) chat user =
  let l := cached_ids w chat user ++ [msg] in
  if (USER_MESSAGE_CACHE_SIZE <? length l)%nat then tl l else l.
Proof.
  unfold add_user_message_id, modify, cached_ids. cbn [snd user_message_id_cache with_message_ids].
  rewrite (@dict_get_set_same Z _ Z.eqb Z.eqb_eq).
  rewrite (@dict_get_set_same Z _ Z.eqb Z.eqb_eq). cbn [default].
  destruct (dict_get Z.eqb chat (user_message_id_cache w)) as [cc|]; reflexivity.
Qed.

Lemma cached_ids_add_other (chat user msg c u : Z) (w : World) :
  (c, u) <> (chat, user) ->
  cached_ids (snd (add_user_message_id chat user msg w)) c u = cached_ids w c u.
Proof.
  intros Hne.
  unfold add_user_message_id, modify, cached_ids. cbn [snd user_message_id_cache with_message_ids].
  destruct (Z.eq_dec c chat) as [->|Hc].
  - rewrite (@dict_get_set_same Z _ Z.eqb Z.eqb_eq).
    rewrite (@dict_get_set_other Z _ Z.eqb Z.eqb_eq) by congruence.
    destruct (dict_get Z.eqb chat (user_message_id_cache w)) as [cc|]; reflexivity.
  - now rewrite (@dict_get_set_other Z _ Z.eqb Z.eqb_eq) by congruence.
Qed.

(** X3.  Remembering a message id: the id becomes the newest of the
    sender's ids in the chat; the ids kept are the old ones and the new
    one, less the oldest when that makes more than
    [USER_MESSAGE_CACHE_SIZE]; a list within the bound stays within it;
    the ids of every other (chat, user) pair, and everything but the id
    cache, are as before. *)
Theorem add_user_message_id_spec (chat user msg : Z) (w : World) :
  let r := add_user_message_id chat user msg w in
  let old := cached_ids w chat user in
  let new := cached_ids (snd r) chat user in
  fst r = Ret tt
  /\ (exists dropped, old ++ [msg] = dropped ++ new /\ (length dropped <= 1)%nat
                      /\ (dropped <> [] -> (USER_MESSAGE_CACHE_SIZE <= length old)%nat))
  /\ (exists earlier, new = earlier ++ [msg])
  /\ ((length old <= USER_MESSAGE_CACHE_SIZE)%nat ->
      (length new <= USER_MESSAGE_CACHE_SIZE)%nat)
  /\ (forall c u, (c, u) <> (chat, user) -> cached_ids (snd r) c u = cached_ids w c u)
  /\ events (snd r) = events w
  /\ user_moderation_tracker (snd r) = user_moderation_tracker w
  /\ bot_message_cache (snd r) = bot_message_cache w
  /\ db (snd r) = db w.
Proof.
  cbv zeta. rewrite cached_ids_add_same. cbv zeta.
  split; [reflexivity|].
  set (old := cached_ids w chat user).
  assert (Hlen : length (old ++ [msg]) = S (length old))
    by (rewrite length_app; cbn; lia).
  split; [|split; [|split; [|split; [|repeat split]]]].
  - destruct (USER_MESSAGE_CACHE_SIZE <? length (old ++ [msg]))%nat eqn:E.
    + apply Nat.ltb_lt in E.
      destruct old as [|x old']; cbn [app tl].
      * cbn in E. unfold USER_MESSAGE_CACHE_SIZE in E. lia.
      * exists [x]. repeat split; [cbn; lia|]. intros _. cbn [length app] in *. lia.
    + exists []. repeat split; [cbn; lia|]. intros H. now contradiction H.
  - destruct (USER_MESSAGE_CACHE_SIZE <? length (old ++ [msg]))%nat eqn:E.
    + apply Nat.ltb_lt in E.
      destruct old as [|x old']; cbn [app tl].
      * cbn in E. unfold USER_MESSAGE_CACHE_SIZE in E. lia.
      * now exists old'.
    + now exists old.
  - intros Hold.
    destruct (USER_MESSAGE_CACHE_SIZE <? length (old ++ [msg]))%nat eqn:E.
    + destruct old as [|x old']; cbn [app tl length] in *.
      * unfold USER_MESSAGE_CACHE_SIZE. lia.
      * rewrite length_app. cbn. lia.
    + apply Nat.ltb_ge in E. exact E.
  - intros c u Hne. now apply cached_ids_add_other.
Qed.

Lemma delete_chunks_run (P : Platform) (chat : Z) (cs : list (list Z)) (w : World) :
  delete_chunks P chat cs w =
  (Ret tt, with_events w (events w ++ map (DeleteMessages chat) cs)).
Proof.
  revert w. induction cs as [|c rest IH]; intros w.
  - cbn. unfold ret. rewrite app_nil_r. now destruct w.
  - cbn [delete_chunks map]. unfold bind. rewrite try_log_call. rewrite IH.
    cbn. now rewrite <- app_assoc.
Qed.

Lemma dict_get_del_same {V : Type} (k : Z) (d : dict Z V) :
  unique_keys d -> dict_get Z.eqb k (dict_del Z.eqb k d) = None.
Proof.
  unfold unique_keys. induction d as [|[k' v'] d IH]; intros Hnd; [reflexivity|].
  cbn [map fst] in Hnd. inversion Hnd as [|? ? Hnotin Hnd']; subst.
  cbn [dict_del]. destruct (Z.eqb k k') eqn:E.
  - apply Z.eqb_eq in E. subst k'.
    clear IH Hnd Hnd'. induction d as [|[k2 v2] d IH2]; [reflexivity|].
    cbn [dict_get]. destruct (Z.eqb k k2) eqn:E2.
    + apply Z.eqb_eq in E2. subst. exfalso. apply Hnotin. now left.
    + apply IH2. intros Hin. apply Hnotin. now right.
  - cbn [dict_get]. rewrite E. now apply IH.
Qed.

Lemma dict_get_del_other {V : Type} (k k0 : Z) (d : dict Z V) :
  k0 <> k -> dict_get Z.eqb k0 (dict_del Z.eqb k d) = dict_get Z.eqb k0 d.
Proof.
  intros Hne. induction d as [|[k' v'] d IH]; [reflexivity|].
  cbn [dict_del]. destruct (Z.eqb k k') eqn:E.
  - apply Z.eqb_eq in E. subst k'. cbn [dict_get].
    now replace (Z.eqb k0 k) with false by (symmetry; now apply Z.eqb_neq).
  - cbn [dict_get]. destruct (Z.eqb k0 k'); [reflexivity|exact IH].
Qed.

Lemma cached_ids_pop_same (chat user : Z) (w : World) :
  (forall cc, dict_get Z.eqb chat (user_message_id_cache w) = Some cc -> unique_keys cc) ->
  cached_ids (pop_cached chat user w) chat user = [].
Proof.
  intros Hwf. unfold pop_cached, cached_ids.
  destruct (dict_get Z.eqb chat (user_message_id_cache w)) as [cc|] eqn:E.
  - cbn [user_message_id_cache with_message_ids].
    rewrite (@dict_get_set_same Z _ Z.eqb Z.eqb_eq).
    rewrite dict_get_del_same by (now apply Hwf). reflexivity.
  - now rewrite E.
Qed.

Lemma cached_ids_pop_other (chat user c u : Z) (w : World) :
  (c, u) <> (chat, user) ->
  cached_ids (pop_cached chat user w) c u = cached_ids w c u.
Proof.
  intros Hne. unfold pop_cached, cached_ids.
  destruct (dict_get Z.eqb chat (user_message_id_cache w)) as [cc|] eqn:E; [|reflexivity].
  cbn [user_message_id_cache with_message_ids].
  destruct (Z.eq_dec c chat) as [->|Hc].
  - rewrite (@dict_get_set_same Z _ Z.eqb Z.eqb_eq), E.
    now rewrite dict_get_del_other by congruence.
  - now rewrite (@dict_get_set_other Z _ Z.eqb Z.eqb_eq) by congruence.
Qed.

Lemma bulk_deleted_ids_chunks (chat : Z) (cs : list (list Z)) :
  bulk_deleted_ids (map (DeleteMessages chat) cs) = concat cs.
Proof.
  unfold bulk_deleted_ids. induction cs as [|c rest IH]; [reflexivity|].
  cbn [map flat_map concat]. now rewrite IH.
Qed.

(** X4.  The purge of a user's cached ids never raises, whichever of the
    bulk deletion calls fail.  It takes the user's list out of the cache
    and hands it to the platform in calls of at most 100 ids: the ids of
    the calls, one after the other, are the cached list.  Afterwards the
    pair has no cached ids left (the chat's dictionary holding each user
    once); the ids of every other pair are untouched. *)
Theorem delete_cached_messages_spec (P : Platform) (chat user : Z) (w : World) :
  (forall cc, dict_get Z.eqb chat (user_message_id_cache w) = Some cc -> unique_keys cc) ->
  let r := delete_cached_messages P chat user w in
  let ids := cached_ids w chat user in
  let out := emitted (delete_cached_messages P chat user) w in
  fst r = Ret tt
  /\ out = CachePop chat user ids :: map (DeleteMessages chat) (chunks (length ids) 100 ids)
  /\ bulk_deleted_ids out = ids
  /\ Forall (fun c => c <> [] /\ (length c <= 100)%nat) (chunks (length ids) 100 ids)
  /\ cached_ids (snd r) chat user = []
  /\ (forall c u, (c, u) <> (chat, user) -> cached_ids (snd r) c u = cached_ids w c u).
Proof.
  intros Hwf. cbv zeta.
  set (ids := cached_ids w chat user).
  assert (Hrun : delete_cached_messages P chat user w =
                 (Ret tt, with_events (pop_cached chat user w)
                            (events w ++ CachePop chat user ids ::
                               map (DeleteMessages chat) (chunks (length ids) 100 ids)))).
  { unfold delete_cached_messages. unfold_monad. cbn. fold ids.
    assert (He : events (pop_cached chat user w) = events w)
      by (unfold pop_cached; now destruct (dict_get _ _ _)).
    rewrite He.
    destruct ids as [|i ids'] eqn:Eids.
    - cbn. reflexivity.
    - rewrite delete_chunks_run. cbn. now rewrite <- app_assoc. }
  destruct (chunks_cover_fuel 100 (length ids) ids) as [Hc Hf]; [lia|lia|].
  assert (Hout : emitted (delete_cached_messages P chat user) w =
                 CachePop chat user ids ::
                   map (DeleteMessages chat) (chunks (length ids) 100 ids)).
  { apply emitted_app. rewrite Hrun. reflexivity. }
  rewrite Hout. rewrite Hrun. cbn [fst snd].
  split; [reflexivity|]. split; [reflexivity|]. split.
  { change (bulk_deleted_ids (CachePop chat user ids :: ?l)) with (bulk_deleted_ids l).
    now rewrite bulk_deleted_ids_chunks. }
  split; [exact Hf|]. split.
  - change (cached_ids (with_events ?x ?l) chat user) with (cached_ids x chat user).
    now apply cached_ids_pop_same.
  - intros c u Hne.
    change (cached_ids (with_events ?x ?l) c u) with (cached_ids x c u).
    now apply cached_ids_pop_other.
Qed.

Lemma delete_cached_messages_spec_witness :
  emitted (delete_cached_messages (example_platform 0) (-100) 7) world_with_cached_ids =
    [CachePop (-100) 7 [11; 12; 13]; DeleteMessages (-100) [11; 12; 13]]
  /\ cached_ids (snd (delete_cached_messages (example_platform 0) (-100) 7
                        world_with_cached_ids)) (-100) 7 = []
  /\ cached_ids (snd (delete_cached_messages (example_platform 0) (-100) 7
                        world_with_cached_ids)) (-100) 8 = [21].
Proof.
  assert (Hwf : forall cc,
             dict_get Z.eqb (-100) (user_message_id_cache world_with_cached_ids) = Some cc ->
             unique_keys cc).
  { intros cc H. vm_compute in H. injection H as <-.
    unfold unique_keys. cbn. repeat constructor; cbn; intuition discriminate. }
  destruct (delete_cached_messages_spec (example_platform 0) (-100) 7
              world_with_cached_ids Hwf) as [_ [H1 [_ [_ [H2 H3]]]]].
  split; [exact H1|]. split; [exact H2|].
  rewrite H3 by discriminate. reflexivity.
Defined.

(** ** The cache of the bot's own messages *)

Lemma recent_after_add (R : Runtime) (chat : Z) (t : text) (w : World) :
  nonempty t = true ->
  recent_bot_messages (snd (add_bot_message_to_cache R chat t w)) chat =
  let q := recent_bot_messages w chat in
  if nonempty (normalize_text R t) && negb (existsb (text_eqb (normalize_text R t)) q)
  then deque_append BOT_MESSAGE_CACHE_SIZE (normalize_text R t) q
  else q.
Proof.
  intros Hne. unfold add_bot_message_to_cache, recent_bot_messages, modify.
  rewrite Hne. cbn [negb snd bot_message_cache with_bot_messages].
  now rewrite (@dict_get_set_same Z _ Z.eqb Z.eqb_eq).
Qed.

Lemma deque_append_last (maxlen : nat) (x : text) (q : list text) :
  (0 < maxlen)%nat ->
  deque_append maxlen x q = skipn (S (length q) - maxlen) q ++ [x].
Proof.
  intros Hpos. unfold deque_append. rewrite length_app. cbn [length].
  rewrite Nat.add_1_r. rewrite skipn_app.
  replace (S (length q) - maxlen - length q)%nat with 0%nat by lia. reflexivity.
Qed.

Lemma NoDup_skipn {A : Type} (n : nat) (l : list A) : NoDup l -> NoDup (skipn n l).
Proof.
  intros H. rewrite <- (firstn_skipn n l) in H. now apply NoDup_app_remove_l in H.
Qed.

Lemma existsb_text_In (x : text) (q : list text) :
  existsb (text_eqb x) q = true <-> In x q.
Proof.
  rewrite existsb_exists. split.
  - intros [y [Hin Heq]]. apply text_eqb_eq in Heq. now subst.
  - intros Hin. exists x. split; [exact Hin|apply text_eqb_refl].
Qed.

(** X5.  Remembering a message of the bot.  The chat's queue never grows
    beyond [BOT_MESSAGE_CACHE_SIZE], never holds a text twice and never
    holds the empty text, if that was so before.  Once a text with a
    non-empty normal form is remembered, every non-empty text with the
    same normal form counts as a repetition of the bot's message in that
    chat.  The queues of the other chats, and everything but the queues,
    are as before. *)
Theorem add_bot_message_to_cache_spec (R : Runtime) (chat : Z) (t : text) (w : World) :
  let r := add_bot_message_to_cache R chat t w in
  let old := recent_bot_messages w chat in
  let new := recent_bot_messages (snd r) chat in
  fst r = Ret tt
  /\ ((length old <= BOT_MESSAGE_CACHE_SIZE)%nat ->
      (length new <= BOT_MESSAGE_CACHE_SIZE)%nat)
  /\ (NoDup old -> NoDup new)
  /\ (Forall (fun x => nonempty x = true) old -> Forall (fun x => nonempty x = true) new)
  /\ (forall t2,
        nonempty t = true -> nonempty (normalize_text R t) = true ->
        nonempty t2 = true -> normalize_text R t2 = normalize_text R t ->
        is_mimicry R (snd r) chat t2 = true)
  /\ (forall c, c <> chat -> recent_bot_messages (snd r) c = recent_bot_messages w c)
  /\ events (snd r) = events w
  /\ user_moderation_tracker (snd r) = user_moderation_tracker w
  /\ db (snd r) = db w.
Proof.
  cbv zeta.
  destruct (nonempty t) eqn:Hne.
  2:{ unfold add_bot_message_to_cache. rewrite Hne. cbn.
      repeat split; auto; intros; discriminate. }
  rewrite recent_after_add by exact Hne. cbv zeta.
  set (q := recent_bot_messages w chat).
  set (n := normalize_text R t).
  assert (Hpos : (0 < BOT_MESSAGE_CACHE_SIZE)%nat) by (unfold BOT_MESSAGE_CACHE_SIZE; lia).
  split; [unfold add_bot_message_to_cache; now rewrite Hne|].
  split; [|split; [|split; [|split; [|split]]]].
  - intros Hlen. destruct (nonempty n && negb (existsb (text_eqb n) q)); [|exact Hlen].
    unfold deque_append. rewrite length_skipn, length_app. cbn [length]. lia.
  - intros Hnd. destruct (nonempty n) eqn:En; cbn [andb]; [|exact Hnd].
    destruct (existsb (text_eqb n) q) eqn:Ex; cbn [negb]; [exact Hnd|].
    unfold deque_append. apply NoDup_skipn.
    apply NoDup_app; [exact Hnd|repeat constructor; intros []|].
    intros x Hin [Hx|[]]. subst x.
    apply existsb_text_In in Hin. congruence.
  - intros Hall. destruct (nonempty n) eqn:En; cbn [andb]; [|exact Hall].
    destruct (existsb (text_eqb n) q) eqn:Ex; cbn [negb]; [exact Hall|].
    rewrite deque_append_last by exact Hpos.
    apply Forall_app. split.
    + rewrite <- (firstn_skipn (S (length q) - BOT_MESSAGE_CACHE_SIZE) q) in Hall.
      now apply Forall_app in Hall.
    + repeat constructor. exact En.
  - intros t2 _ Hn Hne2 Heq. unfold is_mimicry. rewrite Hne2. cbn [andb].
    rewrite recent_after_add by exact Hne. cbv zeta. fold q n. rewrite Heq. fold n.
    rewrite Hn. cbn [andb].
    destruct (existsb (text_eqb n) q) eqn:Ex; cbn [negb]; [exact Ex|].
    rewrite deque_append_last by exact Hpos.
    rewrite existsb_app. cbn [existsb]. rewrite text_eqb_refl. now rewrite orb_true_r.
  - intros c Hc. unfold add_bot_message_to_cache, recent_bot_messages, modify.
    rewrite Hne. cbn [negb snd bot_message_cache with_bot_messages].
    now rewrite (@dict_get_set_other Z _ Z.eqb Z.eqb_eq) by exact Hc.
  - unfold add_bot_message_to_cache. rewrite Hne. cbn. repeat split.
Qed.

Lemma add_bot_message_to_cache_spec_witness :
  is_mimicry example_runtime
    (snd (add_bot_message_to_cache example_runtime (-100) [72; 105; 32; 32; 33]
            (world_of empty_db)))
    (-100) [104; 73; 32; 33] = true.
Proof.
  apply (add_bot_message_to_cache_spec example_runtime (-100) [72; 105; 32; 32; 33]
           (world_of empty_db)); reflexivity.
Defined.

(** ** The proposal of a global ban *)

Lemma world_eta (w : World) : with_events w (events w) = w.
Proof. now destruct w. Qed.

Lemma send_to_admins_run (P : Platform) (admins : list Z) (n : Notice) (w : World) :
  send_to_admins P admins n w =
  (Ret tt, with_events w (events w ++ map (fun a => SendMessage a n) admins)).
Proof.
  revert w. induction admins as [|a rest IH]; intros w.
  - cbn. unfold ret. now rewrite app_nil_r, world_eta.
  - cbn [send_to_admins map]. unfold bind at 1.
    assert (Hsend : try_log (ignore (send_message P a n)) w =
                    (Ret tt, with_events w (events w ++ [SendMessage a n]))).
    { unfold_monad. now destruct (call_fails P (events w) _). }
    rewrite Hsend. rewrite IH. cbn. now rewrite <- app_assoc.
Qed.

(** X6.  The proposal of a global ban is sent to every administrator of
    [ADMIN_IDS] once, in the order of the list, whichever of the sends
    fail; nothing else is done and nothing is raised.  With no
    administrator configured nothing happens at all. *)
Theorem propose_global_ban_spec (cfg : Config) (P : Platform) (user chat : Z)
    (reason : Reason) (w : World) :
  propose_global_ban cfg P user chat reason w =
  (Ret tt,
   with_events w
     (events w ++
      map (fun a => SendMessage a (GlobalBanProposal user chat reason)) (ADMIN_IDS cfg))).
Proof.
  unfold propose_global_ban.
  destruct (ADMIN_IDS cfg) as [|a rest] eqn:E.
  - cbn. unfold ret. now rewrite app_nil_r, world_eta.
  - apply send_to_admins_run.
Qed.

(** ** The store: whitelist, chat settings, members, avatars *)

Lemma existsb_key_filter (k k0 : Z * Z) (rows : list (Z * Z)) :
  existsb (key_eqb k0) (filter (fun x => negb (key_eqb k x)) rows) =
  existsb (key_eqb k0) rows && negb (key_eqb k0 k).
Proof.
  induction rows as [|x rows IH]; [reflexivity|].
  cbn [filter existsb]. destruct (key_eqb k x) eqn:E; cbn [negb].
  - apply key_eqb_eq in E. subst x. rewrite IH.
    destruct (key_eqb k0 k); cbn; [now rewrite andb_false_r|reflexivity].
  - cbn [existsb]. rewrite IH.
    destruct (key_eqb k0 x) eqn:E0; cbn [orb]; [|reflexivity].
    apply key_eqb_eq in E0. subst x.
    destruct (key_eqb k0 k) eqn:E1; [|reflexivity].
    apply key_eqb_eq in E1. subst k0. rewrite key_eqb_refl in E. discriminate.
Qed.

Lemma filter_length_existsb {A : Type} (f : A -> bool) (l : list A) :
  (0 <? Z.of_nat (length (filter f l))) = existsb f l.
Proof.
  induction l as [|x l IH]; [reflexivity|].
  cbn [filter existsb]. destruct (f x); cbn [orb]; [|exact IH].
  cbn [length]. apply Z.ltb_lt. lia.
Qed.

Lemma whitelisted_get_or_create (d : Database) (chat : Z) :
  whitelisted_users (get_or_create_chat d chat) = whitelisted_users d.
Proof. unfold get_or_create_chat. now destruct (find_chat_settings d chat). Qed.

(** X7.  The whitelist of a chat.  Adding a user answers whether the user
    was not yet whitelisted there and makes the lookup of exactly that
    (chat, user) pair true; removing answers whether the user was
    whitelisted and makes the lookup of exactly that pair false; no other
    pair's lookup changes.  The listing of a chat's whitelist holds the
    users whose lookup is true. *)
Theorem whitelist_round_trip (d : Database) (chat user added_by c u : Z) :
  let a := add_whitelist_user d chat user added_by in
  let r := remove_whitelist_user d chat user in
  fst a = negb (is_whitelisted d chat user)
  /\ is_whitelisted (snd a) c u = is_whitelisted d c u || key_eqb (c, u) (chat, user)
  /\ fst r = is_whitelisted d chat user
  /\ is_whitelisted (snd r) c u = is_whitelisted d c u && negb (key_eqb (c, u) (chat, user))
  /\ (In u (get_whitelisted_users d c) <-> is_whitelisted d c u = true).
Proof.
  cbv zeta. unfold add_whitelist_user, remove_whitelist_user, is_whitelisted.
  rewrite whitelisted_get_or_create.
  split; [|split; [|split; [|split]]].
  - now destruct (existsb (key_eqb (chat, user)) (whitelisted_users d)).
  - destruct (existsb (key_eqb (chat, user)) (whitelisted_users d)) eqn:E;
      cbn [snd whitelisted_users with_whitelisted_users].
    + rewrite ?whitelisted_get_or_create.
      destruct (key_eqb (c, u) (chat, user)) eqn:E1; [|now rewrite orb_false_r].
      apply key_eqb_eq in E1. rewrite E1, E. reflexivity.
    + rewrite ?whitelisted_get_or_create, existsb_app. cbn [existsb].
      now rewrite orb_false_r.
  - cbn [fst]. apply filter_length_existsb.
  - cbn [snd whitelisted_users with_whitelisted_users]. apply existsb_key_filter.
  - unfold get_whitelisted_users. rewrite in_map_iff, existsb_exists. split.
    + intros [[c0 u0] [Hu Hin]]. apply filter_In in Hin. destruct Hin as [Hin Hc].
      cbn [fst snd] in *. apply Z.eqb_eq in Hc. subst.
      exists (c, u). split; [exact Hin|apply key_eqb_refl].
    + intros [k [Hin Hk]]. apply key_eqb_eq in Hk. subst k.
      exists (c, u). split; [reflexivity|].
      apply filter_In. split; [exact Hin|apply Z.eqb_refl].
Qed.

Lemma find_settings_app (rows : list ChatSettingsRow) (x : ChatSettingsRow) (c : Z) :
  find (fun r => cs_chat_id r =? c) (rows ++ [x]) =
  match find (fun r => cs_chat_id r =? c) rows with
  | Some r => Some r
  | None => if cs_chat_id x =? c then Some x else None
  end.
Proof.
  induction rows as [|y rows IH]; [reflexivity|].
  cbn [app find]. destruct (cs_chat_id y =? c); [reflexivity|exact IH].
Qed.

Lemma find_settings_map (rows : list ChatSettingsRow) (chat c : Z)
    (f : ChatSettingsRow -> ChatSettingsRow) :
  (forall r, cs_chat_id (f r) = cs_chat_id r) ->
  find (fun r => cs_chat_id r =? c)
       (map (fun r => if cs_chat_id r =? chat then f r else r) rows) =
  option_map (fun r => if cs_chat_id r =? chat then f r else r)
             (find (fun r => cs_chat_id r =? c) rows).
Proof.
  intros Hf. induction rows as [|y rows IH]; [reflexivity|].
  cbn [map find].
  replace (cs_chat_id (if cs_chat_id y =? chat then f y else y)) with (cs_chat_id y)
    by (destruct (cs_chat_id y =? chat); [now rewrite Hf|reflexivity]).
  destruct (cs_chat_id y =? c); [reflexivity|exact IH].
Qed.

Lemma find_settings_id (rows : list ChatSettingsRow) (c : Z) (r : ChatSettingsRow) :
  find (fun r => cs_chat_id r =? c) rows = Some r -> cs_chat_id r = c.
Proof.
  intros H. apply find_some in H. destruct H as [_ H]. now apply Z.eqb_eq.
Qed.

Lemma settings_after_update (d : Database) (chat c : Z)
    (f : ChatSettingsRow -> ChatSettingsRow) :
  (forall r, cs_chat_id (f r) = cs_chat_id r) ->
  find_chat_settings (update_chat_settings (get_or_create_chat d chat) chat f) c =
  if c =? chat
  then Some (f (default (default_chat_settings chat) (find_chat_settings d chat)))
  else find_chat_settings d c.
Proof.
  intros Hf. unfold find_chat_settings, update_chat_settings, get_or_create_chat,
    find_chat_settings.
  destruct (find (fun r => cs_chat_id r =? chat) (chat_settings d)) as [r0|] eqn:E0;
    cbn [chat_settings with_chat_settings default].
  - rewrite find_settings_map by exact Hf.
    destruct (c =? chat) eqn:Ec.
    + apply Z.eqb_eq in Ec. subst c. rewrite E0. cbn [option_map].
      apply find_settings_id in E0. rewrite E0, Z.eqb_refl. reflexivity.
    + destruct (find (fun r => cs_chat_id r =? c) (chat_settings d)) as [r1|] eqn:E1;
        [|reflexivity].
      cbn [option_map]. apply find_settings_id in E1. rewrite E1, Ec. reflexivity.
  - rewrite find_settings_map by exact Hf. rewrite find_settings_app.
    destruct (c =? chat) eqn:Ec.
    + apply Z.eqb_eq in Ec. subst c. rewrite E0. cbn [default_chat_settings cs_chat_id].
      rewrite Z.eqb_refl. cbn [option_map cs_chat_id]. now rewrite Z.eqb_refl.
    + destruct (find (fun r => cs_chat_id r =? c) (chat_settings d)) as [r1|] eqn:E1.
      * cbn [option_map]. apply find_settings_id in E1. rewrite E1, Ec. reflexivity.
      * cbn [default_chat_settings cs_chat_id].
        rewrite Z.eqb_sym, Ec. reflexivity.
Qed.

Lemma active_after_update (d : Database) (chat c : Z)
    (f : ChatSettingsRow -> ChatSettingsRow) :
  (forall r, cs_chat_id (f r) = cs_chat_id r) ->
  is_active_chat (update_chat_settings d chat f) c =
  existsb (fun r => (cs_chat_id r =? c) &&
                    cs_is_active (if cs_chat_id r =? chat then f r else r))
          (chat_settings d).
Proof.
  intros Hf. unfold is_active_chat, update_chat_settings.
  cbn [chat_settings with_chat_settings].
  induction (chat_settings d) as [|y rows IH]; [reflexivity|].
  cbn [map existsb]. rewrite IH.
  replace (cs_chat_id (if cs_chat_id y =? chat then f y else y)) with (cs_chat_id y)
    by (destruct (cs_chat_id y =? chat); [now rewrite Hf|reflexivity]).
  reflexivity.
Qed.

Lemma find_none_not_active (d : Database) (c : Z) :
  find_chat_settings d c = None -> is_active_chat d c = false.
Proof.
  unfold find_chat_settings, is_active_chat. intros H.
  induction (chat_settings d) as [|y rows IH]; [reflexivity|].
  cbn [find existsb] in *. destruct (cs_chat_id y =? c); [discriminate|].
  cbn [andb orb]. now apply IH.
Qed.

Lemma active_get_or_create (d : Database) (chat c : Z) :
  is_active_chat (get_or_create_chat d chat) c =
  is_active_chat d c ||
  ((c =? chat) && match find_chat_settings d chat with Some _ => false | None => true end).
Proof.
  unfold get_or_create_chat.
  destruct (find_chat_settings d chat) eqn:E.
  - now rewrite andb_false_r, orb_false_r.
  - unfold is_active_chat. cbn [chat_settings with_chat_settings].
    rewrite existsb_app. cbn [existsb default_chat_settings cs_chat_id cs_is_active].
    rewrite orb_false_r, andb_true_r, andb_true_r. now rewrite (Z.eqb_sym chat c).
Qed.

Lemma existsb_ext_eqb {A : Type} (f g : A -> bool) (l : list A) :
  (forall x, f x = g x) -> existsb f l = existsb g l.
Proof.
  intros H. induction l as [|x l IH]; [reflexivity|]. cbn. now rewrite H, IH.
Qed.

Lemma existsb_and_const {A : Type} (f : A -> bool) (b : bool) (l : list A) :
  existsb (fun x => f x && b) l = existsb f l && b.
Proof.
  induction l as [|x l IH]; [reflexivity|]. cbn. rewrite IH.
  destruct (f x), b, (existsb f l); reflexivity.
Qed.

Lemma active_get_or_create_other (d : Database) (chat c : Z) :
  c <> chat -> is_active_chat (get_or_create_chat d chat) c = is_active_chat d c.
Proof.
  intros Hne. rewrite active_get_or_create.
  replace (c =? chat) with false by (symmetry; now apply Z.eqb_neq).
  now rewrite orb_false_r.
Qed.

Lemma has_row_get_or_create (d : Database) (chat : Z) :
  existsb (fun r => cs_chat_id r =? chat) (chat_settings (get_or_create_chat d chat)) = true.
Proof.
  unfold get_or_create_chat, find_chat_settings.
  destruct (find (fun r => cs_chat_id r =? chat) (chat_settings d)) as [r|] eqn:E.
  - apply existsb_exists. apply find_some in E. now exists r.
  - cbn [chat_settings with_chat_settings]. rewrite existsb_app. cbn.
    now rewrite Z.eqb_refl, orb_true_r.
Qed.

(** X8.  The switches of a chat in chat_settings.  Setting a switch makes
    its reader answer the value set for that chat and leaves the answer
    for every other chat as it was; the link switch and the captcha switch
    do not disturb each other, and the active flag disturbs neither.  A
    chat without a row reads as switched off and not active; setting one
    of its switches creates the row with the schema's defaults, so the
    chat counts as active from then on. *)
Theorem chat_settings_round_trip (d : Database) (chat c : Z) (b : bool) :
  (is_link_deletion_enabled (set_link_deletion d chat b) c =
     if c =? chat then b else is_link_deletion_enabled d c)
  /\ (is_welcome_captcha_enabled (set_welcome_captcha d chat b) c =
        if c =? chat then b else is_welcome_captcha_enabled d c)
  /\ is_welcome_captcha_enabled (set_link_deletion d chat b) c =
       is_welcome_captcha_enabled d c
  /\ is_link_deletion_enabled (set_welcome_captcha d chat b) c =
       is_link_deletion_enabled d c
  /\ is_link_deletion_enabled (set_chat_active_status d chat b) c =
       is_link_deletion_enabled d c
  /\ is_welcome_captcha_enabled (set_chat_active_status d chat b) c =
       is_welcome_captcha_enabled d c
  /\ (is_active_chat (set_chat_active_status d chat b) c =
        if c =? chat then b else is_active_chat d c)
  /\ (is_active_chat (set_link_deletion d chat b) c =
        is_active_chat d c ||
        ((c =? chat) &&
         match find_chat_settings d chat with Some _ => false | None => true end))
  /\ (find_chat_settings d c = None ->
      is_link_deletion_enabled d c = false /\ is_welcome_captcha_enabled d c = false
      /\ is_active_chat d c = false).
Proof.
  unfold is_link_deletion_enabled, is_welcome_captcha_enabled,
    set_link_deletion, set_welcome_captcha, set_chat_active_status.
  rewrite !settings_after_update by reflexivity.
  repeat match goal with |- _ /\ _ => split end.
  - destruct (c =? chat); reflexivity.
  - destruct (c =? chat); reflexivity.
  - destruct (c =? chat) eqn:Ec; [|reflexivity].
    apply Z.eqb_eq in Ec. subst c. now destruct (find_chat_settings d chat).
  - destruct (c =? chat) eqn:Ec; [|reflexivity].
    apply Z.eqb_eq in Ec. subst c. now destruct (find_chat_settings d chat).
  - destruct (c =? chat) eqn:Ec; [|reflexivity].
    apply Z.eqb_eq in Ec. subst c. now destruct (find_chat_settings d chat).
  - destruct (c =? chat) eqn:Ec; [|reflexivity].
    apply Z.eqb_eq in Ec. subst c. now destruct (find_chat_settings d chat).
  - rewrite active_after_update by reflexivity.
    destruct (c =? chat) eqn:Ec.
    + apply Z.eqb_eq in Ec. subst c.
      rewrite (existsb_ext_eqb _ (fun r => (cs_chat_id r =? chat) && b)).
      2:{ intros r. now destruct (cs_chat_id r =? chat). }
      rewrite existsb_and_const, has_row_get_or_create. reflexivity.
    + rewrite <- (active_get_or_create_other d chat c) by (now apply Z.eqb_neq).
      unfold is_active_chat. apply existsb_ext_eqb. intros r.
      destruct (cs_chat_id r =? c) eqn:Er; [|reflexivity].
      apply Z.eqb_eq in Er. rewrite Er, Ec. reflexivity.
  - rewrite active_after_update by reflexivity.
    rewrite <- active_get_or_create. unfold is_active_chat.
    apply existsb_ext_eqb. intros r. now destruct (cs_chat_id r =? chat).
  - intros Hnone. rewrite Hnone. repeat split. now apply find_none_not_active.
Qed.

Lemma whitelist_round_trip_witness :
  In 7 (get_whitelisted_users db_whitelisting (-100)).
Proof.
  apply (proj2 (proj2 (proj2 (proj2 (whitelist_round_trip db_whitelisting (-100) 7 1 (-100) 7))))).
  reflexivity.
Defined.

Lemma chat_settings_round_trip_witness :
  is_link_deletion_enabled empty_db (-100) = false
  /\ is_welcome_captcha_enabled empty_db (-100) = false
  /\ is_active_chat empty_db (-100) = false.
Proof.
  apply (chat_settings_round_trip empty_db (-100) (-100) true). reflexivity.
Defined.

Lemma unchecked_In (d : Database) (chat : Z) (oa : bool) (km : KnownMemberRow) :
  In km (get_unchecked_known_members d chat oa) <->
  In km (known_members d) /\ km_chat_id km = chat /\ km_is_member km = true
  /\ profile_checked d chat (km_user_id km) = false
  /\ (negb oa || is_active_chat d chat) = true.
Proof.
  unfold get_unchecked_known_members. rewrite filter_In.
  rewrite !andb_true_iff, Z.eqb_eq, negb_true_iff. tauto.
Qed.

Lemma same_member_eq (chat user : Z) (km : KnownMemberRow) :
  same_member chat user km = true <-> km_chat_id km = chat /\ km_user_id km = user.
Proof. unfold same_member. now rewrite andb_true_iff, !Z.eqb_eq. Qed.

Lemma awaits_check_In (d : Database) (chat user : Z) (oa : bool) :
  awaits_check d chat user oa = true <->
  exists km, In km (get_unchecked_known_members d chat oa) /\ km_user_id km = user.
Proof.
  unfold awaits_check. rewrite existsb_exists.
  split; intros [km [Hin Hu]]; exists km; (split; [exact Hin|]); now apply Z.eqb_eq.
Qed.

Lemma In_map_replace {A : Type} (p : A -> bool) (row x : A) (l : list A) :
  In x (map (fun y => if p y then row else y) l) <->
  (x = row /\ existsb p l = true) \/ (In x l /\ p x = false).
Proof.
  induction l as [|y l IH]; cbn [map In existsb].
  - split; [intros []|intros [[_ H]|[[] _]]]. discriminate.
  - rewrite IH. destruct (p y) eqn:Ey; cbn [orb].
    + split.
      * intros [H|[[H1 H2]|[H1 H2]]]; [left; now split|left; now split|right; now split; [right|]].
      * intros [[H1 H2]|[[H1|H1] H2]]; [now left|subst; congruence|right; right; now split].
    + split.
      * intros [H|[[H1 H2]|[H1 H2]]]; [subst; right; split; [now left|exact Ey]
                                        |left; now split|right; split; [now right|exact H2]].
      * intros [[H1 H2]|[[H1|H1] H2]]; [right; left; now split|now left|right; right; now split].
Qed.

(** X9.  Tracking of chat members.  [upsert_member] refuses a user
    without an id and changes nothing.  Otherwise it answers [True], and
    the user is a member a rescan of the chat would enumerate exactly when
    the user has no profile-check record there (and, for the periodic
    rescan, the chat is active): checks made before the user left and came
    back are not forgotten.  The row enumerated for the user carries the
    names of the latest upsert.  After [mark_left] the user is not
    enumerated.  Neither operation changes which other members are
    enumerated, nor the profile-check records. *)
Theorem known_members_tracking (d : Database) (chat : Z) (user : User) (oa : bool) :
  (user_id user = 0 -> forall b, upsert_member d chat user b = (false, d))
  /\ (user_id user <> 0 ->
      let d1 := snd (upsert_member d chat user true) in
      fst (upsert_member d chat user true) = true
      /\ awaits_check d1 chat (user_id user) oa =
           negb (profile_checked d chat (user_id user)) && (negb oa || is_active_chat d chat)
      /\ (forall km, In km (get_unchecked_known_members d1 chat oa) ->
                     km_user_id km = user_id user -> km = member_row chat user true)
      /\ (forall c km, same_member chat (user_id user) km = false ->
            (In km (get_unchecked_known_members d1 c oa) <->
             In km (get_unchecked_known_members d c oa)))
      /\ profile_checks d1 = profile_checks d)
  /\ (let d2 := mark_left d chat (user_id user) in
      awaits_check d2 chat (user_id user) oa = false
      /\ (forall c km, same_member chat (user_id user) km = false ->
            (In km (get_unchecked_known_members d2 c oa) <->
             In km (get_unchecked_known_members d c oa)))
      /\ profile_checks d2 = profile_checks d).
Proof.
  split; [|split].
  - intros H0 b. unfold upsert_member. now rewrite H0.
  - intros Hid. cbv zeta. unfold upsert_member.
    replace (user_id user =? 0) with false by (symmetry; now apply Z.eqb_neq).
    fold (member_row chat user true).
    set (row := member_row chat user true).
    assert (Hrow : same_member chat (user_id user) row = true)
      by (apply same_member_eq; now split).
    destruct (existsb (same_member chat (user_id user)) (known_members d)) eqn:Eex;
      cbn [fst snd]; (split; [reflexivity|]).
    + (* the row is replaced *)
      assert (Hin : forall c km,
                 In km (get_unchecked_known_members
                          (with_known_members d
                             (map (fun km0 => if same_member chat (user_id user) km0
                                              then row else km0) (known_members d))) c oa) <->
                 (km = row /\ c = chat
                  /\ profile_checked d chat (user_id user) = false
                  /\ (negb oa || is_active_chat d chat) = true)
                 \/ (In km (get_unchecked_known_members d c oa)
                     /\ same_member chat (user_id user) km = false)).
      { intros c km. rewrite !unchecked_In.
        cbn [known_members with_known_members].
        change (profile_checked (with_known_members d ?l)) with (profile_checked d).
        change (is_active_chat (with_known_members d ?l)) with (is_active_chat d).
        rewrite In_map_replace, Eex. split.
        - intros [[[-> _]|[Hi Hs]] [Hc [Hm [Hp Ha]]]].
          + left. cbn [row member_row km_chat_id km_user_id] in *. subst c. auto.
          + right. tauto.
        - intros [[-> [-> [Hp Ha]]]|[[Hi [Hc [Hm [Hp Ha]]]] Hs]].
          + split; [left; now split|]. cbn. auto.
          + split; [right; now split|]. auto. }
      split; [|split; [|split; [|reflexivity]]].
      * destruct (negb (profile_checked d chat (user_id user)) &&
                  (negb oa || is_active_chat d chat)) eqn:Econd.
        -- apply awaits_check_In. exists row. split; [|reflexivity].
           apply Hin. left. apply andb_true_iff in Econd. destruct Econd as [Hp Ha].
           apply negb_true_iff in Hp. auto.
        -- destruct (awaits_check _ chat (user_id user) oa) eqn:Eaw; [|reflexivity].
           apply awaits_check_In in Eaw. destruct Eaw as [km [Hkm Hu]].
           apply Hin in Hkm. destruct Hkm as [[_ [_ [Hp Ha]]]|[Hkm Hs]].
           ++ rewrite Hp, Ha in Econd. discriminate.
           ++ apply unchecked_In in Hkm. destruct Hkm as [_ [Hc _]].
              assert (same_member chat (user_id user) km = true)
                by (apply same_member_eq; now split).
              congruence.
      * intros km Hkm Hu. apply Hin in Hkm. destruct Hkm as [[-> _]|[Hkm Hs]]; [reflexivity|].
        apply unchecked_In in Hkm. destruct Hkm as [_ [Hc _]].
        assert (same_member chat (user_id user) km = true)
          by (apply same_member_eq; now split).
        congruence.
      * intros c km Hs. rewrite Hin. split.
        -- intros [[-> _]|[H _]]; [congruence|exact H].
        -- intros H. right. now split.
    + (* a new row *)
      assert (Hnone : forall km, In km (known_members d) ->
                                 same_member chat (user_id user) km = false).
      { intros km Hi. destruct (same_member chat (user_id user) km) eqn:Es; [|reflexivity].
        assert (existsb (same_member chat (user_id user)) (known_members d) = true)
          by (apply existsb_exists; now exists km).
        congruence. }
      assert (Hin : forall c km,
                 In km (get_unchecked_known_members
                          (with_known_members d (known_members d ++ [row])) c oa) <->
                 (km = row /\ c = chat
                  /\ profile_checked d chat (user_id user) = false
                  /\ (negb oa || is_active_chat d chat) = true)
                 \/ In km (get_unchecked_known_members d c oa)).
      { intros c km. rewrite !unchecked_In.
        cbn [known_members with_known_members].
        change (profile_checked (with_known_members d ?l)) with (profile_checked d).
        change (is_active_chat (with_known_members d ?l)) with (is_active_chat d).
        rewrite in_app_iff. cbn [In]. split.
        - intros [[Hi|[<-|[]]] [Hc [Hm [Hp Ha]]]].
          + right. tauto.
          + left. cbn [row member_row km_chat_id km_user_id] in *. subst c. auto.
        - intros [[-> [-> [Hp Ha]]]|[Hi [Hc [Hm [Hp Ha]]]]].
          + split; [right; now left|]. cbn. auto.
          + split; [now left|]. auto. }
      split; [|split; [|split; [|reflexivity]]].
      * destruct (negb (profile_checked d chat (user_id user)) &&
                  (negb oa || is_active_chat d chat)) eqn:Econd.
        -- apply awaits_check_In. exists row. split; [|reflexivity].
           apply Hin. left. apply andb_true_iff in Econd. destruct Econd as [Hp Ha].
           apply negb_true_iff in Hp. auto.
        -- destruct (awaits_check _ chat (user_id user) oa) eqn:Eaw; [|reflexivity].
           apply awaits_check_In in Eaw. destruct Eaw as [km [Hkm Hu]].
           apply Hin in Hkm. destruct Hkm as [[_ [_ [Hp Ha]]]|Hkm].
           ++ rewrite Hp, Ha in Econd. discriminate.
           ++ apply unchecked_In in Hkm. destruct Hkm as [Hi [Hc _]].
              assert (same_member chat (user_id user) km = true)
                by (apply same_member_eq; now split).
              rewrite Hnone in H by exact Hi. discriminate.
      * intros km Hkm Hu. apply Hin in Hkm. destruct Hkm as [[-> _]|Hkm]; [reflexivity|].
        apply unchecked_In in Hkm. destruct Hkm as [Hi [Hc _]].
        assert (same_member chat (user_id user) km = true)
          by (apply same_member_eq; now split).
        rewrite Hnone in H by exact Hi. discriminate.
      * intros c km Hs. rewrite Hin. split.
        -- intros [[-> _]|H]; [congruence|exact H].
        -- intros H. now right.
  - cbv zeta. unfold mark_left.
    destruct (existsb (same_member chat (user_id user)) (known_members d)) eqn:Eex.
    + assert (Hin : forall c km,
                 In km (get_unchecked_known_members
                          (with_known_members d
                             (map (fun km0 => if same_member chat (user_id user) km0
                                              then {| km_chat_id := km_chat_id km0;
                                                      km_user_id := km_user_id km0;
                                                      km_username := km_username km0;
                                                      km_first_name := km_first_name km0;
                                                      km_last_name := km_last_name km0;
                                                      km_is_member := false |}
                                              else km0)
                                  (known_members d))) c oa) <->
                 In km (get_unchecked_known_members d c oa)
                 /\ same_member chat (user_id user) km = false).
      { intros c km. rewrite !unchecked_In.
        cbn [known_members with_known_members].
        change (profile_checked (with_known_members d ?l)) with (profile_checked d).
        change (is_active_chat (with_known_members d ?l)) with (is_active_chat d).
        rewrite in_map_iff. split.
        - intros [[km0 [Hk Hi]] [Hc [Hm [Hp Ha]]]].
          destruct (same_member chat (user_id user) km0) eqn:Es.
          + subst km. cbn in Hm. discriminate.
          + subst km0. tauto.
        - intros [[Hi [Hc [Hm [Hp Ha]]]] Hs]. split; [|auto].
          exists km. now rewrite Hs. }
      split; [|split; [|reflexivity]].
      * destruct (awaits_check _ chat (user_id user) oa) eqn:Eaw; [|reflexivity].
        apply awaits_check_In in Eaw. destruct Eaw as [km [Hkm Hu]].
        apply Hin in Hkm. destruct Hkm as [Hkm Hs].
        apply unchecked_In in Hkm. destruct Hkm as [_ [Hc _]].
        assert (same_member chat (user_id user) km = true)
          by (apply same_member_eq; now split).
        congruence.
      * intros c km Hs. rewrite Hin. tauto.
    + assert (Hnone : forall km, In km (known_members d) ->
                                 same_member chat (user_id user) km = false).
      { intros km Hi. destruct (same_member chat (user_id user) km) eqn:Es; [|reflexivity].
        assert (existsb (same_member chat (user_id user)) (known_members d) = true)
          by (apply existsb_exists; now exists km).
        congruence. }
      assert (Hin : forall c km,
                 In km (get_unchecked_known_members
                          (with_known_members d
                             (known_members d ++
                              [{| km_chat_id := chat; km_user_id := user_id user;
                                  km_username := None; km_first_name := None;
                                  km_last_name := None; km_is_member := false |}])) c oa) <->
                 In km (get_unchecked_known_members d c oa)).
      { intros c km. rewrite !unchecked_In.
        cbn [known_members with_known_members].
        change (profile_checked (with_known_members d ?l)) with (profile_checked d).
        change (is_active_chat (with_known_members d ?l)) with (is_active_chat d).
        rewrite in_app_iff. cbn [In]. split.
        - intros [[Hi|[<-|[]]] [Hc [Hm [Hp Ha]]]]; [tauto|]. cbn in Hm. discriminate.
        - intros [Hi H]. split; [now left|exact H]. }
      split; [|split; [|reflexivity]].
      * destruct (awaits_check _ chat (user_id user) oa) eqn:Eaw; [|reflexivity].
        apply awaits_check_In in Eaw. destruct Eaw as [km [Hkm Hu]].
        apply Hin in Hkm.
        apply unchecked_In in Hkm. destruct Hkm as [Hi [Hc _]].
        assert (same_member chat (user_id user) km = true)
          by (apply same_member_eq; now split).
        rewrite Hnone in H by exact Hi. discriminate.
      * intros c km _. apply Hin.
Qed.

Lemma known_members_tracking_witness :
  awaits_check (snd (upsert_member db_with_banned_avatar (-100) example_user true))
    (-100) 7 true = true.
Proof.
  destruct (known_members_tracking db_with_banned_avatar (-100) example_user true)
    as [_ [H _]].
  destruct H as [_ [H _]]; [discriminate|]. exact H.
Defined.




Lemma unban_no_active (d : Database) (ts : Q) (user : Z) (admin : option Z) :
  is_banned (snd (unban_user d ts user admin)) user = false.
Proof.
  unfold unban_user, is_banned.
  assert (H : existsb (active_ban_of user) (map (deactivate ts user) (banned_users d)) = false).
  { induction (banned_users d) as [|r rows IH]; [reflexivity|].
    cbn [map existsb]. rewrite IH, orb_false_r.
    unfold deactivate. destruct (active_ban_of user r) eqn:E; [|exact E].
    unfold active_ban_of. cbn. now rewrite andb_false_r. }
  destruct (0 <? _); cbn; exact H.
Qed.

Lemma unban_keeps_rows (d : Database) (ts : Q) (user u : Z) (admin : option Z) :
  has_registry_row (snd (unban_user d ts user admin)) u = has_registry_row d u.
Proof.
  unfold unban_user, has_registry_row.
  assert (H : existsb (fun r => bu_user_id r =? u) (map (deactivate ts user) (banned_users d)) =
              existsb (fun r => bu_user_id r =? u) (banned_users d)).
  { induction (banned_users d) as [|r rows IH]; [reflexivity|].
    cbn [map existsb]. rewrite IH. f_equal.
    unfold deactivate. now destruct (active_ban_of user r). }
  destruct (0 <? _); cbn; exact H.
Qed.

(** X11.  A user who has a row in the global-ban registry and is not
    actively banned cannot be banned through [ban_user]: the call answers
    [False] and the registry is as before.  In particular, once a banned
    user has been unbanned, a later [ban_user] for that user never takes
    effect, and the user stays not banned. *)
Theorem no_reban_after_unban (d : Database) (ts : Q) (user : Z) (admin : option Z)
    (reason : Reason) (admin2 : Z) (uname fname lname : option text) :
  (has_registry_row d user = true -> is_banned d user = false ->
   ban_user d user reason admin2 uname fname lname = (false, d))
  /\ (is_banned d user = true ->
      let d1 := snd (unban_user d ts user admin) in
      fst (unban_user d ts user admin) = true
      /\ is_banned d1 user = false
      /\ ban_user d1 user reason admin2 uname fname lname = (false, d1)
      /\ is_banned (snd (ban_user d1 user reason admin2 uname fname lname)) user = false).
Proof.
  assert (Hfirst : forall d0, has_registry_row d0 user = true ->
                              ban_user d0 user reason admin2 uname fname lname = (false, d0)).
  { intros d0 Hrow. unfold ban_user, has_registry_row in *. rewrite Hrow.
    now destruct (existsb (active_ban_of user) (banned_users d0)). }
  split; [intros Hrow _; now apply Hfirst|].
  intros Hb. cbv zeta.
  assert (Hrow : has_registry_row d user = true).
  { unfold is_banned, has_registry_row in *. apply existsb_exists in Hb.
    destruct Hb as [r [Hin Hr]]. apply existsb_exists. exists r. split; [exact Hin|].
    unfold active_ban_of in Hr. now apply andb_true_iff in Hr. }
  assert (Hrow1 : has_registry_row (snd (unban_user d ts user admin)) user = true)
    by (now rewrite unban_keeps_rows).
  split; [|split; [|split]].
  - unfold unban_user. rewrite filter_length_existsb. unfold is_banned in Hb.
    now rewrite Hb.
  - apply unban_no_active.
  - now apply Hfirst.
  - rewrite Hfirst by exact Hrow1. apply unban_no_active.
Qed.

Lemma no_reban_after_unban_witness :
  let d1 := snd (unban_user example_registry 9 7 (Some 1)) in
  fst (unban_user example_registry 9 7 (Some 1)) = true
  /\ is_banned d1 7 = false
  /\ ban_user d1 7 ReasonLink 1 None None None = (false, d1)
  /\ is_banned (snd (ban_user d1 7 ReasonLink 1 None None None)) 7 = false.
Proof.
  apply (proj2 (no_reban_after_unban example_registry 9 7 (Some 1) ReasonLink 1
                  None None None)).
  reflexivity.
Defined.

(** ** The rescan, once more *)

Lemma mark_all_keeps_members (members : list KnownMemberRow) (d : Database) (chat : Z) :
  known_members (mark_all d chat members) = known_members d
  /\ chat_settings (mark_all d chat members) = chat_settings d.
Proof.
  revert d. induction members as [|km rest IH]; intros d; [now split|].
  cbn [mark_all fold_left]. fold (mark_all (mark_user_profile_checked d chat (km_user_id km))
                                    chat rest).
  destruct (IH (mark_user_profile_checked d chat (km_user_id km))) as [H1 H2].
  rewrite H1, H2. unfold mark_user_profile_checked.
  now destruct (profile_checked d chat (km_user_id km)).
Qed.

Lemma filter_nil_iff {A : Type} (f : A -> bool) (l : list A) :
  (forall x, In x l -> f x = false) -> filter f l = [].
Proof.
  induction l as [|x l IH]; intros H; [reflexivity|].
  cbn [filter]. rewrite (H x) by now left. apply IH. intros y Hy. apply H. now right.
Qed.

Lemma active_after_set_status (d : Database) (chat : Z) (b : bool) :
  is_active_chat (set_chat_active_status d chat b) chat = b.
Proof.
  unfold set_chat_active_status. rewrite active_after_update by reflexivity.
  rewrite (existsb_ext_eqb _ (fun r => (cs_chat_id r =? chat) && b)).
  2:{ intros r. now destruct (cs_chat_id r =? chat). }
  rewrite existsb_and_const, has_row_get_or_create. reflexivity.
Qed.

Lemma set_chat_inactive_eq (d : Database) (chat : Z) :
  set_chat_inactive d chat = set_chat_active_status d chat false.
Proof.
  unfold set_chat_inactive, set_chat_active_status, update_chat_settings,
    get_or_create_chat, default_chat_settings.
  now destruct (find_chat_settings d chat).
Qed.

(** X12.  The rescan of a chat leaves nothing to rescan: once the job has
    gone through a chat in which the bot may act, the enumeration of that
    chat's unchecked members is empty, whatever the checks did and
    whichever platform calls failed.  When instead the lookup of the
    bot's own membership fails with "not found", the chat is set inactive
    without a single platform call, and the periodic enumeration of that
    chat is empty from then on. *)
Theorem rescan_leaves_nothing (R : Runtime) (cfg : Config) (P : Platform) (chat : Z)
    (w : World) :
  (fst (bot_may_scan P chat w) = Ret true ->
   get_unchecked_known_members (db (snd (rescan_chat R cfg P chat w))) chat true = [])
  /\ ((forall me, get_me P (events w) = Some me ->
                  get_chat_member P (events w) chat me = None) ->
      error_is_not_found P (events w) chat = true ->
      let r := rescan_chat R cfg P chat w in
      r = (Ret tt, with_db w (set_chat_inactive (db w) chat))
      /\ get_unchecked_known_members (db (snd r)) chat true = []).
Proof.
  split.
  - intros Hmay.
    destruct (rescan_chat_marks R cfg P chat w Hmay) as [_ [Hd _]]. rewrite Hd.
    set (todo := get_unchecked_known_members (db w) chat true).
    destruct (mark_all_keeps_members todo (db w) chat) as [Hk Hs].
    unfold get_unchecked_known_members at 1. rewrite Hk.
    apply filter_nil_iff. intros km Hin.
    destruct (km_chat_id km =? chat) eqn:Ec; [|reflexivity].
    destruct (km_is_member km) eqn:Em; [|reflexivity].
    cbn [andb negb orb].
    assert (Hact : is_active_chat (mark_all (db w) chat todo) chat = is_active_chat (db w) chat)
      by (unfold is_active_chat; now rewrite Hs).
    rewrite Hact.
    destruct (is_active_chat (db w) chat) eqn:Ea; [|now rewrite andb_false_r].
    rewrite andb_true_r. apply negb_false_iff.
    destruct (profile_checked (db w) chat (km_user_id km)) eqn:Ep.
    + now apply mark_all_mono.
    + apply mark_all_checked. unfold todo. apply unchecked_members_spec.
      apply Z.eqb_eq in Ec. auto.
  - intros Hfail Hnf. cbv zeta.
    assert (Hrun : rescan_chat R cfg P chat w =
                   (Ret tt, with_db w (set_chat_inactive (db w) chat))).
    { unfold rescan_chat, bot_may_scan. unfold_monad.
      destruct (get_me P (events w)) as [me|] eqn:Eme; cbn.
      - rewrite (Hfail me eq_refl). cbn. rewrite Hnf. reflexivity.
      - rewrite Hnf. reflexivity. }
    rewrite Hrun. split; [reflexivity|]. cbn [snd db with_db].
    rewrite set_chat_inactive_eq.
    unfold get_unchecked_known_members. apply filter_nil_iff. intros km _.
    rewrite active_after_set_status. now rewrite !andb_false_r.
Qed.

Lemma rescan_leaves_nothing_witness :
  get_unchecked_known_members
    (db (snd (rescan_chat example_runtime (config_py []) avatar_platform (-100)
                (world_of db_with_banned_avatar)))) (-100) true = []
  /\ get_unchecked_known_members
       (db (snd (rescan_chat example_runtime (config_py []) departed_platform (-100)
                   (world_of db_with_banned_avatar)))) (-100) true = [].
Proof.
  split.
  - apply (proj1 (rescan_leaves_nothing example_runtime (config_py []) avatar_platform
                    (-100) (world_of db_with_banned_avatar))).
    reflexivity.
  - apply (proj2 (rescan_leaves_nothing example_runtime (config_py []) departed_platform
                    (-100) (world_of db_with_banned_avatar))).
    + intros me _. reflexivity.
    + reflexivity.
Defined.

(** ** Capitals, and the ladder when the bot cannot mute *)

Lemma filter_length_le {A : Type} (f : A -> bool) (l : list A) :
  (length (filter f l) <= length l)%nat.
Proof.
  induction l as [|x l IH]; [cbn; lia|]. cbn. destruct (f x); cbn; lia.
Qed.

Lemma ladder_grows (R : Runtime) (cfg : Config) (P : Platform) (update : Update)
    (user : Z) (reason : Reason) (w : World) :
  exists l, events (snd (_issue_warning_and_mute_if_needed R cfg P update user reason w)) =
            events w ++ l.
Proof.
  assert (H : frame (emits_only (fun _ => true))
                (_issue_warning_and_mute_if_needed R cfg P update user reason)).
  { unfold _issue_warning_and_mute_if_needed. frame_auto; solve_emits. }
  destruct (H w) as [l [Hl _]]. now exists l.
Qed.

(** X13.  Capitals.  A message is flagged exactly when it is not empty
    and holds at least [CAPS_THRESHOLD] capital letters (Latin A-Z,
    Cyrillic U+0410..U+042F and U+0401); the check of the length that
    comes first never changes the verdict.  A message that is not flagged
    leaves the world untouched; for a flagged one the first thing done is
    the deletion of the message. *)
Theorem check_caps_criterion (R : Runtime) (cfg : Config) (P : Platform)
    (update : Update) (user : Z) (t : text) (w : World) :
  let count := Z.of_nat (length (filter is_caps_letter t)) in
  let r := _check_caps R cfg P update user t w in
  flagged (fst r) = nonempty t && (CAPS_THRESHOLD cfg <=? count)
  /\ (flagged (fst r) = false -> r = (Ret false, w))
  /\ (flagged (fst r) = true ->
      forall m, message update = Some m ->
        exists l, events (snd r) =
                  events w ++ DeleteMessage (chat_id m) (message_id m) :: l).
Proof.
  cbv zeta. unfold _check_caps.
  pose proof (filter_length_le is_caps_letter t) as Hle.
  destruct (nonempty t) eqn:Hne; cbn [negb orb andb].
  2:{ cbn. repeat split; intros; discriminate. }
  destruct (Z.of_nat (length t) <? CAPS_THRESHOLD cfg) eqn:Elen.
  { apply Z.ltb_lt in Elen.
    replace (CAPS_THRESHOLD cfg <=? Z.of_nat (length (filter is_caps_letter t))) with false
      by (symmetry; apply Z.leb_gt; lia).
    cbn. repeat split; intros; discriminate. }
  destruct (CAPS_THRESHOLD cfg <=? Z.of_nat (length (filter is_caps_letter t))) eqn:Ecount.
  2:{ cbn. repeat split; intros; discriminate. }
  assert (Hflag : forall w0 (m0 : M unit),
             flagged (fst (bind m0 (fun _ =>
               _issue_warning_and_mute_if_needed R cfg P update user ReasonCaps) w0)) = true
             \/ exists e, fst (m0 w0) = Raise e).
  { intros w0 m0. unfold bind. destruct (m0 w0) as [[[]|e] w1]; cbn.
    - left. apply flagged_ladder.
    - right. now exists e. }
  split; [|split].
  - destruct (message update) as [m|].
    + destruct (Hflag w (try_log (delete_message P m))) as [H|[e He]]; [exact H|].
      rewrite try_log_returns in He. discriminate.
    + cbn. apply flagged_ladder.
  - intros Hf. exfalso.
    destruct (message update) as [m|].
    + destruct (Hflag w (try_log (delete_message P m))) as [H|[e He]]; [congruence|].
      rewrite try_log_returns in He. discriminate.
    + cbn in Hf. rewrite flagged_ladder in Hf. discriminate.
  - intros _ m Hm. rewrite Hm.
    unfold bind. unfold delete_message. rewrite try_log_call.
    destruct (ladder_grows R cfg P update user ReasonCaps
                (with_events w (events w ++ [DeleteMessage (chat_id m) (message_id m)])))
      as [l Hl].
    exists l. rewrite Hl. cbn. now rewrite <- app_assoc.
Qed.

Lemma check_caps_criterion_witness :
  let t := [72; 69; 76; 76; 79; 87; 79; 82; 76; 68] in
  let w := world_of empty_db in
  exists l,
    events (snd (_check_caps example_runtime (config_py []) (example_platform 10)
                   (example_update 1 t) 7 t w)) =
    events w ++ DeleteMessage (-100) 1 :: l.
Proof.
  cbv zeta.
  apply (proj2 (proj2 (check_caps_criterion example_runtime (config_py [])
                         (example_platform 10)
                         (example_update 1 [72; 69; 76; 76; 79; 87; 79; 82; 76; 68]) 7
                         [72; 69; 76; 76; 79; 87; 79; 82; 76; 68] (world_of empty_db))))
    with (m := example_message 1 [72; 69; 76; 76; 79; 87; 79; 82; 76; 68]);
    reflexivity.
Defined.

Lemma db_put_entry (key : Z * Z) (e : TrackerEntry) (w : World) :
  db (put_entry key e w) = db w.
Proof. reflexivity. Qed.

Lemma db_ensure_entry (key : Z * Z) (w : World) : db (ensure_entry key w) = db w.
Proof. unfold ensure_entry. now destruct (dict_mem _ _ _). Qed.

(** X14.  The ladder at the limit when the bot cannot mute.  If the bot's
    own membership cannot be looked up, or shows no right to restrict,
    the violation is reported as handled although nothing is done: no
    call, no notice, no log row; the counter is not put back and keeps
    growing.  If the restriction call itself fails, the failed call is the
    only event and the counter is not put back either. *)
Theorem ladder_without_restrict_right (R : Runtime) (cfg : Config) (P : Platform)
    (update : Update) (chat user : Z) (reason : Reason) (w : World) :
  effective_chat update = Some chat ->
  MAX_WARNINGS cfg <= warnings (entry_of w (chat, user)) + 1 ->
  let r := _issue_warning_and_mute_if_needed R cfg P update user reason w in
  let mute := RestrictChatMember chat user PERMS_NO_MESSAGES (Some (mute_until cfg P)) in
  ((forall me member,
      get_me P (events w) = Some me ->
      get_chat_member P (events w) chat me = Some member ->
      getattr_can_restrict_members member = false) ->
   fst r = Ret true
   /\ events (snd r) = events w
   /\ db (snd r) = db w
   /\ warnings (entry_of (snd r) (chat, user)) = warnings (entry_of w (chat, user)) + 1)
  /\ (bot_can_restrict P (events w) chat ->
      call_fails P (events w) mute = true ->
      fst r = Ret true
      /\ events (snd r) = events w ++ [mute]
      /\ db (snd r) = db w
      /\ warnings (entry_of (snd r) (chat, user)) = warnings (entry_of w (chat, user)) + 1).
Proof.
  intros Hc Hge. cbv zeta.
  unfold _issue_warning_and_mute_if_needed. unfold_monad. rewrite Hc. simpl_world.
  replace (MAX_WARNINGS cfg <=? warnings (entry_of w (chat, user)) + 1) with true
    by (symmetry; apply Z.leb_le; lia).
  simpl_world. rewrite ?db_put_entry, ?db_ensure_entry. split.
  - intros Hno.
    destruct (get_me P (events w)) as [me|] eqn:Eme; simpl_world;
      rewrite ?db_put_entry, ?db_ensure_entry; [|auto].
    destruct (get_chat_member P (events w) chat me) as [member|] eqn:Emem; simpl_world;
      rewrite ?db_put_entry, ?db_ensure_entry; [|auto].
    rewrite (Hno me member eq_refl Emem). simpl_world.
    rewrite ?db_put_entry, ?db_ensure_entry. auto.
  - intros [me [Hme Hmember]] Hfail.
    rewrite Hme. simpl_world. rewrite Hmember. simpl_world. rewrite Hfail. simpl_world.
    rewrite ?db_put_entry, ?db_ensure_entry. auto.
Qed.

Lemma ladder_without_restrict_right_witness :
  let cfg := config_py [] in
  let w := world_of empty_db in
  let update := example_update 1 [104; 105] in
  let w1 := snd (_issue_warning_and_mute_if_needed example_runtime cfg departed_platform
                   update 7 ReasonCaps w) in
  let r := _issue_warning_and_mute_if_needed example_runtime cfg departed_platform
             update 7 ReasonCaps w1 in
  fst r = Ret true
  /\ events (snd r) = events w1
  /\ db (snd r) = db w1
  /\ warnings (entry_of (snd r) (-100, 7)) = warnings (entry_of w1 (-100, 7)) + 1.
Proof.
  cbv zeta.
  refine (proj1 (ladder_without_restrict_right example_runtime (config_py []) departed_platform
                   (example_update 1 [104; 105]) (-100) 7 ReasonCaps
                   (snd (_issue_warning_and_mute_if_needed example_runtime (config_py [])
                           departed_platform (example_update 1 [104; 105]) 7 ReasonCaps
                           (world_of empty_db)))
                   eq_refl _) _).
  - vm_compute. intro H. discriminate H.
  - intros me member _ H. vm_compute in H. discriminate H.
Defined.

(** ** The size of the tracker *)

Lemma keys_dict_set {V : Type} (k : Z * Z) (v : V) (d : dict (Z * Z) V) :
  map fst (dict_set key_eqb k v d) =
  if dict_mem key_eqb k d then map fst d else map fst d ++ [k].
Proof.
  unfold dict_mem. induction d as [|[k' v'] d IH]; [reflexivity|].
  cbn [dict_set dict_get]. destruct (key_eqb k k') eqn:E; [reflexivity|].
  cbn [map fst]. rewrite IH. now destruct (dict_get key_eqb k d).
Qed.

Lemma mem_dict_set {V : Type} (k : Z * Z) (v : V) (d : dict (Z * Z) V) :
  dict_mem key_eqb k (dict_set key_eqb k v d) = true.
Proof.
  unfold dict_mem. now rewrite (@dict_get_set_same (Z * Z) _ key_eqb key_eqb_eq).
Qed.

#[local] Instance keeps_tracked_frame (key : Z * Z) : FrameRel (keeps_tracked key).
Proof.
  split.
  - intros w H. now split.
  - intros w1 w2 w3 H12 H23 H. destruct (H12 H) as [Hk Hm].
    destruct (H23 Hm) as [Hk2 Hm2]. split; [congruence|exact Hm2].
Qed.

Lemma keeps_tracked_put (key : Z * Z) (e : TrackerEntry) (w : World) :
  keeps_tracked key w (put_entry key e w).
Proof.
  intros H. unfold tracked, tracker_keys, put_entry in *.
  cbn [user_moderation_tracker with_tracker].
  rewrite keys_dict_set, H, mem_dict_set. now split.
Qed.

Lemma keeps_tracked_ensure (key : Z * Z) (w : World) :
  keeps_tracked key w (ensure_entry key w).
Proof.
  intros H. unfold tracked, ensure_entry in *. rewrite H. now split.
Qed.

Lemma keeps_tracked_same (key : Z * Z) (w w' : World) :
  user_moderation_tracker w' = user_moderation_tracker w -> keeps_tracked key w w'.
Proof.
  intros Heq H. unfold tracked, tracker_keys in *. rewrite Heq. now split.
Qed.

Lemma bind_ret_l {A B : Type} (a : A) (k : A -> M B) : bind (ret a) k = k a.
Proof. reflexivity. Qed.

Ltac solve_tracked :=
  first [ apply keeps_tracked_put
        | apply keeps_tracked_ensure
        | apply keeps_tracked_same; reflexivity ].

Lemma ladder_keeps_tracked (R : Runtime) (cfg : Config) (P : Platform) (update : Update)
    (chat user : Z) (reason : Reason) :
  effective_chat update = Some chat ->
  frame (keeps_tracked (chat, user))
        (_issue_warning_and_mute_if_needed R cfg P update user reason).
Proof.
  intros Hc. unfold _issue_warning_and_mute_if_needed, effective_chat_id.
  rewrite Hc, bind_ret_l. cbv zeta.
  frame_auto; solve_tracked.
Qed.

Lemma tracked_tl_absent (key : Z * Z) (w : World) :
  tracked w key = false ->
  dict_mem key_eqb key (tl (user_moderation_tracker w)) = false.
Proof.
  unfold tracked, dict_mem. destruct (user_moderation_tracker w) as [|[k v] d]; [auto|].
  cbn [tl dict_get]. destruct (key_eqb key k); [discriminate|auto].
Qed.

(** X15.  The size of the moderation tracker under the flood check.  A
    run of [_check_spam] on a non-empty text leaves the tracker with the
    pairs it had, less the oldest one when there were more than
    [MAX_HISTORY_USERS] and the sender's pair was new, plus the sender's
    pair when it was new; whatever the warning ladder does afterwards
    adds or removes no pair.  So a tracker of at most
    [MAX_HISTORY_USERS + 1] pairs stays within that bound, and the
    sender's pair is never the one evicted. *)
Theorem check_spam_tracker_bound (R : Runtime) (cfg : Config) (P : Platform)
    (update : Update) (chat user : Z) (t : text) (w : World) :
  nonempty t = true ->
  effective_chat update = Some chat ->
  let w' := snd (_check_spam R cfg P update user t w) in
  let key := (chat, user) in
  let keys := tracker_keys w in
  let evict := (MAX_HISTORY_USERS <? Z.of_nat (length keys)) && negb (tracked w key) in
  tracker_keys w' =
    (if evict then tl keys else keys) ++ (if tracked w key then [] else [key])
  /\ tracked w' key = true
  /\ (Z.of_nat (length keys) <= MAX_HISTORY_USERS + 1 ->
      Z.of_nat (length (tracker_keys w')) <= MAX_HISTORY_USERS + 1).
Proof.
  intros Ht Hc. cbv zeta.
  set (key := (chat, user)).
  set (w1 := ensure_entry key (evicted key w)).
  assert (Hkeys1 : tracker_keys w1 =
            (if (MAX_HISTORY_USERS <? Z.of_nat (length (tracker_keys w))) &&
                negb (tracked w key)
             then tl (tracker_keys w) else tracker_keys w) ++
            (if tracked w key then [] else [key])
          /\ tracked w1 key = true).
  { unfold w1, ensure_entry, evicted, tracker_keys, tracked.
    rewrite length_map.
    destruct (dict_mem key_eqb key (user_moderation_tracker w)) eqn:Emem.
    - rewrite andb_false_r. rewrite Emem. now rewrite app_nil_r.
    - rewrite andb_true_r.
      destruct (MAX_HISTORY_USERS <? Z.of_nat (length (user_moderation_tracker w))).
      + cbn [user_moderation_tracker with_tracker].
        rewrite (tracked_tl_absent key w Emem).
        cbn [user_moderation_tracker with_tracker].
        rewrite keys_dict_set, (tracked_tl_absent key w Emem), mem_dict_set.
        split; [|reflexivity]. f_equal. now destruct (user_moderation_tracker w).
      + rewrite Emem. cbn [user_moderation_tracker with_tracker].
        rewrite keys_dict_set, Emem, mem_dict_set. now split. }
  destruct Hkeys1 as [Hkeys1 Hmem1].
  assert (Hrest : tracker_keys (snd (_check_spam R cfg P update user t w)) = tracker_keys w1
                  /\ tracked (snd (_check_spam R cfg P update user t w)) key = true).
  { unfold _check_spam. rewrite Ht. cbn [negb]. unfold effective_chat_id.
    rewrite Hc, bind_ret_l. cbv zeta. fold key.
    unfold evict_oldest, tracker_setdefault.
    match goal with
    | |- context [bind (modify (evicted key)) (fun _ => bind (modify (ensure_entry key)) ?k)] =>
        change (bind (modify (evicted key)) (fun _ => bind (modify (ensure_entry key)) k) w)
          with (k tt w1);
        assert (Hframe : frame (keeps_tracked key) (k tt))
    end.
    { cbv beta. frame_auto; try solve_tracked.
      apply ladder_keeps_tracked. exact Hc. }
    exact (Hframe w1 Hmem1). }
  destruct Hrest as [Hk Hm]. rewrite Hk, Hkeys1.
  split; [reflexivity|]. split; [exact Hm|].
  intros Hlen. rewrite length_app.
  destruct (tracked w key) eqn:Emem; cbn [negb].
  - rewrite andb_false_r. cbn [length]. lia.
  - rewrite andb_true_r.
    destruct (MAX_HISTORY_USERS <? Z.of_nat (length (tracker_keys w))) eqn:Efull.
    + apply Z.ltb_lt in Efull. unfold MAX_HISTORY_USERS in *.
      destruct (tracker_keys w); cbn [tl length] in *; lia.
    + apply Z.ltb_ge in Efull. cbn [length]. lia.
Qed.

Lemma check_spam_tracker_bound_witness :
  tracker_keys (snd (_check_spam example_runtime (config_py []) (example_platform 10)
                       (example_update 1 [104; 105]) 7 [104; 105] (world_of empty_db))) =
  [(-100, 7)].
Proof.
  apply (proj1 (check_spam_tracker_bound example_runtime (config_py []) (example_platform 10)
                  (example_update 1 [104; 105]) (-100) 7 [104; 105] (world_of empty_db)
                  eq_refl eq_refl)).
Defined.

(** ** The order of the checks on a message *)

Lemma exempt_same_events (cfg : Config) (P : Platform) (chat user : Z) (w w' : World)
    (b : bool) :
  events w' = events w ->
  sender_is_exempt_admin cfg P chat user w = (Ret b, w) ->
  sender_is_exempt_admin cfg P chat user w' = (Ret b, w').
Proof.
  intros He. unfold sender_is_exempt_admin. unfold_monad.
  destruct (MODERATE_ADMINS cfg); [intros H; now inversion H|].
  rewrite He. destruct (get_chat_member P (events w) chat user) as [member|];
    intros H; now inversion H.
Qed.

Lemma exempt_admin_run (cfg : Config) (P : Platform) (chat user : Z) (w : World)
    (member : ChatMember) :
  MODERATE_ADMINS cfg = false ->
  get_chat_member P (events w) chat user = Some member ->
  sender_is_exempt_admin cfg P chat user w = (Ret (is_chat_admin member), w).
Proof.
  intros Hcfg Hm. unfold sender_is_exempt_admin. unfold_monad. now rewrite Hcfg, Hm.
Qed.

Lemma exempt_returns (cfg : Config) (P : Platform) (chat user : Z) (w : World) :
  exists b, sender_is_exempt_admin cfg P chat user w = (Ret b, w).
Proof.
  unfold sender_is_exempt_admin. unfold_monad.
  destruct (MODERATE_ADMINS cfg); [now exists false|].
  destruct (get_chat_member P (events w) chat user) as [member|]; eauto.
Qed.

Lemma check_user_message_head (R : Runtime) (cfg : Config) (P : Platform)
    (update : Update) (m : Message) (user : User) (w : World) (b : bool) :
  message update = Some m ->
  from_user m = Some user ->
  sender_is_exempt_admin cfg P (chat_id m) (user_id user) w = (Ret b, w) ->
  let w1 := snd (add_user_message_id (chat_id m) (user_id user) (message_id m) w) in
  check_user_message R cfg P update w =
  (if b then ret tt
   else if is_bot user && negb (MODERATE_BOTS cfg) then ret tt
   else
     let message_text := message_text_of m in
     w <- get_world ;;
     if is_banned (db w) (user_id user) then reban_globally_banned P (chat_id m) user
     else if is_whitelisted (db w) (chat_id m) (user_id user) then ret tt
     else
       handled <- _check_bot_mimicking R cfg P update (user_id user) message_text ;;
       if handled then ret tt
       else if is_public_forward m then ban_for_forward R cfg P (chat_id m) user
       else
         handled <- _check_spam R cfg P update (user_id user) message_text ;;
         if handled then ret tt
         else
           handled <- _check_caps R cfg P update (user_id user) message_text ;;
           if handled then ret tt
           else if is_zalgo R cfg message_text then
             try_log (delete_message P m) ;;
             _handle_zalgo_violation R P update user (chat_id m) false
           else
             w <- get_world ;;
             if has_link R m message_text && is_link_deletion_enabled (db w) (chat_id m)
             then ban_for_link cfg P m (chat_id m) user
             else if negb (nonempty message_text) then ret tt
             else
               match first_banned_word (get_chat_ban_words (db w) (chat_id m))
                                       (normalize_text R message_text) with
               | Some word =>
                   try_log (delete_message P m) ;;
                   _ban_for_word R cfg P update user (chat_id m) word
                     (match edited_message update with Some _ => true | None => false end) ;;
                   raise ApplicationHandlerStop
               | None => ret tt
               end)%py w1.
Proof.
  intros Hm Hu Hex. cbv zeta.
  unfold check_user_message, effective_chat, effective_user, effective_message.
  rewrite Hm. cbn [option_map]. rewrite Hu.
  unfold bind at 1.
  change (add_user_message_id (chat_id m) (user_id user) (message_id m) w) with
    (Ret tt, snd (add_user_message_id (chat_id m) (user_id user) (message_id m) w)).
  cbv iota beta.
  unfold bind at 1.
  rewrite (exempt_same_events cfg P (chat_id m) (user_id user) w
             (snd (add_user_message_id (chat_id m) (user_id user) (message_id m) w))
             b eq_refl Hex).
  reflexivity.
Qed.

(** X16.  Senders the message checks let off.  With [MODERATE_ADMINS]
    off, a message of a chat administrator or owner only has its id
    remembered; nothing is looked at, so this holds even for an
    administrator in the global-ban registry and whatever the message
    holds.  With [MODERATE_BOTS] off the same goes for a message of a
    bot.  An edited message of a chat administrator leaves the world as
    it was. *)
Theorem exempt_senders (R : Runtime) (cfg : Config) (P : Platform) (update : Update)
    (w : World) :
  (forall m user member,
     message update = Some m ->
     from_user m = Some user ->
     MODERATE_ADMINS cfg = false ->
     get_chat_member P (events w) (chat_id m) (user_id user) = Some member ->
     is_chat_admin member = true ->
     check_user_message R cfg P update w =
     add_user_message_id (chat_id m) (user_id user) (message_id m) w)
  /\ (forall m user,
        message update = Some m ->
        from_user m = Some user ->
        is_bot user = true ->
        MODERATE_BOTS cfg = false ->
        check_user_message R cfg P update w =
        add_user_message_id (chat_id m) (user_id user) (message_id m) w)
  /\ (forall em user member,
        edited_message update = Some em ->
        from_user em = Some user ->
        MODERATE_ADMINS cfg = false ->
        get_chat_member P (events w) (chat_id em) (user_id user) = Some member ->
        is_chat_admin member = true ->
        handle_edited_message R cfg P update w = (Ret tt, w)).
Proof.
  split; [|split].
  - intros m user member Hm Hu Hcfg Hmem Hadmin.
    pose proof (exempt_admin_run cfg P (chat_id m) (user_id user) w member Hcfg Hmem) as Hex.
    rewrite Hadmin in Hex.
    rewrite (check_user_message_head R cfg P update m user w true Hm Hu Hex).
    reflexivity.
  - intros m user Hm Hu Hbot Hcfg.
    destruct (exempt_returns cfg P (chat_id m) (user_id user) w) as [b Hex].
    rewrite (check_user_message_head R cfg P update m user w b Hm Hu Hex).
    rewrite Hbot, Hcfg. destruct b; reflexivity.
  - intros em user member Hem Hu Hcfg Hmem Hadmin.
    unfold handle_edited_message. rewrite Hem, Hu.
    destruct (truthy (msg_text em)); cbn [negb]; [|reflexivity].
    destruct (chat_type em); try reflexivity;
      unfold bind at 1;
      rewrite (exempt_admin_run cfg P (chat_id em) (user_id user) w member Hcfg Hmem), Hadmin;
      reflexivity.
Qed.

Lemma In_cached_after_add (chat user msg : Z) (w : World) :
  In msg (cached_ids (snd (add_user_message_id chat user msg w)) chat user).
Proof.
  rewrite cached_ids_add_same. cbv zeta.
  destruct (USER_MESSAGE_CACHE_SIZE <? length (cached_ids w chat user ++ [msg]))%nat eqn:E.
  - destruct (cached_ids w chat user) as [|x old]; cbn [app tl].
    + cbn in E. discriminate.
    + apply in_or_app. right. now left.
  - apply in_or_app. right. now left.
Qed.

(** X17.  The global ban comes before the whitelist.  A sender with an
    active row in the global-ban registry, not let off as administrator
    or bot, is banned from the chat again whether or not the chat
    whitelists the sender and whatever the message holds: the cached ids,
    the id of this very message among them, are purged, the ban call is
    issued, and the handlers that follow are stopped. *)
Theorem global_ban_overrides_whitelist (R : Runtime) (cfg : Config) (P : Platform)
    (update : Update) (m : Message) (user : User) (w : World) :
  message update = Some m ->
  from_user m = Some user ->
  not_exempt cfg P w (chat_id m) (user_id user) ->
  is_bot user && negb (MODERATE_BOTS cfg) = false ->
  is_banned (db w) (user_id user) = true ->
  let r := check_user_message R cfg P update w in
  fst r = Raise ApplicationHandlerStop
  /\ exists ids dels,
       emitted (check_user_message R cfg P update) w =
         CachePop (chat_id m) (user_id user) ids
           :: dels ++ [BanChatMember (chat_id m) (user_id user) true]
       /\ In (message_id m) ids
       /\ forallb is_bulk_delete dels = true.
Proof.
  intros Hm Hu Hex Hbot Hban. cbv zeta.
  assert (Hrun : check_user_message R cfg P update w =
                 reban_globally_banned P (chat_id m) user
                   (snd (add_user_message_id (chat_id m) (user_id user) (message_id m) w))).
  { rewrite (check_user_message_head R cfg P update m user w false Hm Hu Hex).
    cbv zeta. rewrite Hbot. rewrite bind_get_world.
    change (db (snd (add_user_message_id (chat_id m) (user_id user) (message_id m) w)))
      with (db w).
    now rewrite Hban. }
  set (w1 := snd (add_user_message_id (chat_id m) (user_id user) (message_id m) w)) in *.
  destruct (reban_order P (chat_id m) user w1) as [dels [Hev Hdels]].
  split.
  - rewrite Hrun. unfold reban_globally_banned.
    unfold bind at 1.
    destruct (try_log (delete_cached_messages P (chat_id m) (user_id user)) w1)
      as [[[]|e] w2] eqn:E1.
    + unfold bind at 1.
      match goal with
      | |- fst (match ?x with _ => _ end) = _ =>
          pose proof (try_log_returns
            (call P (BanChatMember (chat_id m) (user_id user) true) ;; raise UnboundLocalError)%py
            w2) as H2;
          destruct x as [[[]|e] w3]; [reflexivity|discriminate]
      end.
    + pose proof (try_log_returns (delete_cached_messages P (chat_id m) (user_id user)) w1) as H1.
      rewrite E1 in H1. discriminate.
  - exists (cached_ids w1 (chat_id m) (user_id user)), dels.
    split; [|split; [apply In_cached_after_add|exact Hdels]].
    apply emitted_app. rewrite Hrun. exact Hev.
Qed.

Lemma exempt_senders_witness :
  events (snd (check_user_message example_runtime (config_py []) owner_platform
                 (example_update 1 [115; 112; 97; 109]) (world_of db_with_ban_word))) = []
  /\ cached_ids (snd (check_user_message example_runtime (config_py []) owner_platform
                        (example_update 1 [115; 112; 97; 109]) (world_of db_with_ban_word)))
       (-100) 7 = [1].
Proof.
  rewrite (proj1 (exempt_senders example_runtime (config_py []) owner_platform
                    (example_update 1 [115; 112; 97; 109]) (world_of db_with_ban_word))
             (example_message 1 [115; 112; 97; 109]) example_user OWNER
             eq_refl eq_refl eq_refl eq_refl eq_refl).
  split; reflexivity.
Defined.

Lemma global_ban_overrides_whitelist_witness :
  let r := check_user_message example_runtime (config_py []) (example_platform 10)
             (example_update 1 [104; 105]) (world_of db_banned_and_whitelisted) in
  fst r = Raise ApplicationHandlerStop
  /\ exists ids dels,
       emitted (check_user_message example_runtime (config_py []) (example_platform 10)
                  (example_update 1 [104; 105])) (world_of db_banned_and_whitelisted) =
         CachePop (-100) 7 ids :: dels ++ [BanChatMember (-100) 7 true]
       /\ In 1 ids
       /\ forallb is_bulk_delete dels = true.
Proof.
  apply (global_ban_overrides_whitelist example_runtime (config_py []) (example_platform 10)
           (example_update 1 [104; 105]) (example_message 1 [104; 105]) example_user
           (world_of db_banned_and_whitelisted)); reflexivity.
Defined.







Lemma add_user_message_id_spec_witness :
  cached_ids (snd (add_user_message_id (-100) 7 14 world_with_cached_ids)) (-100) 8 = [21]
  /\ (length (cached_ids (snd (add_user_message_id (-100) 7 14 world_with_cached_ids))
                (-100) 7) <= USER_MESSAGE_CACHE_SIZE)%nat.
Proof.
  destruct (add_user_message_id_spec (-100) 7 14 world_with_cached_ids)
    as [_ [_ [_ [Hlen [Hother _]]]]].
  split.
  - rewrite Hother by discriminate. reflexivity.
  - apply Hlen. apply Nat.leb_le. reflexivity.
Defined.

(** ** The profile checks *)

Lemma delete_cached_messages_exact (P : Platform) (chat user : Z) (w : World) :
  delete_cached_messages P chat user w =
  (Ret tt, with_events (pop_cached chat user w)
             (events w ++ purge_events chat user (cached_ids w chat user))).
Proof.
  unfold delete_cached_messages, purge_events. unfold_monad. cbn.
  assert (He : events (pop_cached chat user w) = events w)
    by (unfold pop_cached; now destruct (dict_get _ _ _)).
  rewrite He.
  destruct (cached_ids w chat user) as [|i ids'] eqn:Eids.
  - cbn. reflexivity.
  - rewrite delete_chunks_run. cbn. now rewrite <- app_assoc.
Qed.

Lemma try_bind_send {A : Type} (P : Platform) (chat : Z) (n : Notice)
    (k : Z * text -> M A) (h : Exn -> M A) (w : World) :
  try_except (bind (send_message P chat n) k) h w =
  if call_fails P (events w) (SendMessage chat n)
  then h TelegramError (with_events w (events w ++ [SendMessage chat n]))
  else try_except (k (sent_message_id P (events w), sent_text P n)) h
         (with_events w (events w ++ [SendMessage chat n])).
Proof.
  unfold try_except, bind, send_message, call.
  now destruct (call_fails P (events w) (SendMessage chat n)).
Qed.

(** X19.  The ban for a profile violation answers truthfully, and never
    raises.  After the purge of the user's cached ids the ban call is
    issued.  If it fails, the answer is [False] and nothing more is done.
    If it goes through but the notice to the chat fails, the answer is
    [False] as well, although the user is banned.  The answer [True]
    means that the ban call and the notice both went through. *)
Theorem profile_ban_result (cfg : Config) (P : Platform) (chat user : Z)
    (reason : ProfileReason) (w : World) :
  let r := _ban_for_profile_violation cfg P chat user reason w in
  let out := emitted (_ban_for_profile_violation cfg P chat user reason) w in
  let pre := purge_events chat user (cached_ids w chat user) in
  let ban := BanChatMember chat user true in
  let notice := SendMessage chat (BanNotice user (ReasonProfile reason)) in
  (exists b, fst r = Ret b)
  /\ (call_fails P (events w ++ pre) ban = true ->
      fst r = Ret false /\ out = pre ++ [ban])
  /\ (call_fails P (events w ++ pre) ban = false ->
      call_fails P (events w ++ pre ++ [ban]) notice = true ->
      fst r = Ret false /\ out = pre ++ [ban; notice])
  /\ (fst r = Ret true ->
      call_fails P (events w ++ pre) ban = false
      /\ call_fails P (events w ++ pre ++ [ban]) notice = false
      /\ exists post, out = pre ++ ban :: notice :: post /\ forallb is_notice post = true).
Proof.
  cbv zeta.
  set (pre := purge_events chat user (cached_ids w chat user)).
  set (ban := BanChatMember chat user true).
  set (notice := SendMessage chat (BanNotice user (ReasonProfile reason))).
  split; [apply ban_for_profile_returns|].
  assert (Hcases :
    (call_fails P (events w ++ pre) ban = true /\
     fst (_ban_for_profile_violation cfg P chat user reason w) = Ret false /\
     events (snd (_ban_for_profile_violation cfg P chat user reason w)) =
       events w ++ pre ++ [ban])
    \/ (call_fails P (events w ++ pre) ban = false /\
        call_fails P (events w ++ pre ++ [ban]) notice = true /\
        fst (_ban_for_profile_violation cfg P chat user reason w) = Ret false /\
        events (snd (_ban_for_profile_violation cfg P chat user reason w)) =
          events w ++ pre ++ [ban; notice])
    \/ (call_fails P (events w ++ pre) ban = false /\
        call_fails P (events w ++ pre ++ [ban]) notice = false /\
        exists post,
          events (snd (_ban_for_profile_violation cfg P chat user reason w)) =
            events w ++ pre ++ ban :: notice :: post
          /\ forallb is_notice post = true)).
  { unfold _ban_for_profile_violation.
    destruct (member_lookup_run P chat user w) as [b Hb].
    erewrite try_bind_ret by exact Hb.
    erewrite try_bind_ret by apply delete_cached_messages_exact.
    fold pre. rewrite try_bind_call.
    cbn [events with_events]. fold ban.
    destruct (call_fails P (events w ++ pre) ban) eqn:Eban.
    - left. split; [reflexivity|]. split; [reflexivity|].
      cbn [snd ret events with_events]. now rewrite <- app_assoc.
    - right. rewrite try_bind_send.
      cbn [events with_events]. fold notice. rewrite <- app_assoc.
      destruct (call_fails P (events w ++ pre ++ [ban]) notice) eqn:Enotice.
      + left. split; [reflexivity|]. split; [reflexivity|]. split; [reflexivity|].
        cbn [snd ret events with_events]. now rewrite <- !app_assoc.
      + right. split; [reflexivity|]. split; [reflexivity|].
        match goal with
        | |- context [try_except ?m ?h ?w0] =>
            assert (Hframe : frame (emits_only is_notice) (try_except m h));
            [|destruct (Hframe w0) as [post [Hpost Hp]]; exists post;
              split; [|exact Hp]; rewrite Hpost; cbn [events with_events];
              rewrite <- !app_assoc; reflexivity]
        end.
        frame_auto; solve_emits. apply propose_global_ban_notices. }
  split; [|split].
  - intros Hfail. destruct Hcases as [[_ [Hf He]]|[[H _]|[H _]]]; try congruence.
    split; [exact Hf|]. apply emitted_app. exact He.
  - intros Hok Hfail. destruct Hcases as [[H _]|[[_ [_ [Hf He]]]|[_ [H _]]]]; try congruence.
    split; [exact Hf|]. apply emitted_app. exact He.
  - intros Htrue.
    destruct Hcases as [[_ [Hf _]]|[[_ [_ [Hf _]]]|[Hb [Hn [post [He Hp]]]]]]; try congruence.
    split; [exact Hb|]. split; [exact Hn|].
    exists post. split; [|exact Hp]. apply emitted_app. exact He.
Qed.

Lemma profile_ban_result_witness :
  exists post,
    emitted (_ban_for_profile_violation (config_py []) (example_platform 10) (-100) 7
               AvatarExact) world_with_cached_ids =
      purge_events (-100) 7 [11; 12; 13]
        ++ BanChatMember (-100) 7 true
        :: SendMessage (-100) (BanNotice 7 (ReasonProfile AvatarExact)) :: post
    /\ forallb is_notice post = true.
Proof.
  apply (proj2 (proj2 (proj2 (proj2 (proj2
           (profile_ban_result (config_py []) (example_platform 10) (-100) 7 AvatarExact
              world_with_cached_ids))) eq_refl))).
Defined.

Section Cooldown.
Variable X : Type.
Variable f : World -> X.
Hypothesis f_events : forall w l, f (with_events w l) = f w.
Hypothesis f_message_ids : forall w c, f (with_message_ids w c) = f w.
Hypothesis f_phashes : forall w c, f (with_phashes w c) = f w.
Variable R : Runtime.
Variable cfg : Config.
Variable P : Platform.

Lemma moderate_bio_link_keeps_any (chat user : Z) (bio : text) (update : option Update) :
  frame (keeps f) (moderate_bio_link cfg P chat user bio update).
Proof.
  unfold moderate_bio_link, can_restrict_members_attr.
  frame_auto; try (unfold keeps; rewrite ?f_events; reflexivity);
    first [now apply delete_cached_messages_keeps | now apply notify_admins_keeps].
Qed.

Lemma check_user_bio_keeps_any (chat user : Z) (update : option Update) (w : World) :
  f (snd (try_except (
      bio <- query (fun h => get_chat P h user) ;;
      if negb (truthy bio) then ret false
      else
        let bio := text_or_empty bio in
        w <- get_world ;;
        if is_link_deletion_enabled (db w) chat && link_in_bio_search R (str_lower R bio)
        then moderate_bio_link cfg P chat user bio update
        else
          match first_banned_word (get_ban_bio_words (db w) chat) (normalize_text R bio) with
          | Some word =>
              delete_context_message P update ;;
              _ban_for_profile_violation cfg P chat user (BioWord word)
          | None => ret false
          end)%py
      (fun _ => ret false) w)) = f w.
Proof.
  match goal with
  | |- f (snd (?m w)) = f w => assert (H : frame (keeps f) m); [|exact (H w)]
  end.
  unfold delete_context_message.
  frame_auto; try (unfold keeps; rewrite ?f_events; reflexivity);
    first [now apply moderate_bio_link_keeps_any | now apply ban_for_profile_keeps].
Qed.

Lemma check_user_avatar_keeps_any (chat user : Z) (update : option Update) (w : World) :
  f (snd (try_except (
      photo <- query (fun h => get_user_profile_photos P h user) ;;
      match photo with
      | None => ret false
      | Some current_avatar_id =>
          w <- get_world ;;
          if is_avatar_banned (db w) current_avatar_id then
            delete_context_message P update ;;
            _ban_for_profile_violation cfg P chat user AvatarExact
          else
            current_phash <-
              match dict_get text_eqb current_avatar_id (user_avatar_phash_cache w) with
              | Some h => ret (Some h)
              | None =>
                  h <- query (fun _ => fetch_phash P current_avatar_id) ;;
                  match h with
                  | Some hh =>
                      if nonempty hh then
                        modify (fun w => with_phashes w
                          (dict_set text_eqb current_avatar_id hh (user_avatar_phash_cache w))) ;;
                        ret h
                      else ret h
                  | None => ret h
                  end
              end ;;
            match current_phash with
            | None => ret false
            | Some cur =>
                if negb (nonempty cur) then ret false
                else
                  w <- get_world ;;
                  if first_similar cfg P cur (get_all_banned_avatar_hashes (db w)) then
                    delete_context_message P update ;;
                    _ban_for_profile_violation cfg P chat user AvatarSimilar
                  else ret false
            end
      end)%py
      (fun _ => ret false) w)) = f w.
Proof.
  match goal with
  | |- f (snd (?m w)) = f w => assert (H : frame (keeps f) m); [|exact (H w)]
  end.
  unfold delete_context_message.
  frame_auto; try (unfold keeps; rewrite ?f_events, ?f_phashes; reflexivity);
    now apply ban_for_profile_keeps.
Qed.
End Cooldown.

Lemma in_cooldown_recent (P : Platform) (cooldown t : Q) :
  (~ t == 0)%Q -> (now P - t < cooldown)%Q -> in_cooldown P cooldown (Some t) = true.
Proof.
  intros Hne Hlt. unfold in_cooldown.
  destruct (Qeq_bool t 0) eqn:E0; [apply Qeq_bool_iff in E0; contradiction|].
  destruct (Qle_bool cooldown (now P - t)) eqn:E1; [|reflexivity].
  apply Qle_bool_iff in E1. exfalso. apply (Qlt_not_le _ _ Hlt E1).
Qed.

(** X20.  The cooldown of the profile checks is kept per user, not per
    chat.  Once a check of a user's photo has run, a second one within
    [AVATAR_CHECK_COOLDOWN] seconds answers [False] and does nothing, in
    whichever chat it is asked for and whatever photo the user shows by
    then; the same holds for the check of the bio and
    [BIO_CHECK_COOLDOWN]. *)
Theorem profile_check_cooldown (R : Runtime) (cfg : Config) (P1 P2 : Platform)
    (chat1 chat2 user : Z) (u1 u2 : option Update) (w : World) :
  (~ now P1 == 0)%Q ->
  (in_cooldown P1 AVATAR_CHECK_COOLDOWN (dict_get Z.eqb user (avatar_check_cache w)) = false ->
   (now P2 - now P1 < AVATAR_CHECK_COOLDOWN)%Q ->
   let w1 := snd (check_user_avatar cfg P1 chat1 user u1 w) in
   check_user_avatar cfg P2 chat2 user u2 w1 = (Ret false, w1))
  /\ (in_cooldown P1 BIO_CHECK_COOLDOWN (dict_get Z.eqb user (bio_check_cache w)) = false ->
      (now P2 - now P1 < BIO_CHECK_COOLDOWN)%Q ->
      let w1 := snd (check_user_bio R cfg P1 chat1 user u1 w) in
      check_user_bio R cfg P2 chat2 user u2 w1 = (Ret false, w1)).
Proof.
  intros Hne. split.
  - intros Hrun Hlt. cbv zeta.
    assert (Hcache : dict_get Z.eqb user
                       (avatar_check_cache (snd (check_user_avatar cfg P1 chat1 user u1 w))) =
                     Some (now P1)).
    { unfold check_user_avatar at 1. rewrite bind_get_world, Hrun.
      unfold bind at 1, modify at 1.
      rewrite (check_user_avatar_keeps_any _ avatar_check_cache
                 (fun _ _ => eq_refl) (fun _ _ => eq_refl) (fun _ _ => eq_refl)).
      cbn [avatar_check_cache with_avatar_checks].
      apply (@dict_get_set_same Z _ Z.eqb Z.eqb_eq). }
    unfold check_user_avatar at 1. rewrite bind_get_world, Hcache.
    now rewrite in_cooldown_recent.
  - intros Hrun Hlt. cbv zeta.
    assert (Hcache : dict_get Z.eqb user
                       (bio_check_cache (snd (check_user_bio R cfg P1 chat1 user u1 w))) =
                     Some (now P1)).
    { unfold check_user_bio at 1. rewrite bind_get_world, Hrun.
      unfold bind at 1, modify at 1.
      rewrite (check_user_bio_keeps_any _ bio_check_cache
                 (fun _ _ => eq_refl) (fun _ _ => eq_refl)).
      cbn [bio_check_cache with_bio_checks].
      apply (@dict_get_set_same Z _ Z.eqb Z.eqb_eq). }
    unfold check_user_bio at 1. rewrite bind_get_world, Hcache.
    now rewrite in_cooldown_recent.
Qed.

Lemma profile_check_cooldown_witness :
  let w1 := snd (check_user_avatar (config_py []) avatar_platform (-100) 7 None
                   (world_of db_with_banned_avatar)) in
  check_user_avatar (config_py []) (example_platform 700) (-200) 7 None w1 = (Ret false, w1).
Proof.
  refine (proj1 (profile_check_cooldown example_runtime (config_py []) avatar_platform
                   (example_platform 700) (-100) (-200) 7 None None
                   (world_of db_with_banned_avatar) _) eq_refl _).
  - intro H. vm_compute in H. discriminate H.
  - reflexivity.
Defined.

(** ** The profile checks on every message *)

Lemma admin_precheck_run (P : Platform) (chat user : Z) (w : World) :
  try_log (member <- query (fun h => get_chat_member P h chat user) ;;
           if is_chat_admin member then raise ApplicationHandlerStop else ret tt)%py w =
  (Ret tt, w).
Proof.
  unfold_monad. destruct (get_chat_member P (events w) chat user) as [member|]; [|reflexivity].
  now destruct (is_chat_admin member).
Qed.

(** X21.  The profile checks on a message do not let chat administrators
    off.  The exemption is raised as [ApplicationHandlerStop] inside the
    [try] that guards the membership lookup, and the [except Exception]
    of that [try] swallows it: the lookup block always falls through and
    changes nothing.  The handler therefore behaves the same whether
    [MODERATE_ADMINS] is on or off, and an administrator whose name
    holds a banned word is put through the ban like anyone else. *)
Theorem profile_checks_screen_admins (R : Runtime) (cfg : Config) (P : Platform)
    (update : Update) (reply_sender_chat : option ChatType) (w : World) (b : bool) :
  check_message_username R (with_moderate_admins cfg b) P update reply_sender_chat w =
  check_message_username R cfg P update reply_sender_chat w.
Proof.
  unfold check_message_username.
  destruct (message update) as [m|]; [|reflexivity].
  destruct (effective_chat update) as [chat|]; [|reflexivity].
  destruct (effective_user update) as [user|]; [|reflexivity].
  assert (Hblock : forall c,
            (if MODERATE_ADMINS c then ret tt
             else try_log (member <- query (fun h => get_chat_member P h chat (user_id user)) ;;
                           if is_chat_admin member then raise ApplicationHandlerStop
                           else ret tt))%py w = (Ret tt, w)).
  { intros c. destruct (MODERATE_ADMINS c); [reflexivity|apply admin_precheck_run]. }
  destruct reply_sender_chat as [[]|]; try reflexivity;
    unfold bind at 1; rewrite Hblock; symmetry;
    unfold bind at 1; rewrite Hblock; reflexivity.
Qed.

Example admin_with_banned_name :
  existsb is_ban
    (events (snd (check_message_username example_runtime (config_py []) owner_platform
                    bad_owner_update None (world_of db_with_banned_avatar)))) = true.
Proof. reflexivity. Qed.




Lemma snd_try_ret {A : Type} (m : M A) (a : A) (w : World) :
  snd (try_except m (fun _ => ret a) w) = snd (m w).
Proof. unfold try_except, ret. now destruct (m w) as [[x|e] w1]. Qed.

Lemma avatar_banned_after_add (d : Database) (fuid file_id : text) (phash : option text)
    (admin : Z) :
  is_avatar_banned (snd (add_banned_avatar d fuid file_id phash admin)) fuid = true.
Proof.
  unfold add_banned_avatar, is_avatar_banned.
  destruct (existsb (fun r => text_eqb (fst r) fuid) (banned_avatars d)) eqn:E; [exact E|].
  cbn [snd banned_avatars with_banned_avatars]. rewrite existsb_app. cbn.
  now rewrite text_eqb_refl, orb_true_r.
Qed.

(** X23.  A photo put on the list of banned avatars is enforced by the
    next check of a user who shows it.  Whatever the store held before,
    after [add_banned_avatar] a check outside the cooldown of a user whose
    newest profile photo is that photo deletes the message at hand, if
    there is one, purges the user's cached ids and issues the ban call;
    the cache of photo hashes is left as it was. *)
Theorem banned_avatar_is_enforced (cfg : Config) (P : Platform) (chat user : Z)
    (update : option Update) (d : Database) (fuid file_id : text) (phash : option text)
    (admin : Z) (w : World) :
  db w = snd (add_banned_avatar d fuid file_id phash admin) ->
  in_cooldown P AVATAR_CHECK_COOLDOWN (dict_get Z.eqb user (avatar_check_cache w)) = false ->
  get_user_profile_photos P (events w) user = Some (Some fuid) ->
  exists pre dels post,
    emitted (check_user_avatar cfg P chat user update) w =
      pre ++ CachePop chat user (cached_ids w chat user)
          :: dels ++ BanChatMember chat user true :: post
    /\ forallb is_delete_one pre = true
    /\ forallb is_bulk_delete dels = true
    /\ forallb is_notice post = true
    /\ user_avatar_phash_cache (snd (check_user_avatar cfg P chat user update w)) =
       user_avatar_phash_cache w.
Proof.
  intros Hdb Hcool Hphoto.
  set (w0 := with_avatar_checks w (dict_set Z.eqb user (now P) (avatar_check_cache w))).
  assert (Hbanned : is_avatar_banned (db w0) fuid = true).
  { unfold w0. cbn [db with_avatar_checks]. rewrite Hdb. apply avatar_banned_after_add. }
  assert (Hrun : snd (check_user_avatar cfg P chat user update w) =
                 snd ((delete_context_message P update ;;
                       _ban_for_profile_violation cfg P chat user AvatarExact)%py w0)).
  { unfold check_user_avatar. rewrite bind_get_world, Hcool.
    unfold bind at 1, modify at 1. fold w0. rewrite snd_try_ret.
    unfold bind at 1, query at 1.
    change (events w0) with (events w). rewrite Hphoto.
    rewrite bind_get_world, Hbanned. reflexivity. }
  assert (Hdel : exists pre,
             delete_context_message P update w0 = (Ret tt, with_events w0 (events w ++ pre))
             /\ forallb is_delete_one pre = true).
  { unfold delete_context_message.
    destruct update as [u|]; [destruct (message u) as [m|]|].
    - unfold delete_message. rewrite try_log_call. eexists. split; [reflexivity|reflexivity].
    - exists []. unfold ret. rewrite app_nil_r. split; [|reflexivity].
      unfold w0. now destruct w.
    - exists []. unfold ret. rewrite app_nil_r. split; [|reflexivity].
      unfold w0. now destruct w. }
  destruct Hdel as [pre [Hdel Hpre]].
  unfold bind at 1 in Hrun. rewrite Hdel in Hrun.
  destruct (ban_for_profile_order cfg P chat user AvatarExact
              (with_events w0 (events w ++ pre))) as [dels [post [Hev [Hd Hp]]]].
  pose proof (ban_for_profile_keeps _ user_avatar_phash_cache
                (fun _ _ => eq_refl) (fun _ _ => eq_refl) cfg P chat user AvatarExact
                (with_events w0 (events w ++ pre))) as Hkeep.
  unfold keeps in Hkeep.
  exists pre, dels, post. split; [|repeat split; auto].
  - apply emitted_app. rewrite Hrun, Hev. cbn [events with_events].
    now rewrite <- app_assoc.
  - rewrite Hrun, Hkeep. reflexivity.
Qed.

Lemma banned_avatar_is_enforced_witness :
  exists pre dels post,
    emitted (check_user_avatar (config_py []) avatar_platform (-100) 7 None)
      (world_of (snd (add_banned_avatar empty_db [97; 118] [102] None 1))) =
      pre ++ CachePop (-100) 7 [] :: dels ++ BanChatMember (-100) 7 true :: post
    /\ forallb is_delete_one pre = true
    /\ forallb is_bulk_delete dels = true
    /\ forallb is_notice post = true
    /\ user_avatar_phash_cache
         (snd (check_user_avatar (config_py []) avatar_platform (-100) 7 None
                 (world_of (snd (add_banned_avatar empty_db [97; 118] [102] None 1))))) = [].
Proof.
  apply (banned_avatar_is_enforced (config_py []) avatar_platform (-100) 7 None empty_db
           [97; 118] [102] None 1
           (world_of (snd (add_banned_avatar empty_db [97; 118] [102] None 1))));
    reflexivity.
Defined.

(** ** A link in the bio *)

Lemma purge_not_ban (P : Platform) (chat user : Z) :
  frame (emits_only not_ban) (delete_cached_messages P chat user).
Proof.
  intros w. rewrite delete_cached_messages_exact. cbn [snd events with_events].
  eexists. split; [reflexivity|].
  unfold purge_events. cbn [forallb not_ban is_ban negb andb].
  induction (chunks _ _ _) as [|c cs IH]; [reflexivity|exact IH].
Qed.

Lemma notify_admins_not_ban (P : Platform) (admins : list Z) (n : Notice) :
  frame (emits_only not_ban) (notify_admins P admins n).
Proof.
  eapply frame_weaken; [|apply notify_admins_notices].
  intros [] H; cbn in *; congruence.
Qed.

Lemma moderate_bio_link_not_ban (cfg : Config) (P : Platform) (chat user : Z) (bio : text)
    (update : option Update) :
  frame (emits_only not_ban) (moderate_bio_link cfg P chat user bio update).
Proof.
  unfold moderate_bio_link, can_restrict_members_attr.
  frame_auto; solve_emits;
    first [apply purge_not_ban | apply notify_admins_not_ban].
Qed.

Lemma moderate_bio_link_true (cfg : Config) (P : Platform) (chat user : Z) (bio : text)
    (update : option Update) (w : World) :
  fst (moderate_bio_link cfg P chat user bio update w) = Ret true ->
  exists pre post,
    events (snd (moderate_bio_link cfg P chat user bio update w)) =
      events w ++ pre ++ RestrictChatMember chat user PERMS_FULL_RESTRICT None :: post
    /\ call_fails P (events w ++ pre)
         (RestrictChatMember chat user PERMS_FULL_RESTRICT None) = false.
Proof.
  destruct (moderate_bio_link cfg P chat user bio update w) as [o w'] eqn:Erun.
  cbn [fst snd]. intros Ho. subst o.
  unfold moderate_bio_link in Erun.
  match type of Erun with
  | context [bind (try_except ?m ?h) _] =>
      assert (Hb : exists b, try_except m h w = (Ret b, w))
  end.
  { unfold can_restrict_members_attr. unfold_monad.
    destruct (get_me P (events w)) as [me|]; [|eauto].
    destruct (get_chat_member P (events w) chat me) as [[]|]; eauto. }
  destruct Hb as [b Hb]. unfold bind at 1 in Erun. rewrite Hb in Erun.
  destruct b; cbn [negb] in Erun; [|discriminate].
  match type of Erun with
  | context [bind (try_log ?m) _] =>
      assert (Hf : frame (emits_only (fun _ => true)) (try_log m));
      [|pose proof (try_log_returns m w) as Hret;
        destruct (Hf w) as [pre [Hpre _]];
        unfold bind at 1 in Erun;
        destruct (try_log m w) as [[[]|e] w2]; cbn [fst snd] in Hret, Hpre; [|discriminate]]
  end.
  { frame_auto; solve_emits.
    eapply frame_weaken; [|apply purge_not_ban]. reflexivity. }
  unfold bind at 1 in Erun. rewrite try_bind_call in Erun.
  rewrite Hpre in Erun.
  destruct (call_fails P (events w ++ pre) _) eqn:Ecall; [discriminate|].
  change (try_except (ret true) ?h ?w0) with (Ret true, w0) in Erun.
  cbv iota beta in Erun. cbn [negb] in Erun.
  match type of Erun with
  | ?m ?w0 = _ =>
      assert (Hf2 : frame (emits_only (fun _ => true)) m);
      [|destruct (Hf2 w0) as [post [Hpost _]]]
  end.
  { frame_auto; solve_emits.
    eapply frame_weaken; [|apply notify_admins_notices]. reflexivity. }
  rewrite Erun in Hpost. cbn [snd events with_events] in Hpost.
  exists pre, post. split; [|exact Ecall].
  rewrite Hpost. now rewrite <- !app_assoc.
Qed.

(** X24.  A link in the bio restricts, it never bans.  With link banning
    on in the chat, a bio that holds a link is handled before the banned
    bio words are looked at: whatever words the bio holds, no ban call is
    issued; the answer [True] means that the restriction of all rights
    was issued and went through. *)
Theorem bio_link_restricts (R : Runtime) (cfg : Config) (P : Platform) (chat user : Z)
    (update : option Update) (bio : text) (w : World) :
  in_cooldown P BIO_CHECK_COOLDOWN (dict_get Z.eqb user (bio_check_cache w)) = false ->
  get_chat P (events w) user = Some (Some bio) ->
  nonempty bio = true ->
  is_link_deletion_enabled (db w) chat = true ->
  link_in_bio_search R (str_lower R bio) = true ->
  let r := check_user_bio R cfg P chat user update w in
  let out := emitted (check_user_bio R cfg P chat user update) w in
  let restrict := RestrictChatMember chat user PERMS_FULL_RESTRICT None in
  forallb not_ban out = true
  /\ (fst r = Ret true ->
      exists pre post, out = pre ++ restrict :: post
                       /\ call_fails P (events w ++ pre) restrict = false).
Proof.
  intros Hcool Hbio Hne Hlinks Hlink. cbv zeta.
  set (w0 := with_bio_checks w (dict_set Z.eqb user (now P) (bio_check_cache w))).
  assert (Hrun : check_user_bio R cfg P chat user update w =
                 try_except (moderate_bio_link cfg P chat user bio update)
                            (fun _ => ret false) w0).
  { unfold check_user_bio. rewrite bind_get_world, Hcool.
    unfold bind at 1, modify at 1. fold w0.
    unfold try_except, bind at 1, query at 1.
    change (events w0) with (events w). rewrite Hbio.
    unfold truthy, text_or_empty. cbn [default]. rewrite Hne. cbn [negb].
    rewrite bind_get_world.
    change (db w0) with (db w). rewrite Hlinks, Hlink. reflexivity. }
  split.
  - destruct (moderate_bio_link_not_ban cfg P chat user bio update w0) as [l [Hl Hp]].
    erewrite emitted_app; [exact Hp|].
    rewrite Hrun, snd_try_ret, Hl. reflexivity.
  - intros Htrue. rewrite Hrun in Htrue.
    assert (Hinner : fst (moderate_bio_link cfg P chat user bio update w0) = Ret true).
    { unfold try_except in Htrue.
      destruct (moderate_bio_link cfg P chat user bio update w0) as [[x|e] w1];
        [exact Htrue|discriminate]. }
    destruct (moderate_bio_link_true cfg P chat user bio update w0 Hinner)
      as [pre [post [Hev Hcall]]].
    exists pre, post. split; [|exact Hcall].
    apply emitted_app. rewrite Hrun, snd_try_ret, Hev. reflexivity.
Qed.

Lemma bio_link_restricts_witness :
  let m := check_user_bio example_runtime (config_py []) bio_link_platform (-100) 7 None in
  let restrict := RestrictChatMember (-100) 7 PERMS_FULL_RESTRICT None in
  forallb not_ban (emitted m (world_of db_with_ban_word)) = true
  /\ exists pre post,
       emitted m (world_of db_with_ban_word) = pre ++ restrict :: post
       /\ call_fails bio_link_platform (events (world_of db_with_ban_word) ++ pre) restrict =
          false.
Proof.
  cbv zeta.
  destruct (bio_link_restricts example_runtime (config_py []) bio_link_platform (-100) 7 None
              [116; 46; 109; 101; 47; 120] (world_of db_with_ban_word)
              eq_refl eq_refl eq_refl eq_refl eq_refl) as [H1 H2].
  split; [exact H1|]. apply H2. reflexivity.
Defined.

(** ** The outcome of the profile checks on a message *)

Section ScreeningOutcome.
Variable R : Runtime.
Variable cfg : Config.
Variable P : Platform.






End ScreeningOutcome.

(** ** The id cache after many messages *)

Lemma skipn_bound_step (bound : nat) (l : list Z) (x : Z) :
  (length l <= bound)%nat ->
  (if (bound <? length (l ++ [x]))%nat then tl (l ++ [x]) else l ++ [x]) =
  skipn (length (l ++ [x]) - bound) (l ++ [x]).
Proof.
  intros Hl. rewrite length_app. cbn [length].
  destruct (bound <? length l + 1)%nat eqn:E.
  - apply Nat.ltb_lt in E. replace (length l + 1 - bound)%nat with 1%nat by lia.
    now destruct (l ++ [x]).
  - apply Nat.ltb_ge in E. replace (length l + 1 - bound)%nat with 0%nat by lia.
    reflexivity.
Qed.

Lemma skipn_bound_app (bound : nat) (l rest : list Z) :
  let k := (length l - bound)%nat in
  skipn (length (skipn k l ++ rest) - bound) (skipn k l ++ rest) =
  skipn (length (l ++ rest) - bound) (l ++ rest).
Proof.
  cbv zeta. set (k := (length l - bound)%nat).
  rewrite !length_app, length_skipn.
  replace (length l + length rest - bound)%nat
    with ((length l - k + length rest - bound) + k)%nat by (unfold k; lia).
  rewrite <- skipn_skipn. rewrite (skipn_app k l rest).
  replace (k - length l)%nat with 0%nat by (unfold k; lia).
  reflexivity.
Qed.

Lemma cached_ids_add_many (chat user : Z) (ids : list Z) (w : World) :
  (length (cached_ids w chat user) <= USER_MESSAGE_CACHE_SIZE)%nat ->
  let all := cached_ids w chat user ++ ids in
  cached_ids (add_user_message_ids chat user ids w) chat user =
  skipn (length all - USER_MESSAGE_CACHE_SIZE) all.
Proof.
  revert w. induction ids as [|i ids IH]; intros w Hlen; cbv zeta.
  - cbn [add_user_message_ids fold_left]. rewrite app_nil_r.
    replace (length (cached_ids w chat user) - USER_MESSAGE_CACHE_SIZE)%nat with 0%nat by lia.
    reflexivity.
  - unfold add_user_message_ids. cbn [fold_left].
    fold (add_user_message_ids chat user ids (snd (add_user_message_id chat user i w))).
    set (w1 := snd (add_user_message_id chat user i w)).
    assert (H1 : cached_ids w1 chat user =
                 skipn (length (cached_ids w chat user ++ [i]) - USER_MESSAGE_CACHE_SIZE)
                       (cached_ids w chat user ++ [i])).
    { unfold w1. rewrite cached_ids_add_same. cbv zeta. now apply skipn_bound_step. }
    assert (Hlen1 : (length (cached_ids w1 chat user) <= USER_MESSAGE_CACHE_SIZE)%nat).
    { rewrite H1, length_skipn. lia. }
    rewrite (IH w1 Hlen1). cbv zeta. rewrite H1.
    replace (cached_ids w chat user ++ i :: ids)
      with ((cached_ids w chat user ++ [i]) ++ ids) by (now rewrite <- app_assoc).
    apply (skipn_bound_app USER_MESSAGE_CACHE_SIZE (cached_ids w chat user ++ [i]) ids).
Qed.

(** X26.  The id cache holds the newest ids.  After a user's message ids
    were remembered one after the other, the cached list of the pair is
    the old list followed by the new ids, cut down to its last
    [USER_MESSAGE_CACHE_SIZE] entries; so a purge that follows hands
    exactly these ids to the platform, oldest first. *)
Theorem id_cache_holds_newest (P : Platform) (chat user : Z) (ids : list Z) (w : World) :
  (length (cached_ids w chat user) <= USER_MESSAGE_CACHE_SIZE)%nat ->
  let all := cached_ids w chat user ++ ids in
  let kept := skipn (length all - USER_MESSAGE_CACHE_SIZE) all in
  let w1 := add_user_message_ids chat user ids w in
  cached_ids w1 chat user = kept
  /\ (length kept <= USER_MESSAGE_CACHE_SIZE)%nat
  /\ bulk_deleted_ids (emitted (delete_cached_messages P chat user) w1) = kept.
Proof.
  intros Hlen. cbv zeta.
  pose proof (cached_ids_add_many chat user ids w Hlen) as Hc. cbv zeta in Hc.
  split; [exact Hc|]. split; [rewrite length_skipn; lia|].
  erewrite emitted_app.
  2:{ rewrite delete_cached_messages_exact. cbn [snd events with_events].
      assert (He : forall x, events (pop_cached chat user x) = events x)
        by (intros x; unfold pop_cached; now destruct (dict_get _ _ _)).
      reflexivity. }
  unfold purge_events.
  change (bulk_deleted_ids (CachePop ?c ?u ?i :: ?l)) with (bulk_deleted_ids l).
  rewrite bulk_deleted_ids_chunks.
  destruct (chunks_cover_fuel 100 (length (cached_ids (add_user_message_ids chat user ids w)
                                                 chat user))
              (cached_ids (add_user_message_ids chat user ids w) chat user))
    as [Hcc _]; [lia|lia|].
  rewrite Hcc. exact Hc.
Qed.

Lemma id_cache_holds_newest_witness :
  cached_ids (add_user_message_ids (-100) 7 [14; 15] world_with_cached_ids) (-100) 7 =
    [11; 12; 13; 14; 15]
  /\ bulk_deleted_ids
       (emitted (delete_cached_messages (example_platform 0) (-100) 7)
          (add_user_message_ids (-100) 7 [14; 15] world_with_cached_ids)) =
     [11; 12; 13; 14; 15].
Proof.
  destruct (id_cache_holds_newest (example_platform 0) (-100) 7 [14; 15] world_with_cached_ids)
    as [H1 [_ H2]].
  - apply Nat.leb_le. reflexivity.
  - split; [exact H1|exact H2].
Defined.
